(** * FLASH frontend of yt: hierarchy construction and parameter store

    Shallow embedding of [yt/frontends/flash/data_structures.py]
    (classes [FLASHGrid], [FLASHHierarchy], [FLASHStaticOutput]) and the
    properties of the grid hierarchy, the particle-offset table, the
    parameter lookup and the unit table that its specification states.

    Python objects are records held in one [World]; a method is a
    computation in a state-and-exception monad over that world, so that a
    raised exception skips the statements that follow it and keeps every
    mutation made before it. *)

From Stdlib Require Import ZArith String Ascii List Lia Permutation QArith Qminmax.
From stdpp Require Import gmap strings list fin_maps.

Local Open Scope string_scope.
Local Open Scope list_scope.

(** ** Python exceptions and results *)

Inductive exn : Type :=
| KeyError (key : string)
| IndexError
| ValueError
| TypeError
| AttributeError
| IOError.

Inductive result (A : Type) : Type :=
| Ok (a : A)
| Raise (e : exn).
Arguments Ok {A} a.
Arguments Raise {A} e.

(** ** State-and-exception monad *)

Module Py.

Definition M (S A : Type) : Type := S -> S * result A.

Definition ret {S A} (a : A) : M S A := fun s => (s, Ok a).

Definition bind {S A B} (m : M S A) (k : A -> M S B) : M S B :=
  fun s =>
    match m s with
    | (s', Ok a) => k a s'
    | (s', Raise e) => (s', Raise e)
    end.

Definition raise {S A} (e : exn) : M S A := fun s => (s, Raise e).

Definition get {S} : M S S := fun s => (s, Ok s).

Definition gets {S A} (f : S -> A) : M S A := fun s => (s, Ok (f s)).

Definition modify {S} (f : S -> S) : M S unit := fun s => (f s, Ok tt).

Definition lift {S A} (r : result A) : M S A := fun s => (s, r).

(** [try: m except KeyError: h] *)
Definition try_except_KeyError {S A} (m h : M S A) : M S A :=
  fun s =>
    match m s with
    | (s', Raise (KeyError _)) => h s'
    | r => r
    end.

(** [for x in l: body x] *)
Fixpoint for_ {S A} (l : list A) (body : A -> M S unit) : M S unit :=
  match l with
  | [] => ret tt
  | x :: l' => bind (body x) (fun _ => for_ l' body)
  end.

(** [[f x for x in l]] *)
Fixpoint mapM {S A B} (f : A -> M S B) (l : list A) : M S (list B) :=
  match l with
  | [] => ret []
  | x :: l' => bind (f x) (fun y => bind (mapM f l') (fun ys => ret (y :: ys)))
  end.

End Py.

Declare Scope py_scope.
Delimit Scope py_scope with py.
Notation "x <- c ;; k" := (Py.bind c (fun x => k))
  (at level 100, c at next level, right associativity) : py_scope.
Notation "c ;; k" := (Py.bind c (fun _ => k))
  (at level 100, right associativity) : py_scope.

(** ** Python strings: [str.strip] *)

Definition is_space (c : ascii) : bool :=
  let n := nat_of_ascii c in
  (Nat.eqb n 32 || (Nat.leb 9 n && Nat.leb n 13))%bool.

Fixpoint lstrip (s : string) : string :=
  match s with
  | EmptyString => EmptyString
  | String c s' => if is_space c then lstrip s' else s
  end.

Fixpoint rstrip (s : string) : string :=
  match s with
  | EmptyString => EmptyString
  | String c s' =>
      match rstrip s' with
      | EmptyString => if is_space c then EmptyString else String c EmptyString
      | r => String c r
      end
  end.

Definition strip (s : string) : string := lstrip (rstrip s).

(** ** Floating-point interface

    Python floats enter the code only through subtraction, division,
    maximum, conversion from an integer and truncation to an integer; the
    development is parametric in a type with these operations. *)

Class FloatOps (F : Type) : Type := {
  f_of_Z : Z -> F;
  f_sub : F -> F -> F;
  f_mul : F -> F -> F;
  f_div : F -> F -> F;
  f_max : F -> F -> F;
  f_trunc : F -> Z
}.

#[export] Instance Q_FloatOps : FloatOps Q := {|
  f_of_Z := inject_Z;
  f_sub := Qminus;
  f_mul := Qmult;
  f_div := Qdiv;
  f_max := Qmax;
  f_trunc := fun q => Z.quot (Qnum q) (Zpos (Qden q))
|}.

(** ** Machine integers: [dtype='int64'] *)

Definition wrap64 (z : Z) : Z := ((z + 2 ^ 63) mod 2 ^ 64 - 2 ^ 63)%Z.

Definition int32_range (z : Z) : Prop := (- 2 ^ 31 <= z < 2 ^ 31)%Z.

(** ** numpy indexing

    [a[k]] on an axis of length [n]: a negative [k] counts from the end,
    anything outside [-n, n) raises [IndexError]. *)

Definition np_index (n : nat) (k : Z) : result nat :=
  if (0 <=? k)%Z && (k <? Z.of_nat n)%Z then Ok (Z.to_nat k)
  else if (- Z.of_nat n <=? k)%Z && (k <? 0)%Z then Ok (Z.to_nat (Z.of_nat n + k))
  else Raise IndexError.

Definition np_getitem {A} (a : list A) (k : Z) : result A :=
  match np_index (length a) k with
  | Ok i => match a !! i with Some x => Ok x | None => Raise IndexError end
  | Raise e => Raise e
  end.

(** [dst[:] = src] along the first axis: [src] has as many rows as [dst],
    or a single row that is repeated (broadcasting). *)
Definition np_assign_rows {A} (n : nat) (src : list A) : result (list A) :=
  match src with
  | [r] => Ok (replicate n r)
  | _ => if Nat.eqb (length src) n then Ok src else Raise ValueError
  end.

(** [dst.flat[:] = src]: the values of [src] are repeated cyclically until
    [dst] is full; an empty [src] assigns nothing. *)
Definition np_flat_assign (dst src : list Z) : list Z :=
  match src with
  | [] => dst
  | x :: _ => map (fun i => nth (i mod length src) src x) (seq 0 (length dst))
  end.

(** [numpy.add.accumulate] into an [int64] array. *)
Fixpoint accumulate64 (acc : Z) (counts : list Z) : list Z :=
  match counts with
  | [] => []
  | c :: counts' => let acc' := wrap64 (acc + c) in acc' :: accumulate64 acc' counts'
  end.

(** A stable instance of [numpy.argsort], used to run the model. *)
Fixpoint insert_by (keys : list Z) (i : nat) (sorted : list nat) : list nat :=
  match sorted with
  | [] => [i]
  | j :: rest =>
      if (nth i keys 0 <? nth j keys 0)%Z then i :: sorted
      else j :: insert_by keys i rest
  end.

Definition stable_argsort (keys : list Z) : list nat :=
  fold_left (fun acc i => insert_by keys i acc) (seq 0 (length keys)) [].

Section Flash.

Context {F : Type} `{FloatOps F}.

(** *** Values and datasets of the checkpoint container *)

Inductive pyval : Type :=
| PyInt (z : Z)
| PyFloat (x : F).

(** [int(v)] and [float(v)] *)
Definition py_int (v : pyval) : Z :=
  match v with PyInt z => z | PyFloat x => f_trunc x end.
Definition py_float (v : pyval) : F :=
  match v with PyInt z => f_of_Z z | PyFloat x => x end.

(** A value used as an array size or as an integer factor. *)
Definition as_integer (v : pyval) : result Z :=
  match v with PyInt z => Ok z | PyFloat _ => Raise TypeError end.

Inductive Dataset : Type :=
| ParamTable (rows : list (string * pyval))
    (** rows [(name, value)] of a parameter table *)
| SummaryTable (rows : list (list (string * pyval)))
    (** rows of a compound type with named fields *)
| IntArray (a : list Z)
| IntArray2 (a : list (list Z))
| BoxArray (a : list (list (F * F)))
    (** [N x 3 x 2]: per grid and axis, the lower and upper bound *)
| NameArray (a : list (list string)).

Definition as_ParamTable (d : Dataset) : result (list (string * pyval)) :=
  match d with ParamTable r => Ok r | _ => Raise TypeError end.
Definition as_SummaryTable (d : Dataset) : result (list (list (string * pyval))) :=
  match d with SummaryTable r => Ok r | _ => Raise TypeError end.
Definition as_IntArray (d : Dataset) : result (list Z) :=
  match d with IntArray a => Ok a | _ => Raise TypeError end.
Definition as_IntArray2 (d : Dataset) : result (list (list Z)) :=
  match d with IntArray2 a => Ok a | _ => Raise TypeError end.
Definition as_BoxArray (d : Dataset) : result (list (list (F * F))) :=
  match d with BoxArray a => Ok a | _ => Raise TypeError end.
Definition as_NameArray (d : Dataset) : result (list (list string)) :=
  match d with NameArray a => Ok a | _ => Raise TypeError end.

(** *** Objects *)

Record FLASHGrid : Type := mkGrid {
  id : Z;
  Level : Z;
  Parent : option nat;          (** reference: position in [grids] *)
  Children : list nat;          (** references: positions in [grids] *)
  ActiveDimensions : option (list Z);
  LeftEdge : option (list F);
  RightEdge : option (list F);
  NumberOfParticles : option Z;
  dds : option (list F)
}.

Definition _id_offset : Z := 1.

(** [FLASHGrid.__init__] *)
Definition FLASHGrid_init (i : Z) (level : Z) : FLASHGrid :=
  {| id := i; Level := level; Parent := None; Children := [];
     ActiveDimensions := None; LeftEdge := None; RightEdge := None;
     NumberOfParticles := None; dds := None |}.

Definition set_Children (c : list nat) (g : FLASHGrid) : FLASHGrid :=
  {| id := id g; Level := Level g; Parent := Parent g; Children := c;
     ActiveDimensions := ActiveDimensions g; LeftEdge := LeftEdge g;
     RightEdge := RightEdge g; NumberOfParticles := NumberOfParticles g;
     dds := dds g |}.

Definition set_Parent (p : option nat) (g : FLASHGrid) : FLASHGrid :=
  {| id := id g; Level := Level g; Parent := p; Children := Children g;
     ActiveDimensions := ActiveDimensions g; LeftEdge := LeftEdge g;
     RightEdge := RightEdge g; NumberOfParticles := NumberOfParticles g;
     dds := dds g |}.

Definition set_prepared (d : list Z) (le re : list F) (np : Z) (g : FLASHGrid)
  : FLASHGrid :=
  {| id := id g; Level := Level g; Parent := Parent g; Children := Children g;
     ActiveDimensions := Some d; LeftEdge := Some le; RightEdge := Some re;
     NumberOfParticles := Some np; dds := dds g |}.

Definition set_dds (d : list F) (g : FLASHGrid) : FLASHGrid :=
  {| id := id g; Level := Level g; Parent := Parent g; Children := Children g;
     ActiveDimensions := ActiveDimensions g; LeftEdge := LeftEdge g;
     RightEdge := RightEdge g; NumberOfParticles := NumberOfParticles g;
     dds := Some d |}.

Record FLASHHierarchy : Type := mkHier {
  h_handle : option nat;        (** [self._handle]: a File object or None *)
  num_grids : pyval;
  grid_left_edge : list (list F);
  grid_right_edge : list (list F);
  grid_dimensions : list (list Z);
  grid_levels : list Z;
  grid_particle_count : list Z;
  _particle_indices : list Z;
  grids : list FLASHGrid;
  max_level : option Z;
  field_list : list string
}.

Record FLASHStaticOutput : Type := mkPf {
  pf_handle : option nat;       (** [self._handle]: a File object or None *)
  parameters : gmap string pyval;
  units : gmap string pyval;
  time_units : gmap string pyval;
  conversion_factors : gmap string pyval;
  domain_left_edge : option (list F);
  domain_right_edge : option (list F);
  current_time : option F
}.

(** The world: the checkpoint file on disk ([None] when it cannot be
    opened as a container), the File objects created so far ([true] =
    open), and the two objects. *)
Record World : Type := mkWorld {
  disk : option (gmap string Dataset);
  files : list bool;
  pf : FLASHStaticOutput;
  hier : FLASHHierarchy
}.

Definition with_files (f : list bool -> list bool) (w : World) : World :=
  {| disk := disk w; files := f (files w); pf := pf w; hier := hier w |}.
Definition with_pf (f : FLASHStaticOutput -> FLASHStaticOutput) (w : World) : World :=
  {| disk := disk w; files := files w; pf := f (pf w); hier := hier w |}.
Definition with_hier (f : FLASHHierarchy -> FLASHHierarchy) (w : World) : World :=
  {| disk := disk w; files := files w; pf := pf w; hier := f (hier w) |}.

Abbreviation M := (Py.M World).

Local Open Scope py_scope.

(** *** The container's interface: [h5py.File], [close], [handle[key]] *)

Definition h5py_File : M nat :=
  fun w =>
    match disk w with
    | Some _ => (with_files (fun fs => fs ++ [true]) w, Ok (length (files w)))
    | None => (w, Raise IOError)
    end.

Definition h5_close (h : nat) : M unit :=
  Py.modify (with_files (fun fs => <[h := false]> fs)).

Definition h5_getitem (h : nat) (key : string) : M Dataset :=
  fun w =>
    match files w !! h, disk w with
    | Some true, Some f =>
        match f !! key with
        | Some d => (w, Ok d)
        | None => (w, Raise (KeyError key))
        end
    | _, _ => (w, Raise ValueError)
    end.

(** [self._handle.close()] on an attribute that may be None *)
Definition close_attr (h : option nat) : M unit :=
  match h with
  | Some h => h5_close h
  | None => Py.raise AttributeError
  end.


Definition set_h_handle (v : option nat) (s : FLASHHierarchy) : FLASHHierarchy :=
  {| h_handle := v; num_grids := num_grids s;
     grid_left_edge := grid_left_edge s; grid_right_edge := grid_right_edge s;
     grid_dimensions := grid_dimensions s; grid_levels := grid_levels s;
     grid_particle_count := grid_particle_count s;
     _particle_indices := _particle_indices s; grids := grids s;
     max_level := max_level s; field_list := field_list s |}.

Definition set_num_grids (v : pyval) (s : FLASHHierarchy) : FLASHHierarchy :=
  {| h_handle := h_handle s; num_grids := v;
     grid_left_edge := grid_left_edge s; grid_right_edge := grid_right_edge s;
     grid_dimensions := grid_dimensions s; grid_levels := grid_levels s;
     grid_particle_count := grid_particle_count s;
     _particle_indices := _particle_indices s; grids := grids s;
     max_level := max_level s; field_list := field_list s |}.

Definition set_grid_left_edge (v : list (list F)) (s : FLASHHierarchy) : FLASHHierarchy :=
  {| h_handle := h_handle s; num_grids := num_grids s;
     grid_left_edge := v; grid_right_edge := grid_right_edge s;
     grid_dimensions := grid_dimensions s; grid_levels := grid_levels s;
     grid_particle_count := grid_particle_count s;
     _particle_indices := _particle_indices s; grids := grids s;
     max_level := max_level s; field_list := field_list s |}.

Definition set_grid_right_edge (v : list (list F)) (s : FLASHHierarchy) : FLASHHierarchy :=
  {| h_handle := h_handle s; num_grids := num_grids s;
     grid_left_edge := grid_left_edge s; grid_right_edge := v;
     grid_dimensions := grid_dimensions s; grid_levels := grid_levels s;
     grid_particle_count := grid_particle_count s;
     _particle_indices := _particle_indices s; grids := grids s;
     max_level := max_level s; field_list := field_list s |}.

Definition set_grid_dimensions (v : list (list Z)) (s : FLASHHierarchy) : FLASHHierarchy :=
  {| h_handle := h_handle s; num_grids := num_grids s;
     grid_left_edge := grid_left_edge s; grid_right_edge := grid_right_edge s;
     grid_dimensions := v; grid_levels := grid_levels s;
     grid_particle_count := grid_particle_count s;
     _particle_indices := _particle_indices s; grids := grids s;
     max_level := max_level s; field_list := field_list s |}.

Definition set_grid_levels (v : list Z) (s : FLASHHierarchy) : FLASHHierarchy :=
  {| h_handle := h_handle s; num_grids := num_grids s;
     grid_left_edge := grid_left_edge s; grid_right_edge := grid_right_edge s;
     grid_dimensions := grid_dimensions s; grid_levels := v;
     grid_particle_count := grid_particle_count s;
     _particle_indices := _particle_indices s; grids := grids s;
     max_level := max_level s; field_list := field_list s |}.

Definition set_grid_particle_count (v : list Z) (s : FLASHHierarchy) : FLASHHierarchy :=
  {| h_handle := h_handle s; num_grids := num_grids s;
     grid_left_edge := grid_left_edge s; grid_right_edge := grid_right_edge s;
     grid_dimensions := grid_dimensions s; grid_levels := grid_levels s;
     grid_particle_count := v;
     _particle_indices := _particle_indices s; grids := grids s;
     max_level := max_level s; field_list := field_list s |}.

Definition set_particle_indices (v : list Z) (s : FLASHHierarchy) : FLASHHierarchy :=
  {| h_handle := h_handle s; num_grids := num_grids s;
     grid_left_edge := grid_left_edge s; grid_right_edge := grid_right_edge s;
     grid_dimensions := grid_dimensions s; grid_levels := grid_levels s;
     grid_particle_count := grid_particle_count s;
     _particle_indices := v; grids := grids s;
     max_level := max_level s; field_list := field_list s |}.

Definition set_grids (v : list FLASHGrid) (s : FLASHHierarchy) : FLASHHierarchy :=
  {| h_handle := h_handle s; num_grids := num_grids s;
     grid_left_edge := grid_left_edge s; grid_right_edge := grid_right_edge s;
     grid_dimensions := grid_dimensions s; grid_levels := grid_levels s;
     grid_particle_count := grid_particle_count s;
     _particle_indices := _particle_indices s; grids := v;
     max_level := max_level s; field_list := field_list s |}.

Definition set_max_level (v : option Z) (s : FLASHHierarchy) : FLASHHierarchy :=
  {| h_handle := h_handle s; num_grids := num_grids s;
     grid_left_edge := grid_left_edge s; grid_right_edge := grid_right_edge s;
     grid_dimensions := grid_dimensions s; grid_levels := grid_levels s;
     grid_particle_count := grid_particle_count s;
     _particle_indices := _particle_indices s; grids := grids s;
     max_level := v; field_list := field_list s |}.

Definition set_field_list (v : list string) (s : FLASHHierarchy) : FLASHHierarchy :=
  {| h_handle := h_handle s; num_grids := num_grids s;
     grid_left_edge := grid_left_edge s; grid_right_edge := grid_right_edge s;
     grid_dimensions := grid_dimensions s; grid_levels := grid_levels s;
     grid_particle_count := grid_particle_count s;
     _particle_indices := _particle_indices s; grids := grids s;
     max_level := max_level s; field_list := v |}.

Definition set_pf_handle (v : option nat) (s : FLASHStaticOutput) : FLASHStaticOutput :=
  {| pf_handle := v; parameters := parameters s; units := units s;
     time_units := time_units s; conversion_factors := conversion_factors s;
     domain_left_edge := domain_left_edge s;
     domain_right_edge := domain_right_edge s; current_time := current_time s |}.

Definition set_units (v : gmap string pyval) (s : FLASHStaticOutput) : FLASHStaticOutput :=
  {| pf_handle := pf_handle s; parameters := parameters s; units := v;
     time_units := time_units s; conversion_factors := conversion_factors s;
     domain_left_edge := domain_left_edge s;
     domain_right_edge := domain_right_edge s; current_time := current_time s |}.

Definition set_time_units (v : gmap string pyval) (s : FLASHStaticOutput) : FLASHStaticOutput :=
  {| pf_handle := pf_handle s; parameters := parameters s; units := units s;
     time_units := v; conversion_factors := conversion_factors s;
     domain_left_edge := domain_left_edge s;
     domain_right_edge := domain_right_edge s; current_time := current_time s |}.

Definition set_conversion_factors (v : gmap string pyval) (s : FLASHStaticOutput)
  : FLASHStaticOutput :=
  {| pf_handle := pf_handle s; parameters := parameters s; units := units s;
     time_units := time_units s; conversion_factors := v;
     domain_left_edge := domain_left_edge s;
     domain_right_edge := domain_right_edge s; current_time := current_time s |}.

Definition set_domain_left_edge (v : option (list F)) (s : FLASHStaticOutput)
  : FLASHStaticOutput :=
  {| pf_handle := pf_handle s; parameters := parameters s; units := units s;
     time_units := time_units s; conversion_factors := conversion_factors s;
     domain_left_edge := v;
     domain_right_edge := domain_right_edge s; current_time := current_time s |}.

Definition set_domain_right_edge (v : option (list F)) (s : FLASHStaticOutput)
  : FLASHStaticOutput :=
  {| pf_handle := pf_handle s; parameters := parameters s; units := units s;
     time_units := time_units s; conversion_factors := conversion_factors s;
     domain_left_edge := domain_left_edge s;
     domain_right_edge := v; current_time := current_time s |}.

Definition set_current_time (v : option F) (s : FLASHStaticOutput) : FLASHStaticOutput :=
  {| pf_handle := pf_handle s; parameters := parameters s; units := units s;
     time_units := time_units s; conversion_factors := conversion_factors s;
     domain_left_edge := domain_left_edge s;
     domain_right_edge := domain_right_edge s; current_time := v |}.

(** Attribute reads and dictionary access with Python's failures. *)
Definition getattr {A} (a : option A) : M A :=
  match a with Some x => Py.ret x | None => Py.raise AttributeError end.

Definition dict_getitem {V} (d : gmap string V) (k : string) : M V :=
  match d !! k with Some v => Py.ret v | None => Py.raise (KeyError k) end.

(** [handle[key]] where [handle] may be None *)
Definition getitem (h : option nat) (key : string) : M Dataset :=
  match h with
  | Some h => h5_getitem h key
  | None => Py.raise TypeError
  end.

(** ** Parameter store: [FLASHStaticOutput] *)

(** The table that [_find_parameter] reads: ["/%s %s" % (ptype, ...)]. *)
Definition table_name (ptype : string) (scalar : bool) : string :=
  "/" +:+ ptype +:+ " " +:+ (if scalar then "scalars" else "runtime parameters").

(** [for tpname, pval in rows: if tpname.strip() == pname: return pval]
    followed by [raise KeyError(pname)] *)
Fixpoint scan_rows (rows : list (string * pyval)) (pname : string) : result pyval :=
  match rows with
  | [] => Raise (KeyError pname)
  | (tpname, pval) :: rows' =>
      if String.eqb (strip tpname) pname then Ok pval else scan_rows rows' pname
  end.

Definition _find_parameter (ptype pname : string) (scalar : bool)
    (handle : option nat) : M pyval :=
  handle <- match handle with
            | Some h => Py.ret (Some h)
            | None => Py.gets (fun w => pf_handle (pf w))
            end ;;
  handle <- match handle with
            | Some h => Py.ret h
            | None => h5py_File
            end ;;
  d <- h5_getitem handle (table_name ptype scalar) ;;
  rows <- Py.lift (as_ParamTable d) ;;
  Py.lift (scan_rows rows pname).

(** [na.array([self._find_parameter("real", "%s<suffix>" % ax) for ax in 'xyz'])];
    the values of a real table are floats. *)
Definition find_axes (suffix : string) : M (list F) :=
  Py.mapM (fun ax => v <- _find_parameter "real" (ax +:+ suffix) false None ;;
                     Py.ret (py_float v))
          ["x"; "y"; "z"].

(** [os.stat] and [unique_identifier] are outside the model. *)
Definition _parse_parameter_file : M unit :=
  h <- h5py_File ;;
  Py.modify (with_pf (set_pf_handle (Some h))) ;;
  le <- find_axes "min" ;;
  Py.modify (with_pf (set_domain_left_edge (Some le))) ;;
  re <- find_axes "max" ;;
  Py.modify (with_pf (set_domain_right_edge (Some re))) ;;
  t <- _find_parameter "real" "time" true None ;;
  Py.modify (with_pf (set_current_time (Some (py_float t)))) ;;
  h' <- Py.gets (fun w => pf_handle (pf w)) ;;
  close_attr h'.

(** The static length-unit table [mpc_conversion] of
    [yt.utilities.definitions]; its contents are not part of this module. *)
Variable mpc_conversion : gmap string F.

(** Modelled from the spec: [StaticOutput.has_key], which the module
    inherits; the spec reads [has_key("TimeUnits")] as "a TimeUnits
    parameter is present". *)
Definition has_key (k : string) : M bool :=
  Py.gets (fun w => bool_decide (is_Some (parameters (pf w) !! k))).

(** The logger calls leave the state unchanged and are left out. *)
Definition _setup_nounits_units : M unit :=
  hk <- has_key "TimeUnits" ;;
  (if negb hk
   then Py.modify (with_pf (fun s =>
          set_conversion_factors (<["Time" := PyFloat (f_of_Z 1)]> (conversion_factors s)) s))
   else Py.ret tt) ;;
  Py.for_ (map fst (map_to_list mpc_conversion)) (fun unit =>
    a <- dict_getitem mpc_conversion unit ;;
    c <- dict_getitem mpc_conversion "cm" ;;
    Py.modify (with_pf (fun s =>
      set_units (<[unit := PyFloat (f_div a c)]> (units s)) s))).

(** [a - b] on one-dimensional arrays, with numpy's broadcasting of a
    one-element operand. *)
Definition np_sub (a b : list F) : result (list F) :=
  if Nat.eqb (length a) (length b) then Ok (zip_with f_sub a b)
  else match a, b with
       | [x], _ => Ok (map (fun y => f_sub x y) b)
       | _, [y] => Ok (map (fun x => f_sub x y) a)
       | _, _ => Raise ValueError
       end.

(** [a.max()] *)
Definition np_max (a : list F) : result F :=
  match a with
  | [] => Raise ValueError
  | x :: a' => Ok (fold_left f_max a' x)
  end.

Definition _set_units : M unit :=
  Py.modify (with_pf (set_units ∅)) ;;
  Py.modify (with_pf (set_time_units ∅)) ;;
  n <- Py.gets (fun w => size (parameters (pf w))) ;;
  (if Nat.eqb n 0 then _parse_parameter_file else Py.ret tt) ;;
  _setup_nounits_units ;;
  Py.modify (with_pf (set_conversion_factors ∅)) ;;
  Py.modify (with_pf (fun s => set_time_units (<["1" := PyInt 1]> (time_units s)) s)) ;;
  Py.modify (with_pf (fun s => set_units (<["1" := PyFloat (f_of_Z 1)]> (units s)) s)) ;;
  re <- Py.bind (Py.gets (fun w => domain_right_edge (pf w))) getattr ;;
  le <- Py.bind (Py.gets (fun w => domain_left_edge (pf w))) getattr ;;
  ext <- Py.lift (np_sub re le) ;;
  m <- Py.lift (np_max ext) ;;
  Py.modify (with_pf (fun s =>
    set_units (<["unitary" := PyFloat (f_div (f_of_Z 1) m)]> (units s)) s)) ;;
  let seconds := f_of_Z 1 in
  Py.modify (with_pf (fun s =>
    set_time_units (<["years" := PyFloat (f_div seconds
                        (f_mul (f_of_Z (365 * 3600)) (f_of_Z 24)))]> (time_units s)) s)) ;;
  Py.modify (with_pf (fun s =>
    set_time_units (<["days" := PyFloat (f_div seconds
                        (f_mul (f_of_Z 3600) (f_of_Z 24)))]> (time_units s)) s)).

(** ** Hierarchy builder: [FLASHHierarchy] *)

Definition self_handle : M (option nat) := Py.gets (fun w => h_handle (hier w)).

(** [self._handle["/simulation parameters"][0][0]] *)
Definition summary_first_entry (h : option nat) : M pyval :=
  d <- getitem h "/simulation parameters" ;;
  rows <- Py.lift (as_SummaryTable d) ;;
  row <- Py.lift (np_getitem rows 0) ;;
  fld <- Py.lift (np_getitem row 0) ;;
  Py.ret (snd fld).

Definition _count_grids : M unit :=
  h <- self_handle ;;
  n <- Py.try_except_KeyError
         (_find_parameter "integer" "globalnumblocks" true h)
         (summary_first_entry h) ;;
  Py.modify (with_hier (set_num_grids n)).

(** The column of a named field of a compound dataset; a name that is not
    a field of the type raises. *)
Fixpoint field_column (rows : list (list (string * pyval))) (name : string)
  : result (list pyval) :=
  match rows with
  | [] => Ok []
  | row :: rows' =>
      match list_find (fun fv => fst fv = name) row with
      | None => Raise ValueError
      | Some (_, fv) =>
          match field_column rows' name with
          | Ok vs => Ok (snd fv :: vs)
          | Raise e => Raise e
          end
      end
  end.

(** [int(a)] on an array: only an array of one element converts. *)
Definition int_of_array (a : list pyval) : result pyval :=
  match a with
  | [v] => Ok (PyInt (py_int v))
  | _ => Raise TypeError
  end.

(** [int(f["/simulation parameters"]['n%sb' % ax])] *)
Definition summary_block_size (h : option nat) (ax : string) : M pyval :=
  d <- getitem h "/simulation parameters" ;;
  rows <- Py.lift (as_SummaryTable d) ;;
  col <- Py.lift (field_column rows ("n" +:+ ax +:+ "b")) ;;
  Py.lift (int_of_array col).

(** The [try ... except KeyError] of [_parse_hierarchy]: three lookups in
    one [try] block, the three summary entries in the handler. *)
Definition block_sizes (h : option nat) : M (list pyval) :=
  Py.try_except_KeyError
    (nxb <- _find_parameter "integer" "nxb" true h ;;
     nyb <- _find_parameter "integer" "nyb" true h ;;
     nzb <- _find_parameter "integer" "nzb" true h ;;
     Py.ret [nxb; nyb; nzb])
    (Py.mapM (summary_block_size h) ["x"; "y"; "z"]).

(** Modelled from the spec: the base hierarchy framework
    ([AMRHierarchy._initialize_grid_arrays], not part of this module)
    "supplies grid count/array preallocation": every per-grid array gets
    [num_grids] rows, dimensions start at the unit baseline 1.  The element
    types of these arrays are the framework's ([int32] for the counts in
    yt); the model keeps their entries as integers, and a statement that
    depends on the width says so. *)
Definition _initialize_grid_arrays : M unit :=
  n <- Py.bind (Py.gets (fun w => num_grids (hier w))) (fun v => Py.lift (as_integer v)) ;;
  if (n <? 0)%Z then Py.raise ValueError
  else
    let n := Z.to_nat n in
    Py.modify (with_hier (fun s =>
      set_grid_dimensions (replicate n [1; 1; 1]%Z)
        (set_grid_left_edge (replicate n (replicate 3 (f_of_Z 0)))
           (set_grid_right_edge (replicate n (replicate 3 (f_of_Z 1)))
              (set_grid_levels (replicate n 0%Z)
                 (set_grid_particle_count (replicate n 0%Z) s)))))).

(** [dst[:] = src] for a two-dimensional [dst] of [n] rows and [k] columns. *)
Definition np_assign_2d {A} (n k : nat) (src : list (list A)) : result (list (list A)) :=
  match np_assign_rows n src with
  | Raise e => Raise e
  | Ok rows =>
      (fix go (rs : list (list A)) : result (list (list A)) :=
         match rs with
         | [] => Ok []
         | r :: rs' =>
             match np_assign_rows k r, go rs' with
             | Ok r', Ok rs'' => Ok (r' :: rs'')
             | Raise e, _ => Raise e
             | _, Raise e => Raise e
             end
         end) rows
  end.

(** [self.grid_dimensions[:] *= (nxb, nyb, nzb)] *)
Definition scale_dimensions (dims : list (list Z)) (b : list Z) : list (list Z) :=
  map (fun row => zip_with Z.mul row b) dims.

(** [self._particle_indices = na.zeros(self.num_grids + 1, dtype='int64')]
    followed by [na.add.accumulate(self.grid_particle_count,
    out=self._particle_indices[1:])] *)
Definition particle_offsets (n : Z) (counts : list Z) : result (list Z) :=
  if (n + 1 <? 0)%Z then Raise ValueError
  else if negb (Z.of_nat (length counts) =? n)%Z then Raise ValueError
  else Ok (0%Z :: accumulate64 0 counts).

Definition _parse_hierarchy : M unit :=
  f <- self_handle ;;
  n <- Py.gets (fun w => length (grid_left_edge (hier w))) ;;
  bb <- Py.bind (getitem f "/bounding box") (fun d => Py.lift (as_BoxArray d)) ;;
  le <- Py.lift (np_assign_2d n 3 (map (map fst) bb)) ;;
  Py.modify (with_hier (set_grid_left_edge le)) ;;
  n <- Py.gets (fun w => length (grid_right_edge (hier w))) ;;
  bb <- Py.bind (getitem f "/bounding box") (fun d => Py.lift (as_BoxArray d)) ;;
  re <- Py.lift (np_assign_2d n 3 (map (map snd) bb)) ;;
  Py.modify (with_hier (set_grid_right_edge re)) ;;
  bs <- block_sizes f ;;
  bs <- Py.mapM (fun v => Py.lift (as_integer v)) bs ;;
  Py.modify (with_hier (fun s =>
    set_grid_dimensions (scale_dimensions (grid_dimensions s) bs) s)) ;;
  np <- Py.bind (getitem f "/localnp") (fun d => Py.lift (as_IntArray d)) ;;
  n <- Py.gets (fun w => length (grid_particle_count (hier w))) ;;
  counts <- Py.lift (np_assign_rows n np) ;;
  Py.modify (with_hier (set_grid_particle_count counts)) ;;
  ng <- Py.bind (Py.gets (fun w => num_grids (hier w))) (fun v => Py.lift (as_integer v)) ;;
  counts <- Py.gets (fun w => grid_particle_count (hier w)) ;;
  offs <- Py.lift (particle_offsets ng counts) ;;
  Py.modify (with_hier (set_particle_indices offs)) ;;
  lv <- Py.bind (getitem f "/refine level") (fun d => Py.lift (as_IntArray d)) ;;
  Py.modify (with_hier (fun s =>
    set_grid_levels (np_flat_assign (grid_levels s) (map (fun l => l - 1)%Z lv)) s)) ;;
  g <- Py.mapM (fun i =>
         levels <- Py.gets (fun w => grid_levels (hier w)) ;;
         l <- Py.lift (np_getitem levels (Z.of_nat i)) ;;
         Py.ret (FLASHGrid_init (Z.of_nat i + 1) l))
       (seq 0 (Z.to_nat ng)) ;;
  Py.modify (with_hier (set_grids g)).

(** [numpy.argsort]: the default sort is not stable, so only what every
    implementation guarantees is assumed: the result lists each position
    once. *)
Variable argsort : list Z -> list nat.
Hypothesis argsort_perm : forall l, Permutation (argsort l) (seq 0 (length l)).

(** In-place update of the grid object at position [g]. *)
Definition update_grid (g : nat) (f : FLASHGrid -> FLASHGrid) : M unit :=
  Py.modify (with_hier (fun s => set_grids (alter f g (grids s)) s)).

Definition grid_at (g : nat) : M FLASHGrid :=
  fun w => match grids (hier w) !! g with
           | Some G => (w, Ok G)
           | None => (w, Raise IndexError)
           end.

(** Modelled from the spec: [AMRGridPatch._prepare_grid] of the base
    framework, which gives the grid its row of the per-grid arrays and, as
    the comment in [_parse_hierarchy] says, resets [grid_levels] to the
    grid's level. *)
Definition _prepare_grid (g : nat) : M unit :=
  G <- grid_at g ;;
  let my_ind := (id G - _id_offset)%Z in
  s <- Py.gets hier ;;
  d <- Py.lift (np_getitem (grid_dimensions s) my_ind) ;;
  le <- Py.lift (np_getitem (grid_left_edge s) my_ind) ;;
  re <- Py.lift (np_getitem (grid_right_edge s) my_ind) ;;
  i <- Py.lift (np_index (length (grid_levels s)) my_ind) ;;
  Py.modify (with_hier (fun s => set_grid_levels (<[i := Level G]> (grid_levels s)) s)) ;;
  np <- Py.lift (np_getitem (grid_particle_count s) my_ind) ;;
  update_grid g (set_prepared d le re np).

(** Modelled from the spec: [AMRGridPatch._setup_dx] of the base
    framework: "cell spacing per axis = (right edge - left edge) /
    dimensions". *)
Definition _setup_dx (g : nat) : M unit :=
  G <- grid_at g ;;
  le <- getattr (LeftEdge G) ;;
  re <- getattr (RightEdge G) ;;
  d <- getattr (ActiveDimensions G) ;;
  ext <- Py.lift (np_sub re le) ;;
  update_grid g (set_dds (zip_with (fun e n => f_div e (f_of_Z n)) ext d)).

(** [[self.grids[i - 1] for i in gid[gi,7:] if i > -1]] *)
Definition child_refs (n : nat) (row : list Z) : M (list nat) :=
  Py.mapM (fun i => Py.lift (np_index n (i - 1)))
          (filter (fun i => (i > -1)%Z) (drop 7 row)).

(** The body of the loop of [_populate_grid_objects] for the grid object
    at position [g]. *)
Definition populate_grid (gid : list (list Z)) (g : nat) : M unit :=
  G <- grid_at g ;;
  let gi := (id G - _id_offset)%Z in
  row <- Py.lift (np_getitem gid gi) ;;
  n <- Py.gets (fun w => length (grids (hier w))) ;;
  ch <- child_refs n row ;;
  update_grid g (set_Children ch) ;;
  Py.for_ ch (fun g1 => update_grid g1 (set_Parent (Some g))) ;;
  _prepare_grid g ;;
  _setup_dx g.

(** [self.grid_levels.max()] *)
Definition np_max_Z (a : list Z) : result Z :=
  match a with
  | [] => Raise ValueError
  | x :: a' => Ok (fold_left Z.max a' x)
  end.

Definition _populate_grid_objects : M unit :=
  ii <- Py.gets (fun w => argsort (grid_levels (hier w))) ;;
  gid <- Py.bind (Py.bind self_handle (fun h => getitem h "/gid"))
                 (fun d => Py.lift (as_IntArray2 d)) ;;
  n <- Py.gets (fun w => length (grids (hier w))) ;;
  gs <- Py.mapM (fun i => Py.lift (np_index n (Z.of_nat i))) ii ;;
  Py.for_ gs (populate_grid gid) ;;
  m <- Py.bind (Py.gets (fun w => grid_levels (hier w))) (fun l => Py.lift (np_max_Z l)) ;;
  Py.modify (with_hier (set_max_level (Some m))).

(** [s[0]] of a row of a string array *)
Definition first_name (s : list string) : result string :=
  match s with x :: _ => Ok x | [] => Raise IndexError end.

Definition _detect_fields : M unit :=
  h <- self_handle ;;
  un <- Py.bind (getitem h "/unknown names") (fun d => Py.lift (as_NameArray d)) ;;
  un' <- Py.bind (getitem h "/unknown names") (fun d => Py.lift (as_NameArray d)) ;;
  Py.modify (with_hier (set_field_list (map strip (concat un')))) ;;
  pn <- Py.bind (getitem h "/particle names") (fun d => Py.lift (as_NameArray d)) ;;
  pl <- Py.mapM (fun s => x <- Py.lift (first_name s) ;;
                          Py.ret ("particle_" +:+ strip x)) pn ;;
  Py.modify (with_hier (fun s => set_field_list (field_list s ++ pl) s)).

(** Modelled from the spec: [AMRHierarchy.__init__] of the base
    framework, which runs the phases in order: count the grids,
    preallocate the per-grid arrays, parse the hierarchy, populate the
    relationships, detect the fields.  The field and I/O registries are
    external and left out. *)
Definition AMRHierarchy_init : M unit :=
  _count_grids ;;
  _initialize_grid_arrays ;;
  _parse_hierarchy ;;
  _populate_grid_objects ;;
  _detect_fields.

(** [FLASHHierarchy.__init__] *)
Definition FLASHHierarchy_init : M unit :=
  h <- h5py_File ;;
  Py.modify (with_hier (set_h_handle (Some h))) ;;
  AMRHierarchy_init ;;
  h' <- self_handle ;;
  close_attr h' ;;
  Py.modify (with_hier (set_h_handle None)).

(** ** Sample checkpoint files *)

Definition no_children : list Z := replicate 15 (-1)%Z.

(** A row of [/gid]: six face neighbours and the parent slot, then the
    child slots. *)
Definition row_with (children : list Z) : list Z :=
  replicate 7 (-1)%Z ++ children.

Definition sample_file (gid : list (list Z)) (levels counts : list Z)
  : gmap string Dataset :=
  list_to_map
    [ ("/integer scalars",
        ParamTable [("globalnumblocks   ", PyInt (Z.of_nat (length levels)));
                    ("nxb  ", PyInt 8); ("nyb ", PyInt 8); ("nzb", PyInt 8)]);
      ("/real runtime parameters",
        ParamTable [("xmin ", PyFloat (f_of_Z 0)); ("xmax ", PyFloat (f_of_Z 2));
                    ("ymin ", PyFloat (f_of_Z 0)); ("ymax ", PyFloat (f_of_Z 4));
                    ("zmin ", PyFloat (f_of_Z 0)); ("zmax ", PyFloat (f_of_Z 1))]);
      ("/real scalars", ParamTable [("time  ", PyFloat (f_of_Z 0))]);
      ("/bounding box",
        BoxArray (replicate (length levels)
                    (replicate 3 (f_of_Z 0, f_of_Z 1))));
      ("/localnp", IntArray counts);
      ("/refine level", IntArray levels);
      ("/gid", IntArray2 gid);
      ("/unknown names", NameArray [["dens"]; ["pres"]]);
      ("/particle names", NameArray [["posx  "]]) ].

(** A file of the older format: no ["/integer scalars"] table, the grid
    count and the block sizes only in the summary table. *)
Definition old_format_file (gid : list (list Z)) (levels counts : list Z)
  : gmap string Dataset :=
  <["/simulation parameters" :=
      SummaryTable [[("total blocks", PyInt (Z.of_nat (length levels)));
                     ("time", PyFloat (f_of_Z 0));
                     ("nxb", PyInt 4); ("nyb", PyInt 4); ("nzb", PyInt 2)]]]>
    (delete "/integer scalars" (sample_file gid levels counts)).

Definition new_hierarchy : FLASHHierarchy :=
  {| h_handle := None; num_grids := PyInt 0;
     grid_left_edge := []; grid_right_edge := []; grid_dimensions := [];
     grid_levels := []; grid_particle_count := []; _particle_indices := [];
     grids := []; max_level := None; field_list := [] |}.

Definition new_static_output : FLASHStaticOutput :=
  {| pf_handle := None; parameters := ∅; units := ∅; time_units := ∅;
     conversion_factors := ∅; domain_left_edge := None;
     domain_right_edge := None; current_time := None |}.

Definition new_world (f : option (gmap string Dataset)) : World :=
  {| disk := f; files := []; pf := new_static_output; hier := new_hierarchy |}.

(** Three grids: grid 1 at file level 1 with children 2 and 3. *)
Definition linked_world : World :=
  new_world (Some (sample_file
    [row_with [2; 3]%Z; no_children; no_children] [1; 2; 2]%Z [0; 5; 3]%Z)).

(** Three grids, a 0 in the first child slot of grid 1. *)
Definition zero_slot_world : World :=
  new_world (Some (sample_file
    [row_with [0; -1; -1; -1; -1; -1; -1; -1]%Z; no_children; no_children]
    [1; 2; 2]%Z [0; 5; 3]%Z)).

(** Eight grids, grid 1 names a child 99. *)
Definition bad_child_world : World :=
  new_world (Some (sample_file
    (row_with [2; 99]%Z :: replicate 7 no_children)
    [1; 2; 2; 2; 2; 2; 2; 2]%Z [0; 0; 0; 0; 0; 0; 0; 0]%Z)).

(** Four grids with particle counts 0, 5, 3, 0, in the older format. *)
Definition old_format_world : World :=
  new_world (Some (old_format_file
    (replicate 4 no_children) [1; 1; 1; 1]%Z [0; 5; 3; 0]%Z)).

(** A small length-unit table for running [_set_units]. *)
Definition sample_mpc_conversion : gmap string F :=
  {[ "cm" := f_of_Z 2; "mpc" := f_of_Z 6; "pc" := f_of_Z 4 ]}.

(** A checkpoint without the ["/real scalars"] table: the lookup of
    "time" fails. *)
Definition no_time_world : World :=
  new_world (Some (delete "/real scalars" (sample_file
    [row_with [2; 3]%Z; no_children; no_children] [1; 2; 2]%Z [0; 5; 3]%Z))).

(** The world in which a File object for the checkpoint is open and is
    the hierarchy's handle, as [FLASHHierarchy.__init__] sets it up. *)
Definition opened (w : World) : World :=
  with_hier (set_h_handle (Some (length (files w))))
    (with_files (fun fs => fs ++ [true]) w).

(** ** Predicates used in the statements *)

(** What a phase of the build leaves alone: the file on disk, the File
    objects and the two [_handle] attributes. *)
Definition same_env (w w' : World) : Prop :=
  disk w' = disk w /\ files w' = files w /\
  pf_handle (pf w') = pf_handle (pf w) /\
  h_handle (hier w') = h_handle (hier w).

(** What the steps after the relationship pass leave alone as well: the
    grids and the per-grid arrays. *)
Definition same_hier (w w' : World) : Prop :=
  same_env w w' /\
  grids (hier w') = grids (hier w) /\
  grid_levels (hier w') = grid_levels (hier w) /\
  max_level (hier w') = max_level (hier w) /\
  grid_particle_count (hier w') = grid_particle_count (hier w) /\
  _particle_indices (hier w') = _particle_indices (hier w).

(** What the relationship pass leaves alone as well: the particle
    arrays. *)
Definition same_particles (w w' : World) : Prop :=
  same_env w w' /\
  grid_particle_count (hier w') = grid_particle_count (hier w) /\
  _particle_indices (hier w') = _particle_indices (hier w).

(** [framed R P m]: started in a world that satisfies [P], the
    computation [m] ends, with a value or an exception, in a world related
    to the first by [R]. *)
Definition framed (R : World -> World -> Prop) (P : World -> Prop) {A} (m : M A)
  : Prop :=
  forall w w' r, P w -> m w = (w', r) -> R w w'.

Class Frame (R : World -> World -> Prop) (P : World -> Prop) : Prop := {
  frame_refl : forall w, R w w;
  frame_trans : forall w1 w2 w3, R w1 w2 -> R w2 w3 -> R w1 w3;
  frame_inv : forall w w', R w w' -> P w -> P w'
}.

Definition has_h (w : World) : Prop := is_Some (h_handle (hier w)).
Definition has_pf (w : World) : Prop := is_Some (pf_handle (pf w)).
Definition any_world (w : World) : Prop := True.

(** A computation that keeps the environment, and one that changes
    nothing at all. *)
Abbreviation stable := (framed same_env).
Abbreviation readonly := (framed eq).

(** The part of a grid object that the relationship pass decides and the
    statements are about. *)
Definition links (G : FLASHGrid) : Z * Z * option nat * list nat :=
  (id G, Level G, Parent G, Children G).

(** The effect of the loop body on the links: [g.Children = ch], then
    [g1.Parent = g] for every [g1] in [ch]. *)
Definition link_children (g : nat) (ch : list nat) (gs : list FLASHGrid)
  : list FLASHGrid :=
  foldl (fun acc c => alter (set_Parent (Some g)) c acc)
        (alter (set_Children ch) g gs) ch.

(** What [link_children] does to the grid at position [i]. *)
Definition relink (g : nat) (ch : list nat) (i : nat) (G : FLASHGrid) : FLASHGrid :=
  (if decide (i ∈ ch) then set_Parent (Some g) else fun G => G)
    ((if decide (i = g) then set_Children ch else fun G => G) G).

Definition ident (G : FLASHGrid) : Z * Z := (id G, Level G).

(** [G.Children] is what the list comprehension of
    [_populate_grid_objects] makes of the row of [G]: one reference per
    child slot that passes the filter [i > -1], in the order of the slots. *)
Definition children_of_row (gid : list (list Z)) (n : nat) (G : FLASHGrid) : Prop :=
  exists row, np_getitem gid (id G - _id_offset) = Ok row /\
              Forall2 (fun v c => np_index n (v - 1) = Ok c)
                      (filter (fun i => (i > -1)%Z) (drop 7 row)) (Children G).

(** [grid_levels] holds, at the row of every grid, the level of the grid. *)
Definition levels_agree (ids : list (Z * Z)) (lv : list Z) : Prop :=
  forall i idv l j, ids !! i = Some (idv, l) ->
                    np_index (length lv) (idv - _id_offset) = Ok j ->
                    lv !! j = Some l.

(** A slot of the row of grid [P] selects the grid at position [c]. *)
Definition named_by (gid : list (list Z)) (n : nat) (P : FLASHGrid) (c : nat) : Prop :=
  exists row v, np_getitem gid (id P - _id_offset) = Ok row /\
                v ∈ drop 7 row /\ (v > -1)%Z /\ np_index n (v - 1) = Ok c.

(** The invariant of the loop of [_populate_grid_objects], [done] being
    the positions already visited. *)
Definition pass_inv (gid : list (list Z)) (ids : list (Z * Z)) (lv : list Z)
    (done : list nat) (w : World) : Prop :=
  map ident (grids (hier w)) = ids /\
  grid_levels (hier w) = lv /\
  (forall c C p, grids (hier w) !! c = Some C -> Parent C = Some p ->
     p ∈ done /\
     exists Pg, grids (hier w) !! p = Some Pg /\ c ∈ Children Pg /\
                named_by gid (length ids) Pg c) /\
  (forall g G, g ∈ done -> grids (hier w) !! g = Some G ->
     children_of_row gid (length ids) G).

(** The levels array after [_parse_hierarchy], for [ng] grids and the
    file's ["/refine level"] array, and the identifiers and levels of the
    grid objects made from it. *)
Definition parsed_levels (ng : Z) (file_levels : list Z) : list Z :=
  np_flat_assign (replicate (Z.to_nat ng) 0%Z) (map (fun l => l - 1)%Z file_levels).

Definition parsed_idents (ng : Z) (lv : list Z) : list (Z * Z) :=
  map (fun i => (Z.of_nat i + 1, nth i lv 0)%Z) (seq 0 (Z.to_nat ng)).

(** The sum of a list of counts. *)
Definition total (counts : list Z) : Z := foldr Z.add 0%Z counts.

(** What parsing the parameter file leaves alone: the unit tables. *)
Definition same_units (w w' : World) : Prop :=
  units (pf w') = units (pf w) /\ time_units (pf w') = time_units (pf w).

(** What filling the unit table leaves alone: the time units and the
    domain. *)
Definition same_domain (w w' : World) : Prop :=
  time_units (pf w') = time_units (pf w) /\
  domain_left_edge (pf w') = domain_left_edge (pf w) /\
  domain_right_edge (pf w') = domain_right_edge (pf w).

(** The statement that a computation leaves no File object open,
    whichever way it ends. *)
Definition closes_every_handle {A} (m : M A) (w : World) : Prop :=
  forall w' r, m w = (w', r) -> Forall (fun b => b = false) (files w').

(** ** Further definitions *)

(** A string of whitespace only. *)
Fixpoint all_space (s : string) : bool :=
  match s with
  | EmptyString => true
  | String c s' => is_space c && all_space s'
  end.

(** What the passes of the hierarchy leave alone: the checkpoint on disk
    and the parameter file object. *)
Definition same_store (w w' : World) : Prop :=
  disk w' = disk w /\ pf w' = pf w.

(** Every grid that a visited grid has among its children has a parent. *)
Definition listed_inv (done : list nat) (gs : list FLASHGrid) : Prop :=
  forall p P c, p ∈ done -> gs !! p = Some P -> c ∈ Children P ->
    exists C q, gs !! c = Some C /\ Parent C = Some q.

(** What the passes after the parse leave alone: the grid count. *)
Definition same_count (w w' : World) : Prop :=
  num_grids (hier w') = num_grids (hier w).

(** ** Recognising a checkpoint: [FLASHStaticOutput._is_valid] *)

(** [try: m except: h]: a bare [except] catches every exception. *)
Definition try_except {A} (m h : M A) : M A :=
  fun w =>
    match m w with
    | (w', Raise _) => h w'
    | r => r
    end.

(** The checkpoint is a flat container: every dataset is a member of the
    root group, under its path without the leading slash. *)
Definition root_member (path : string) : option string :=
  match path with
  | String "/"%char name => Some name
  | _ => None
  end.

(** [fileh["/"].keys()] *)
Definition h5_root_keys (h : nat) : M (list string) :=
  fun w =>
    match files w !! h, disk w with
    | Some true, Some f => (w, Ok (omap root_member (map fst (map_to_list f))))
    | _, _ => (w, Raise ValueError)
    end.

(** The file named by [args[0]] is the checkpoint of the world.  The
    [return True] inside the [try] block is the value [Some true] of the
    block; falling out of the block, or into the handler, leads to the
    [return False] that follows. *)
Definition _is_valid : M bool :=
  r <- try_except
         (fileh <- h5py_File ;;
          ks <- h5_root_keys fileh ;;
          if bool_decide ("bounding box" ∈ ks) then Py.ret (Some true)
          else Py.ret None)
         (Py.ret None) ;;
  match r with
  | Some b => Py.ret b
  | None => Py.ret false
  end.

(** ** Further sample checkpoints *)

Definition set_parameters (v : gmap string pyval) (s : FLASHStaticOutput)
  : FLASHStaticOutput :=
  {| pf_handle := pf_handle s; parameters := v; units := units s;
     time_units := time_units s; conversion_factors := conversion_factors s;
     domain_left_edge := domain_left_edge s;
     domain_right_edge := domain_right_edge s; current_time := current_time s |}.

(** A parameter file that already holds a parameter, and no domain. *)
Definition param_world : World :=
  with_pf (set_parameters {[ "Time" := PyFloat (f_of_Z 1) ]}) linked_world.

(** A checkpoint with neither the integer scalars nor the summary
    table. *)
Definition no_count_world : World :=
  new_world (Some (delete "/integer scalars" (sample_file
    [row_with [2; 3]%Z; no_children; no_children] [1; 2; 2]%Z [0; 5; 3]%Z))).

(** Three grids and two particle counts. *)
Definition short_counts_world : World :=
  new_world (Some (sample_file
    [row_with [2; 3]%Z; no_children; no_children] [1; 2; 2]%Z [0; 5]%Z)).


(** Three grids with bounding boxes of their own. *)
Definition boxed_world : World :=
  let b := fun lo hi : Z => (f_of_Z lo, f_of_Z hi) in
  new_world (Some (<["/bounding box" :=
      BoxArray [[b 0 2; b 0 4; b 0 1]; [b 0 1; b 0 2; b 0 1];
                [b 1 2; b 2 4; b 0 1]]%Z]> (sample_file
    [row_with [2; 3]%Z; no_children; no_children] [1; 2; 2]%Z [0; 5; 3]%Z))).

(** * Properties *)

(** ** The monad *)

Lemma bind_inv {S A B} (m : Py.M S A) (k : A -> Py.M S B) s s' r :
  Py.bind m k s = (s', r) ->
  (exists s1 a, m s = (s1, Ok a) /\ k a s1 = (s', r)) \/
  (exists e, m s = (s', Raise e) /\ r = Raise e).
Proof.
  unfold Py.bind. destruct (m s) as [s1 [a|e]]; intros Hk.
  - left. eauto.
  - right. inversion Hk; subst. eauto.
Qed.

Lemma bind_Ok {S A B} (m : Py.M S A) (k : A -> Py.M S B) s s1 a :
  m s = (s1, Ok a) -> Py.bind m k s = k a s1.
Proof. unfold Py.bind. now intros ->. Qed.

Lemma bind_Raise {S A B} (m : Py.M S A) (k : A -> Py.M S B) s s1 e :
  m s = (s1, Raise e) -> Py.bind m k s = (s1, Raise e).
Proof. unfold Py.bind. now intros ->. Qed.

(** ** Parameter lookup *)

Lemma strip_example : strip "  nxb 	 " = "nxb".
Proof. reflexivity. Qed.

Lemma scan_rows_first (pre post : list (string * pyval)) n v pname :
  strip n = pname ->
  (forall n' v', (n', v') ∈ pre -> strip n' <> pname) ->
  scan_rows (pre ++ (n, v) :: post) pname = Ok v.
Proof.
  intros Hn. induction pre as [|[n' v'] pre IH]; intros Hpre; simpl.
  - apply String.eqb_eq in Hn. now rewrite Hn.
  - destruct (String.eqb (strip n') pname) eqn:E.
    + apply String.eqb_eq in E. exfalso. apply (Hpre n' v'); [left | exact E].
    + apply IH. intros n2 v2 Hin. apply (Hpre n2 v2). now right.
Qed.

Lemma scan_rows_none (rows : list (string * pyval)) pname :
  (forall n v, (n, v) ∈ rows -> strip n <> pname) ->
  scan_rows rows pname = Raise (KeyError pname).
Proof.
  induction rows as [|[n v] rows IH]; intros Hrows; simpl; [reflexivity|].
  destruct (String.eqb (strip n) pname) eqn:E.
  - apply String.eqb_eq in E. exfalso. apply (Hrows n v); [left | exact E].
  - apply IH. intros n2 v2 Hin. apply (Hrows n2 v2). now right.
Qed.

Lemma find_parameter_handle ptype pname scalar h w f rows :
  files w !! h = Some true ->
  disk w = Some f ->
  f !! table_name ptype scalar = Some (ParamTable rows) ->
  _find_parameter ptype pname scalar (Some h) w = (w, scan_rows rows pname).
Proof.
  intros Hopen Hdisk Htab. unfold _find_parameter.
  cbn [Py.bind Py.ret]. unfold Py.bind at 1. unfold h5_getitem.
  rewrite Hopen, Hdisk, Htab. reflexivity.
Qed.


(** ** Frame: what the phases leave alone *)

Lemma same_env_refl w : same_env w w.
Proof. unfold same_env. tauto. Qed.

Lemma same_env_trans w1 w2 w3 : same_env w1 w2 -> same_env w2 w3 -> same_env w1 w3.
Proof. unfold same_env. intros (?&?&?&?) (?&?&?&?). repeat split; congruence. Qed.

#[local] Instance same_env_has_h : Frame same_env has_h.
Proof.
  split; [apply same_env_refl | apply same_env_trans |].
  intros w w' (_&_&_&Hh). unfold has_h. now rewrite Hh.
Qed.

#[local] Instance same_env_has_pf : Frame same_env has_pf.
Proof.
  split; [apply same_env_refl | apply same_env_trans |].
  intros w w' (_&_&Hp&_). unfold has_pf. now rewrite Hp.
Qed.

#[local] Instance same_hier_has_h : Frame same_hier has_h.
Proof.
  split.
  - intros w. split; [apply same_env_refl | tauto].
  - intros w1 w2 w3 (E1&?&?&?&?&?) (E2&?&?&?&?&?).
    split; [eapply same_env_trans; eauto | repeat split; congruence].
  - intros w w' ((_&_&_&Hh)&_). unfold has_h. now rewrite Hh.
Qed.

#[local] Instance same_particles_has_h : Frame same_particles has_h.
Proof.
  split.
  - intros w. split; [apply same_env_refl | tauto].
  - intros w1 w2 w3 (E1&?&?) (E2&?&?).
    split; [eapply same_env_trans; eauto | split; congruence].
  - intros w w' ((_&_&_&Hh)&_). unfold has_h. now rewrite Hh.
Qed.

#[local] Instance eq_frame P : Frame eq P.
Proof. split; congruence. Qed.

Section Framed.

Context (R : World -> World -> Prop) (P : World -> Prop) `{!Frame R P}.

Lemma framed_ret {A} (a : A) : framed R P (Py.ret a).
Proof. intros w w' r _ [= <- _]. apply frame_refl. Qed.

Lemma framed_raise {A} e : framed R P (@Py.raise World A e).
Proof. intros w w' r _ [= <- _]. apply frame_refl. Qed.

Lemma framed_lift {A} (x : result A) : framed R P (Py.lift x).
Proof. intros w w' r _ [= <- _]. apply frame_refl. Qed.

Lemma framed_gets {A} (f : World -> A) : framed R P (Py.gets f).
Proof. intros w w' r _ [= <- _]. apply frame_refl. Qed.

Lemma framed_bind {A B} (m : M A) (k : A -> M B) :
  framed R P m -> (forall a, framed R P (k a)) -> framed R P (Py.bind m k).
Proof.
  intros Hm Hk w w' r HP Hrun.
  apply bind_inv in Hrun as [(w1 & a & H1 & H2) | (e & H1 & _)].
  - pose proof (Hm _ _ _ HP H1) as E1.
    eapply frame_trans; [exact E1|].
    eapply Hk; [|exact H2]. eapply frame_inv; eauto.
  - eapply Hm; eauto.
Qed.

Lemma framed_bind_run {A B} (m : M A) (k : A -> M B) w w' r :
  framed R P m -> P w -> Py.bind m k w = (w', r) ->
  (exists w1 a, R w w1 /\ P w1 /\ k a w1 = (w', r)) \/
  (exists e, R w w' /\ r = Raise e).
Proof.
  intros Hm HP Hrun.
  apply bind_inv in Hrun as [(w1 & a & H1 & H2) | (e & H1 & ->)].
  - left. exists w1, a. pose proof (Hm _ _ _ HP H1) as S1.
    split; [exact S1 | split; [eapply frame_inv; eauto | exact H2]].
  - right. exists e. split; [eapply Hm; eauto | reflexivity].
Qed.

Lemma framed_try {A} (m h : M A) :
  framed R P m -> framed R P h -> framed R P (Py.try_except_KeyError m h).
Proof.
  intros Hm Hh w w' r HP. unfold Py.try_except_KeyError.
  destruct (m w) as [w1 r1] eqn:E1. pose proof (Hm _ _ _ HP E1) as S1.
  destruct r1 as [a|[]]; try (intros [= <- _]; exact S1).
  intros Hrun. eapply frame_trans; [exact S1|].
  eapply Hh; [|exact Hrun]. eapply frame_inv; eauto.
Qed.

Lemma framed_for {A} (l : list A) (body : A -> M unit) :
  (forall x, framed R P (body x)) -> framed R P (Py.for_ l body).
Proof.
  intros Hb. induction l as [|x l IH]; simpl.
  - apply framed_ret.
  - apply framed_bind; [apply Hb | intros _; exact IH].
Qed.

Lemma framed_mapM {A B} (f : A -> M B) (l : list A) :
  (forall x, framed R P (f x)) -> framed R P (Py.mapM f l).
Proof.
  intros Hf. induction l as [|x l IH]; simpl.
  - apply framed_ret.
  - apply framed_bind; [apply Hf | intros y].
    apply framed_bind; [exact IH | intros ys; apply framed_ret].
Qed.

Lemma framed_modify (f : World -> World) :
  (forall w, R w (f w)) -> framed R P (Py.modify f).
Proof. intros Hf w w' r _ [= <- _]. apply Hf. Qed.

Lemma framed_h5_getitem h key : framed R P (h5_getitem h key).
Proof.
  intros w w' r _. unfold h5_getitem.
  destruct (files w !! h) as [[]|]; destruct (disk w) as [f|];
    try destruct (f !! key); intros [= <- _]; apply frame_refl.
Qed.

Lemma framed_getitem h key : framed R P (getitem h key).
Proof. destruct h; [apply framed_h5_getitem | apply framed_raise]. Qed.

Lemma framed_getattr {A} (a : option A) : framed R P (getattr a).
Proof. destruct a; [apply framed_ret | apply framed_raise]. Qed.

Lemma framed_dict_getitem {V} (d : gmap string V) k : framed R P (dict_getitem d k).
Proof. unfold dict_getitem. destruct (d !! k); [apply framed_ret | apply framed_raise]. Qed.

Lemma framed_grid_at g : framed R P (grid_at g).
Proof.
  intros w w' r _. unfold grid_at.
  destruct (grids (hier w) !! g); intros [= <- _]; apply frame_refl.
Qed.

Lemma framed_find_parameter ptype pname scalar h :
  framed R P (_find_parameter ptype pname scalar (Some h)).
Proof.
  change (_find_parameter ptype pname scalar (Some h))
    with (Py.bind (h5_getitem h (table_name ptype scalar)) (fun d =>
          Py.bind (Py.lift (as_ParamTable d)) (fun rows =>
          Py.lift (scan_rows rows pname)))).
  repeat (apply framed_bind; [|intros ?]);
    auto using framed_ret, framed_lift, framed_h5_getitem.
Qed.

End Framed.

Ltac sapply l := apply l; try (typeclasses eauto).

Ltac framed_step :=
  lazymatch goal with
  | |- framed _ _ (Py.ret _) => sapply framed_ret
  | |- framed _ _ (Py.raise _) => sapply framed_raise
  | |- framed _ _ (Py.lift _) => sapply framed_lift
  | |- framed _ _ (Py.gets _) => sapply framed_gets
  | |- framed _ _ (getitem _ _) => sapply framed_getitem
  | |- framed _ _ (h5_getitem _ _) => sapply framed_h5_getitem
  | |- framed _ _ (getattr _) => sapply framed_getattr
  | |- framed _ _ (dict_getitem _ _) => sapply framed_dict_getitem
  | |- framed _ _ (grid_at _) => sapply framed_grid_at
  | |- framed _ _ (_find_parameter _ _ _ (Some _)) => sapply framed_find_parameter
  | |- framed _ _ (Py.modify _) =>
      sapply framed_modify; intros ?; repeat split; reflexivity
  | |- framed _ _ (Py.try_except_KeyError _ _) => sapply framed_try
  | |- framed _ _ (Py.for_ _ _) => sapply framed_for; intros ?
  | |- framed _ _ (Py.mapM _ _) => sapply framed_mapM; intros ?
  | |- framed _ _ (Py.bind _ _) => sapply framed_bind; [|intros ?]
  | |- framed _ _ (if ?b then _ else _) => destruct b
  | |- framed _ _ (match ?x with _ => _ end) => destruct x
  end.

Ltac framed_tac := repeat framed_step.

(** With the handle set, a lookup through [self._handle] never opens a
    file of its own. *)
Lemma framed_with_handle R `{!Frame R has_h} {A} (k : option nat -> M A) :
  (forall h, framed R has_h (k (Some h))) -> framed R has_h (Py.bind self_handle k).
Proof.
  intros Hk w w' r [h Hh] Hrun.
  rewrite (bind_Ok _ _ _ w (h_handle (hier w))) in Hrun by reflexivity.
  rewrite Hh in Hrun. eapply Hk; [|exact Hrun]. now exists h.
Qed.

Lemma stable_with_pf_handle ptype pname scalar :
  stable has_pf (_find_parameter ptype pname scalar None).
Proof.
  intros w w' r [h Hh] Hrun. unfold _find_parameter in Hrun.
  rewrite (bind_Ok _ _ _ w (pf_handle (pf w))) in Hrun by reflexivity.
  rewrite Hh in Hrun.
  assert (St : stable has_pf (_find_parameter ptype pname scalar (Some h)))
    by sapply framed_find_parameter.
  eapply St; [now exists h|]. unfold _find_parameter.
  rewrite (bind_Ok _ _ _ w (Some h)) by reflexivity. exact Hrun.
Qed.

Lemma stable_count_grids : stable has_h _count_grids.
Proof.
  unfold _count_grids. apply framed_with_handle; [typeclasses eauto|]. intros h.
  unfold summary_first_entry. framed_tac.
Qed.

Lemma stable_initialize_grid_arrays : stable has_h _initialize_grid_arrays.
Proof. unfold _initialize_grid_arrays. framed_tac. Qed.

Lemma stable_block_sizes h : stable has_h (block_sizes (Some h)).
Proof. unfold block_sizes, summary_block_size. framed_tac. Qed.

Lemma stable_parse_hierarchy : stable has_h _parse_hierarchy.
Proof.
  unfold _parse_hierarchy. apply framed_with_handle; [typeclasses eauto|]. intros h.
  pose proof (stable_block_sizes h). framed_tac; try assumption.
Qed.

Lemma update_grid_particles g f : framed same_particles has_h (update_grid g f).
Proof. unfold update_grid. framed_tac. Qed.

Lemma prepare_grid_particles g : framed same_particles has_h (_prepare_grid g).
Proof. unfold _prepare_grid, update_grid. framed_tac. Qed.

Lemma setup_dx_particles g : framed same_particles has_h (_setup_dx g).
Proof. unfold _setup_dx, update_grid. framed_tac. Qed.

Lemma populate_grid_particles gid g :
  framed same_particles has_h (populate_grid gid g).
Proof.
  unfold populate_grid, child_refs.
  pose proof prepare_grid_particles. pose proof setup_dx_particles.
  pose proof update_grid_particles. framed_tac; auto.
Qed.

Lemma populate_loop_particles gid gs :
  framed same_particles has_h (Py.for_ gs (populate_grid gid)).
Proof. sapply framed_for. apply populate_grid_particles. Qed.

Lemma populate_grid_objects_particles :
  framed same_particles has_h _populate_grid_objects.
Proof.
  unfold _populate_grid_objects.
  sapply framed_bind; [sapply framed_gets | intros ii].
  sapply framed_bind.
  { sapply framed_bind;
      [apply framed_with_handle; [typeclasses eauto|]; intros h; sapply framed_getitem|].
    intros d. sapply framed_lift. }
  intros gid. pose proof (populate_grid_particles gid). framed_tac; auto.
Qed.

Lemma stable_populate_grid_objects : stable has_h _populate_grid_objects.
Proof.
  intros w w' r Hp Hrun. now apply (populate_grid_objects_particles w w' r Hp Hrun).
Qed.

Lemma detect_fields_same_hier : framed same_hier has_h _detect_fields.
Proof.
  unfold _detect_fields. apply framed_with_handle; [typeclasses eauto|].
  intros h. framed_tac.
Qed.

Lemma stable_detect_fields : stable has_h _detect_fields.
Proof.
  intros w w' r Hp Hrun. now apply (detect_fields_same_hier w w' r Hp Hrun).
Qed.

Lemma stable_AMRHierarchy_init : stable has_h AMRHierarchy_init.
Proof.
  unfold AMRHierarchy_init.
  repeat (sapply framed_bind; [|intros _]);
    auto using stable_count_grids, stable_initialize_grid_arrays,
      stable_parse_hierarchy, stable_populate_grid_objects,
      stable_detect_fields with typeclass_instances.
Qed.

(** ** The container handle *)

Lemma has_h_opened w : has_h (opened w).
Proof. unfold has_h, opened. simpl. eauto. Qed.

Lemma init_unfold w f :
  disk w = Some f ->
  FLASHHierarchy_init w =
  Py.bind AMRHierarchy_init (fun _ =>
    Py.bind self_handle (fun h' =>
    Py.bind (close_attr h') (fun _ =>
    Py.modify (with_hier (set_h_handle None))))) (opened w).
Proof.
  intros Hd. unfold FLASHHierarchy_init, Py.bind at 1, h5py_File.
  rewrite Hd. reflexivity.
Qed.

Lemma init_no_file w :
  disk w = None -> FLASHHierarchy_init w = (w, Raise IOError).
Proof.
  intros Hd. unfold FLASHHierarchy_init, Py.bind at 1, h5py_File.
  rewrite Hd. reflexivity.
Qed.

Lemma close_last (fs : list bool) : <[length fs := false]> (fs ++ [true]) = fs ++ [false].
Proof.
  rewrite insert_app_r_alt by lia. now rewrite Nat.sub_diag.
Qed.

(** The outcome of [FLASHHierarchy.__init__] in terms of the build. *)
Lemma init_outcome w f :
  disk w = Some f ->
  match AMRHierarchy_init (opened w) with
  | (w1, Ok _) =>
      FLASHHierarchy_init w =
        (with_hier (set_h_handle None)
           (with_files (fun fs => <[length (files w) := false]> fs) w1), Ok tt)
      /\ same_env (opened w) w1
  | (w1, Raise e) =>
      FLASHHierarchy_init w = (w1, Raise e) /\ same_env (opened w) w1
  end.
Proof.
  intros Hd. rewrite (init_unfold _ _ Hd).
  destruct (AMRHierarchy_init (opened w)) as [w1 r1] eqn:E.
  pose proof (stable_AMRHierarchy_init _ _ _ (has_h_opened w) E) as S1.
  destruct r1 as [[]|e].
  - split; [|exact S1]. rewrite (bind_Ok _ _ _ _ _ E).
    destruct S1 as (_ & _ & _ & Hh).
    rewrite (bind_Ok _ _ _ w1 (h_handle (hier w1))) by reflexivity.
    rewrite Hh. reflexivity.
  - split; [|exact S1]. now rewrite (bind_Raise _ _ _ _ _ E).
Qed.

Lemma parse_parameter_file_unfold w f :
  disk w = Some f ->
  _parse_parameter_file w =
  Py.bind (find_axes "min") (fun le =>
    Py.bind (Py.modify (with_pf (set_domain_left_edge (Some le)))) (fun _ =>
    Py.bind (find_axes "max") (fun re =>
    Py.bind (Py.modify (with_pf (set_domain_right_edge (Some re)))) (fun _ =>
    Py.bind (_find_parameter "real" "time" true None) (fun t =>
    Py.bind (Py.modify (with_pf (set_current_time (Some (py_float t))))) (fun _ =>
    Py.bind (Py.gets (fun w => pf_handle (pf w))) close_attr))))))
    (with_pf (set_pf_handle (Some (length (files w))))
       (with_files (fun fs => fs ++ [true]) w)).
Proof.
  intros Hd. unfold _parse_parameter_file, Py.bind at 1, h5py_File.
  rewrite Hd. reflexivity.
Qed.

Lemma stable_find_axes suffix : stable has_pf (find_axes suffix).
Proof.
  unfold find_axes. pose proof stable_with_pf_handle. framed_tac; auto.
Qed.

Lemma same_env_files w w' :
  same_env w w' -> files w' = files w /\ pf_handle (pf w') = pf_handle (pf w).
Proof. intros (_ & ? & ? & _). now split. Qed.

(** C5 (as amended): [FLASHHierarchy.__init__] and [_parse_parameter_file]
    close the File object they opened exactly on the paths that complete
    without an exception; when an exception is raised after the file was
    opened, the File object is still open when the exception reaches the
    caller. *)
Theorem handle_closed_only_on_success w :
  match FLASHHierarchy_init w with
  | (w', Ok _) => files w' = files w ++ [false]
  | (w', Raise e) =>
      match disk w with
      | Some _ => files w' = files w ++ [true]
      | None => files w' = files w
      end
  end /\
  match _parse_parameter_file w with
  | (w', Ok _) => files w' = files w ++ [false]
  | (w', Raise e) =>
      match disk w with
      | Some _ => files w' = files w ++ [true]
      | None => files w' = files w
      end
  end.
Proof.
  split.
  - destruct (disk w) as [f|] eqn:Hd.
    + pose proof (init_outcome w f Hd) as Ho.
      destruct (AMRHierarchy_init (opened w)) as [w1 [[]|e]];
        destruct Ho as [-> (_ & Hf & _)]; simpl; rewrite Hf; simpl.
      * apply close_last.
      * reflexivity.
    + now rewrite init_no_file.
  - destruct (disk w) as [f|] eqn:Hd.
    + rewrite (parse_parameter_file_unfold _ _ Hd).
      set (w0 := with_pf _ _).
      assert (P0 : has_pf w0) by (unfold has_pf, w0; simpl; eauto).
      assert (F0 : files w0 = files w ++ [true]) by reflexivity.
      assert (H0 : pf_handle (pf w0) = Some (length (files w))) by reflexivity.
      clearbody w0.
      pose proof stable_find_axes as Sa.
      pose proof stable_with_pf_handle as Sf.
      match goal with |- match ?c with _ => _ end => destruct c as [w' r] eqn:E end.
      do 6
        (eapply (framed_bind_run same_env has_pf) in E;
         [ destruct E as [(w1 & ? & S1 & P1 & E) | (? & S1 & ->)];
           [ apply same_env_files in S1 as (F1 & H1);
             rewrite F0 in F1; rewrite H0 in H1;
             clear dependent w0; rename w1 into w0, F1 into F0, H1 into H0, P1 into P0
           | apply same_env_files in S1 as (F1 & _); now rewrite F1 ]
         | solve [framed_tac; auto] | assumption ]).
      unfold Py.bind, Py.gets in E. rewrite H0 in E. simpl in E.
      injection E as <- <-. simpl. rewrite F0. apply close_last.
    + unfold _parse_parameter_file, Py.bind at 1, h5py_File. now rewrite Hd.
Qed.

(** ** Inversion of successful runs *)

Lemma bind_inv_Ok {S A B} (m : Py.M S A) (k : A -> Py.M S B) s s' b :
  Py.bind m k s = (s', Ok b) ->
  exists s1 a, m s = (s1, Ok a) /\ k a s1 = (s', Ok b).
Proof.
  intros Hrun. apply bind_inv in Hrun as [Hok | (e & _ & [=])]. exact Hok.
Qed.

Lemma gets_inv {A} (f : World -> A) w w' a :
  Py.gets f w = (w', Ok a) -> w' = w /\ a = f w.
Proof. now intros [= <- <-]. Qed.

Lemma ret_inv {A} (x : A) (w w' : World) a :
  Py.ret x w = (w', Ok a) -> w' = w /\ a = x.
Proof. now intros [= <- <-]. Qed.

Lemma lift_inv {A} (x : result A) (w w' : World) r :
  Py.lift x w = (w', r) -> w' = w /\ x = r.
Proof. now intros [= <- <-]. Qed.

Lemma modify_inv (f : World -> World) w w' r :
  Py.modify f w = (w', r) -> w' = f w /\ r = Ok tt.
Proof. now intros [= <- <-]. Qed.

Lemma getitem_inv h key w w' d :
  getitem h key w = (w', Ok d) ->
  w' = w /\ exists h0 f, h = Some h0 /\ files w !! h0 = Some true /\
                         disk w = Some f /\ f !! key = Some d.
Proof.
  destruct h as [h0|]; simpl; [|discriminate]. unfold h5_getitem.
  destruct (files w !! h0) as [[]|] eqn:Ef; destruct (disk w) as [f|] eqn:Ed;
    try discriminate.
  destruct (f !! key) eqn:Ek; intros [= <- <-]. split; [reflexivity|].
  exists h0, f. auto.
Qed.

(** [conv(handle[key])] for a dataset of the expected kind *)
Lemma read_inv {A} h key (conv : Dataset -> result A) w w' a :
  Py.bind (getitem h key) (fun d => Py.lift (conv d)) w = (w', Ok a) ->
  w' = w /\ exists h0 f d, h = Some h0 /\ files w !! h0 = Some true /\
                           disk w = Some f /\ f !! key = Some d /\ conv d = Ok a.
Proof.
  intros Hrun. apply bind_inv_Ok in Hrun as (w1 & d & E1 & E2).
  apply getitem_inv in E1 as (-> & h0 & f & -> & Hf & Hd & Hk).
  apply lift_inv in E2 as (-> & Hc). split; [reflexivity|].
  exists h0, f, d. auto.
Qed.

Lemma mapM_inv {A B} (f : A -> M B) (Q : World -> A -> B -> Prop) l w w' ys :
  (forall x w w' y, f x w = (w', Ok y) -> w' = w /\ Q w x y) ->
  Py.mapM f l w = (w', Ok ys) ->
  w' = w /\ Forall2 (Q w) l ys.
Proof.
  intros Hf. revert w' ys. induction l as [|x l IH]; simpl; intros w' ys Hrun.
  - apply ret_inv in Hrun as [-> ->]. split; [reflexivity | constructor].
  - apply bind_inv_Ok in Hrun as (w1 & y & E1 & Hrun).
    apply Hf in E1 as [-> Hy].
    apply bind_inv_Ok in Hrun as (w2 & ys' & E2 & Hrun).
    apply IH in E2 as [-> Hys].
    apply ret_inv in Hrun as [-> ->]. split; [reflexivity | now constructor].
Qed.

Lemma mapM_lift_inv {A B} (f : A -> result B) l (w w' : World) ys :
  Py.mapM (fun x => Py.lift (f x)) l w = (w', Ok ys) ->
  w' = w /\ Forall2 (fun x y => f x = Ok y) l ys.
Proof.
  apply (mapM_inv _ (fun _ x y => f x = Ok y)).
  intros x w0 w1 y Hl. now apply lift_inv in Hl.
Qed.

Lemma readonly_block_sizes h : readonly any_world (block_sizes (Some h)).
Proof. unfold block_sizes, summary_block_size. framed_tac. Qed.

Lemma gets_lift_inv {A B} (f : World -> A) (g : A -> result B) w w' b :
  Py.bind (Py.gets f) (fun v => Py.lift (g v)) w = (w', Ok b) ->
  w' = w /\ g (f w) = Ok b.
Proof.
  intros Hrun. apply bind_inv_Ok in Hrun as (w1 & a & E1 & E2).
  apply gets_inv in E1 as [-> ->]. now apply lift_inv in E2.
Qed.

Lemma block_sizes_inv h w w' r :
  block_sizes (Some h) w = (w', r) -> w' = w /\ block_sizes (Some h) w = (w, r).
Proof.
  intros Hrun. pose proof (readonly_block_sizes h _ _ _ I Hrun) as <-. auto.
Qed.

Ltac walk_prim E1 :=
  lazymatch type of E1 with
  | Py.gets _ _ = _ => apply gets_inv in E1 as [-> ->]
  | self_handle _ = _ => apply gets_inv in E1 as [-> ->]
  | Py.ret _ _ = _ => apply ret_inv in E1 as [-> ->]
  | getattr (Some _) _ = _ => apply ret_inv in E1 as [-> ->]
  | Py.lift _ _ = _ => apply lift_inv in E1 as [-> E1]
  | Py.modify _ _ = _ => apply modify_inv in E1 as [-> _]
  | Py.bind (getitem _ _) (fun d => Py.lift _) _ = _ =>
      let h0 := fresh "h" in let f := fresh "f" in let d := fresh "d" in
      let Hh := fresh "Hh" in let Hopen := fresh "Hopen" in
      let Hdisk := fresh "Hdisk" in let Hkey := fresh "Hkey" in
      apply read_inv in E1 as (-> & h0 & f & d & Hh & Hopen & Hdisk & Hkey & E1)
  | Py.bind (Py.gets _) (fun v => Py.lift _) _ = _ =>
      apply gets_lift_inv in E1 as [-> E1]
  | block_sizes (Some _) _ = _ => apply block_sizes_inv in E1 as [-> E1]
  | Py.mapM (fun x => Py.lift _) _ _ = _ =>
      apply mapM_lift_inv in E1 as [-> E1]
  | _ => idtac
  end.

Ltac walk E :=
  lazymatch type of E with
  | Py.bind ?m ?k ?w = (_, Ok _) =>
      let w1 := fresh "w" in let a := fresh "a" in let E1 := fresh "E" in
      apply bind_inv_Ok in E as (w1 & a & E1 & E); walk_prim E1
  end.

Lemma initialize_grid_arrays_ok w w' :
  _initialize_grid_arrays w = (w', Ok tt) ->
  exists ng, num_grids (hier w) = PyInt ng /\ (0 <= ng)%Z /\
    w' = with_hier (fun s =>
      set_grid_dimensions (replicate (Z.to_nat ng) [1; 1; 1]%Z)
        (set_grid_left_edge (replicate (Z.to_nat ng) (replicate 3 (f_of_Z 0)))
           (set_grid_right_edge (replicate (Z.to_nat ng) (replicate 3 (f_of_Z 1)))
              (set_grid_levels (replicate (Z.to_nat ng) 0%Z)
                 (set_grid_particle_count (replicate (Z.to_nat ng) 0%Z) s))))) w.
Proof.
  unfold _initialize_grid_arrays. intros E.
  apply bind_inv_Ok in E as (w1 & n & E1 & E).
  walk E1. apply lift_inv in E1 as [-> Hn].
  destruct (num_grids (hier w)) as [ng|x] eqn:Eng; [|discriminate].
  injection Hn as <-. exists ng.
  destruct (ng <? 0)%Z eqn:Elt; [discriminate|].
  apply modify_inv in E as [-> _]. apply Z.ltb_ge in Elt. auto.
Qed.

Lemma parse_hierarchy_ok w w' :
  _parse_hierarchy w = (w', Ok tt) ->
  exists f ng lv np,
    disk w = Some f /\
    f !! "/refine level" = Some (IntArray lv) /\
    f !! "/localnp" = Some (IntArray np) /\
    num_grids (hier w) = PyInt ng /\
    same_env w w' /\
    num_grids (hier w') = PyInt ng /\
    max_level (hier w') = max_level (hier w) /\
    np_assign_rows (length (grid_particle_count (hier w))) np
      = Ok (grid_particle_count (hier w')) /\
    particle_offsets ng (grid_particle_count (hier w'))
      = Ok (_particle_indices (hier w')) /\
    grid_levels (hier w')
      = np_flat_assign (grid_levels (hier w)) (map (fun l => l - 1)%Z lv) /\
    Forall2 (fun i G =>
               exists l, np_getitem (grid_levels (hier w')) (Z.of_nat i) = Ok l /\
                         G = FLASHGrid_init (Z.of_nat i + 1) l)
            (seq 0 (Z.to_nat ng)) (grids (hier w')).
Proof.
  unfold _parse_hierarchy. intros E.
  do 9 walk E. rewrite Hh in E. repeat walk E.
  apply modify_inv in E as [-> _].
  match goal with
  | HM : Py.mapM _ _ _ = _ |- _ =>
      apply (mapM_inv _ (fun w i G =>
               exists l, np_getitem (grid_levels (hier w)) (Z.of_nat i) = Ok l /\
                         G = FLASHGrid_init (Z.of_nat i + 1) l)) in HM as [-> HM]
  end.
  2:{ intros i w1 w2 G Hi. walk Hi. walk Hi. apply ret_inv in Hi as [-> ->].
      eauto. }
  simpl in *.
  repeat match goal with
         | Hd : disk w = Some ?f1, Hd' : disk w = Some ?f2 |- _ =>
             rewrite Hd in Hd'; injection Hd' as <-
         end.
  repeat match goal with
         | Hc : as_IntArray ?d = Ok _ |- _ =>
             destruct d; try discriminate Hc; injection Hc as ->
         end.
  match goal with
  | Hn : as_integer (num_grids (hier w)) = Ok ?n |- _ =>
      destruct (num_grids (hier w)) as [ng|] eqn:Eng; [|discriminate Hn];
      injection Hn as ->
  end.
  eexists _, _, _, _. repeat (split; [eassumption || reflexivity|]).
  split; [repeat split; reflexivity|].
  repeat (split; [eassumption || reflexivity|]). assumption.
Qed.

(** ** The relationship pass, one grid at a time *)

Lemma update_grid_inv g f w w' r :
  update_grid g f w = (w', r) ->
  r = Ok tt /\ w' = with_hier (fun s => set_grids (alter f g (grids s)) s) w.
Proof. unfold update_grid. intros E. apply modify_inv in E. tauto. Qed.

Lemma for_set_Parent_inv p ch w w' r :
  Py.for_ ch (fun g1 => update_grid g1 (set_Parent p)) w = (w', r) ->
  r = Ok tt /\
  grids (hier w') = foldl (fun acc c => alter (set_Parent p) c acc) (grids (hier w)) ch /\
  grid_levels (hier w') = grid_levels (hier w).
Proof.
  revert w. induction ch as [|c ch IH]; simpl; intros w E.
  - injection E as <- <-. auto.
  - unfold Py.bind, update_grid, Py.modify in E. apply IH in E as (-> & -> & ->).
    auto.
Qed.

Lemma map_alter_same {A B} (pr : A -> B) (f : A -> A) g (gs : list A) :
  (forall G, pr (f G) = pr G) ->
  map pr (alter f g gs) = map pr gs.
Proof.
  intros Hf. revert g. induction gs as [|G gs IH]; intros [|g]; simpl;
    [reflexivity | reflexivity | now rewrite Hf | f_equal; apply IH].
Qed.

Lemma map_link_children {B} (pr : FLASHGrid -> B) g ch gs :
  (forall G c, pr (set_Children c G) = pr G) ->
  (forall G p, pr (set_Parent p G) = pr G) ->
  map pr (link_children g ch gs) = map pr gs.
Proof.
  intros Hc Hp. unfold link_children.
  transitivity (map pr (alter (set_Children ch) g gs));
    [|now apply map_alter_same].
  generalize (alter (set_Children ch) g gs). clear gs.
  induction ch as [|c ch IH]; intros gs; simpl; [reflexivity|].
  rewrite IH. now apply map_alter_same.
Qed.

Lemma map_eq_lookup {A B} (pr : A -> B) (l1 l2 : list A) i x :
  map pr l1 = map pr l2 -> l1 !! i = Some x ->
  exists y, l2 !! i = Some y /\ pr y = pr x.
Proof.
  intros Hm Hx.
  assert (Hl : map pr l1 !! i = Some (pr x)) by (now rewrite list_lookup_fmap, Hx).
  rewrite Hm, list_lookup_fmap in Hl.
  destruct (l2 !! i) as [y|]; [|discriminate]. injection Hl as Hl. eauto.
Qed.

Lemma prepare_grid_ok g w w' :
  _prepare_grid g w = (w', Ok tt) ->
  exists G j,
    grids (hier w) !! g = Some G /\
    np_index (length (grid_levels (hier w))) (id G - _id_offset) = Ok j /\
    grid_levels (hier w') = <[j := Level G]> (grid_levels (hier w)) /\
    map links (grids (hier w')) = map links (grids (hier w)).
Proof.
  unfold _prepare_grid. intros E.
  apply bind_inv_Ok in E as (w1 & G & E1 & E). unfold grid_at in E1.
  destruct (grids (hier w) !! g) as [G'|] eqn:EG; [|discriminate].
  injection E1 as <- <-. repeat walk E.
  apply update_grid_inv in E as [_ ->]. simpl.
  exists G'. eexists. split; [reflexivity|]. split; [eassumption|].
  split; [reflexivity|]. now apply map_alter_same.
Qed.

Lemma setup_dx_ok g w w' :
  _setup_dx g w = (w', Ok tt) ->
  grid_levels (hier w') = grid_levels (hier w) /\
  map links (grids (hier w')) = map links (grids (hier w)).
Proof.
  unfold _setup_dx. intros E.
  apply bind_inv_Ok in E as (w1 & G & E1 & E). unfold grid_at in E1.
  destruct (grids (hier w) !! g) as [G'|] eqn:EG; [|discriminate].
  injection E1 as <- <-.
  destruct (LeftEdge G'); [|discriminate].
  destruct (RightEdge G'); [|discriminate].
  destruct (ActiveDimensions G'); [|discriminate].
  repeat walk E.
  apply update_grid_inv in E as [_ ->]. simpl. split; [reflexivity|].
  now apply map_alter_same.
Qed.

Lemma populate_grid_ok gid g w w' :
  populate_grid gid g w = (w', Ok tt) ->
  exists G row ch j,
    grids (hier w) !! g = Some G /\
    np_getitem gid (id G - _id_offset) = Ok row /\
    Forall2 (fun v c => np_index (length (grids (hier w))) (v - 1) = Ok c)
            (filter (fun i => (i > -1)%Z) (drop 7 row)) ch /\
    np_index (length (grid_levels (hier w))) (id G - _id_offset) = Ok j /\
    grid_levels (hier w') = <[j := Level G]> (grid_levels (hier w)) /\
    map links (grids (hier w')) = map links (link_children g ch (grids (hier w))).
Proof.
  unfold populate_grid. intros E.
  apply bind_inv_Ok in E as (w1 & G & E1 & E). unfold grid_at in E1.
  destruct (grids (hier w) !! g) as [G'|] eqn:EG; [|discriminate].
  injection E1 as <- <-. walk E. walk E.
  apply bind_inv_Ok in E as (w1 & ch & E1 & E). unfold child_refs in E1.
  apply mapM_lift_inv in E1 as [-> Hch].
  apply bind_inv_Ok in E as (w1 & [] & E1 & E).
  apply update_grid_inv in E1 as [_ ->].
  apply bind_inv_Ok in E as (w2 & [] & E2 & E).
  apply for_set_Parent_inv in E2 as (_ & Hg2 & Hl2). simpl in Hg2, Hl2.
  apply bind_inv_Ok in E as (w3 & [] & E3 & E).
  apply prepare_grid_ok in E3 as (G3 & j & HG3 & Hj & Hl3 & Hg3).
  apply setup_dx_ok in E as (Hl4 & Hg4).
  simpl in Hj, Hl3. rewrite Hl2 in Hj, Hl3. simpl in Hj, Hl3.
  fold (link_children g ch (grids (hier w))) in Hg2.
  assert (HG : exists G0, grids (hier w) !! g = Some G0 /\
                 (id G0, Level G0) = (id G3, Level G3)).
  { apply (map_eq_lookup (fun G => (id G, Level G)) (grids (hier w2))); [|exact HG3].
    rewrite Hg2. now apply map_link_children. }
  destruct HG as (G0 & HG0 & [= Hid Hlev]). rewrite EG in HG0. injection HG0 as <-.
  rewrite <- Hid in Hj. rewrite <- Hlev in Hl3.
  exists G'. eexists _, ch, j.
  split; [reflexivity|]. split; [eassumption|]. split; [exact Hch|].
  split; [exact Hj|]. split; [congruence|].
  rewrite Hg4, Hg3, Hg2. reflexivity.
Qed.

(** ** The relationship pass on the list of grids *)

Lemma set_Parent_idem p G : set_Parent p (set_Parent p G) = set_Parent p G.
Proof. reflexivity. Qed.

Lemma lookup_foldl_set_Parent p ch (gs : list FLASHGrid) i :
  foldl (fun acc c => alter (set_Parent p) c acc) gs ch !! i =
  (if decide (i ∈ ch) then set_Parent p else fun G => G) <$> gs !! i.
Proof.
  revert gs. induction ch as [|c ch IH]; intros gs; cbn [foldl].
  - destruct (decide (i ∈ [])) as [Hin|_]; [now apply elem_of_nil in Hin|].
    now destruct (gs !! i).
  - rewrite IH. destruct (decide (i = c)) as [->|Hne].
    + rewrite list_lookup_alter_eq.
      destruct (decide (c ∈ c :: ch)) as [_|Hn]; [|exfalso; apply Hn; left].
      destruct (gs !! c); simpl; [|reflexivity].
      now destruct (decide (c ∈ ch)).
    + rewrite list_lookup_alter_ne by congruence.
      destruct (decide (i ∈ ch)) as [Hin|Hnin];
        destruct (decide (i ∈ c :: ch)) as [Hin'|Hnin']; try reflexivity.
      * exfalso. apply Hnin'. now right.
      * apply elem_of_cons in Hin' as [?|?]; congruence.
Qed.

Lemma lookup_link_children g ch gs i :
  link_children g ch gs !! i = relink g ch i <$> gs !! i.
Proof.
  unfold link_children, relink. rewrite lookup_foldl_set_Parent.
  destruct (decide (i = g)) as [->|Hne].
  - rewrite list_lookup_alter_eq. now destruct (gs !! g).
  - rewrite list_lookup_alter_ne by congruence. now destruct (gs !! i).
Qed.

Lemma ident_relink g ch i G : ident (relink g ch i G) = ident G.
Proof.
  unfold relink. destruct (decide (i ∈ ch)), (decide (i = g)); reflexivity.
Qed.

Lemma Children_relink g ch i G :
  Children (relink g ch i G) = if decide (i = g) then ch else Children G.
Proof.
  unfold relink. destruct (decide (i ∈ ch)), (decide (i = g)); reflexivity.
Qed.

Lemma Parent_relink g ch i G :
  Parent (relink g ch i G) = if decide (i ∈ ch) then Some g else Parent G.
Proof.
  unfold relink. destruct (decide (i ∈ ch)), (decide (i = g)); reflexivity.
Qed.

Lemma map_links_ident (l1 l2 : list FLASHGrid) :
  map links l1 = map links l2 -> map ident l1 = map ident l2.
Proof.
  intros Hm.
  assert (Hi : forall l, map ident l = map (fun x => (x.1.1.1, x.1.1.2)) (map links l)).
  { intros l. rewrite map_map. reflexivity. }
  now rewrite !Hi, Hm.
Qed.

Lemma Forall2_elem_r {A B} (Q : A -> B -> Prop) l k y :
  Forall2 Q l k -> y ∈ k -> exists x, x ∈ l /\ Q x y.
Proof.
  induction 1 as [|x y' l k HQ _ IH]; intros Hin.
  - now apply elem_of_nil in Hin.
  - apply elem_of_cons in Hin as [->|Hin].
    + exists x. split; [left | exact HQ].
    + destruct (IH Hin) as (x' & Hx' & HQ'). exists x'. split; [now right | exact HQ'].
Qed.

Lemma Forall2_elem_l {A B} (Q : A -> B -> Prop) l k x :
  Forall2 Q l k -> x ∈ l -> exists y, y ∈ k /\ Q x y.
Proof.
  induction 1 as [|x' y l k HQ _ IH]; intros Hin.
  - now apply elem_of_nil in Hin.
  - apply elem_of_cons in Hin as [->|Hin].
    + exists y. split; [left | exact HQ].
    + destruct (IH Hin) as (y' & Hy' & HQ'). exists y'. split; [now right | exact HQ'].
Qed.

Lemma pass_inv_step gid ids lv done g w w' :
  levels_agree ids lv ->
  pass_inv gid ids lv done w ->
  g ∉ done ->
  populate_grid gid g w = (w', Ok tt) ->
  pass_inv gid ids lv (g :: done) w'.
Proof.
  intros HJ (Hids & Hlv & Hpar & Hval) Hnew Hrun.
  apply populate_grid_ok in Hrun
    as (G & row & ch & j & HG & Hrow & Hch & Hj & Hlv' & Hlinks).
  pose proof (map_links_ident _ _ Hlinks) as Hident.
  rewrite (map_link_children ident) in Hident by reflexivity.
  assert (Hlen : length (grids (hier w)) = length ids)
    by (rewrite <- Hids; now rewrite length_map).
  assert (HidG : ids !! g = Some (id G, Level G)).
  { rewrite <- Hids, list_lookup_fmap, HG. reflexivity. }
  rewrite Hlen in Hch.
  split; [congruence|]. split.
  { rewrite Hlv', Hlv. apply list_insert_id.
    eapply HJ; [exact HidG|]. now rewrite <- Hlv. }
  split.
  - intros c C' p HC' Hp.
    destruct (map_eq_lookup links _ _ _ _ Hlinks HC') as (C2 & HC2 & HL).
    rewrite lookup_link_children in HC2.
    destruct (grids (hier w) !! c) as [C|] eqn:HC; [|discriminate].
    injection HC2 as <-.
    assert (HP2 : Parent (relink g ch c C) = Some p).
    { injection HL as _ _ HPar _. congruence. }
    rewrite Parent_relink in HP2.
    destruct (decide (c ∈ ch)) as [Hin|Hnin].
    + injection HP2 as <-. split; [left|].
      assert (HG2 : link_children g ch (grids (hier w)) !! g = Some (relink g ch g G))
        by (rewrite lookup_link_children, HG; reflexivity).
      destruct (map_eq_lookup links _ _ _ _ (eq_sym Hlinks) HG2) as (Pg & HPg & HLg).
      exists Pg. split; [exact HPg|].
      injection HLg as Hidg _ _ HCh. rewrite Children_relink, decide_True in HCh by reflexivity.
      split; [now rewrite HCh|].
      destruct (Forall2_elem_r _ _ _ _ Hch Hin) as (v & Hv & Hvc).
      apply list_elem_of_filter in Hv as [Hgt Hv].
      exists row, v.
      assert (Hid' : id Pg = id G).
      { rewrite Hidg. pose proof (ident_relink g ch g G) as [= Hi _]. exact Hi. }
      rewrite Hid'. auto.
    + destruct (Hpar c C p HC HP2) as (Hdone & Pg & HPg & Hcin & Hnamed).
      split; [now right|].
      assert (Hpg : p <> g) by (intros ->; contradiction).
      assert (HG2 : link_children g ch (grids (hier w)) !! p = Some (relink g ch p Pg))
        by (rewrite lookup_link_children, HPg; reflexivity).
      destruct (map_eq_lookup links _ _ _ _ (eq_sym Hlinks) HG2) as (Pg' & HPg' & HLg).
      exists Pg'. split; [exact HPg'|].
      injection HLg as Hidg _ _ HCh. rewrite Children_relink, decide_False in HCh by exact Hpg.
      split; [now rewrite HCh|].
      destruct Hnamed as (row' & v & Hr' & Hv & Hgt & Hvc).
      exists row', v.
      assert (Hid' : id Pg' = id Pg).
      { rewrite Hidg. pose proof (ident_relink g ch p Pg) as [= Hi _]. exact Hi. }
      rewrite Hid'. auto.
  - intros g' G' Hin HG'.
    destruct (map_eq_lookup links _ _ _ _ Hlinks HG') as (G2 & HG2 & HL).
    rewrite lookup_link_children in HG2.
    destruct (grids (hier w) !! g') as [G0|] eqn:HG0; [|discriminate].
    injection HG2 as <-. injection HL as Hid' _ _ HCh'.
    pose proof (ident_relink g ch g' G0) as [= Hi _].
    rewrite Children_relink in HCh'. unfold children_of_row.
    rewrite <- HCh', <- Hid', Hi.
    apply elem_of_cons in Hin as [->|Hin].
    + rewrite decide_True by reflexivity.
      rewrite HG in HG0. injection HG0 as <-. eauto.
    + rewrite decide_False by (intros ->; contradiction).
      now apply (Hval g').
Qed.

Lemma pass_inv_loop gid ids lv gs : forall done w w',
  levels_agree ids lv ->
  pass_inv gid ids lv done w ->
  NoDup gs -> (forall g, g ∈ gs -> g ∉ done) ->
  Py.for_ gs (populate_grid gid) w = (w', Ok tt) ->
  pass_inv gid ids lv (rev gs ++ done) w'.
Proof.
  induction gs as [|g gs IH]; simpl; intros done w w' HJ Hinv Hnd Hfresh Hrun.
  - apply ret_inv in Hrun as [-> _]. exact Hinv.
  - apply bind_inv_Ok in Hrun as (w1 & [] & E1 & Hrun).
    apply NoDup_cons in Hnd as [Hg Hnd].
    rewrite <- app_assoc. simpl.
    apply (IH (g :: done) w1 w'); auto.
    + eapply pass_inv_step; eauto. apply Hfresh. left.
    + intros g' Hg' Hin. apply elem_of_cons in Hin as [->|Hin]; [contradiction|].
      apply (Hfresh g'); [now right | exact Hin].
Qed.

(** ** The whole build *)

Lemma np_index_nat n i g : np_index n (Z.of_nat i) = Ok g -> g = i /\ i < n.
Proof.
  unfold np_index.
  destruct (0 <=? Z.of_nat i)%Z eqn:E0; [|lia].
  destruct (Z.of_nat i <? Z.of_nat n)%Z eqn:E1; simpl.
  - intros [= <-]. split; [apply Nat2Z.id | lia].
  - destruct (- Z.of_nat n <=? Z.of_nat i)%Z, (Z.of_nat i <? 0)%Z eqn:E2;
      simpl; try discriminate. lia.
Qed.

Lemma np_index_nat_lt n i : i < n -> np_index n (Z.of_nat i) = Ok i.
Proof.
  intros Hi. unfold np_index.
  replace (0 <=? Z.of_nat i)%Z with true by lia.
  replace (Z.of_nat i <? Z.of_nat n)%Z with true by lia.
  simpl. now rewrite Nat2Z.id.
Qed.

Lemma np_getitem_nat {A} (a : list A) i x :
  np_getitem a (Z.of_nat i) = Ok x -> a !! i = Some x.
Proof.
  unfold np_getitem. destruct (np_index (length a) (Z.of_nat i)) as [j|] eqn:Ej;
    [|discriminate].
  apply np_index_nat in Ej as [-> _]. destruct (a !! i); congruence.
Qed.

Lemma np_getitem_nat_lookup {A} (a : list A) i x :
  a !! i = Some x -> np_getitem a (Z.of_nat i) = Ok x.
Proof.
  intros Hx. unfold np_getitem.
  rewrite np_index_nat_lt by (eapply lookup_lt_Some; eauto). now rewrite Hx.
Qed.

Lemma length_np_flat_assign dst src : length (np_flat_assign dst src) = length dst.
Proof.
  destruct src; simpl; [reflexivity|]. now rewrite length_map, length_seq.
Qed.

Lemma Forall2_same_index (n : nat) (ii gs : list nat) :
  Forall2 (fun i g => np_index n (Z.of_nat i) = Ok g) ii gs ->
  gs = ii /\ Forall (fun i => i < n) ii.
Proof.
  induction 1 as [|i g ii gs Hi _ [-> IH]].
  - split; [reflexivity | constructor].
  - apply np_index_nat in Hi as [-> Hlt]. split; [reflexivity | now constructor].
Qed.

Lemma populate_grid_objects_ok w w' :
  _populate_grid_objects w = (w', Ok tt) ->
  levels_agree (map ident (grids (hier w))) (grid_levels (hier w)) ->
  (forall c C, grids (hier w) !! c = Some C -> Parent C = None) ->
  exists f gid m w5,
    disk w = Some f /\ f !! "/gid" = Some (IntArray2 gid) /\
    pass_inv gid (map ident (grids (hier w))) (grid_levels (hier w))
      (rev (argsort (grid_levels (hier w)))) w5 /\
    np_max_Z (grid_levels (hier w)) = Ok m /\
    w' = with_hier (set_max_level (Some m)) w5 /\
    length (grid_levels (hier w)) <= length (grids (hier w)) /\
    (has_h w -> same_particles w w5).
Proof.
  unfold _populate_grid_objects. intros E HJ Hfresh.
  walk E.
  apply bind_inv_Ok in E as (w1 & gid & E1 & E).
  change (Py.bind (Py.bind self_handle (fun h => getitem h "/gid"))
            (fun d => Py.lift (as_IntArray2 d)) w = (w1, Ok gid)) in E1.
  apply bind_inv_Ok in E1 as (w2 & d & E1 & E2).
  apply bind_inv_Ok in E1 as (w3 & h & E0 & E1).
  apply gets_inv in E0 as [-> ->].
  apply getitem_inv in E1 as (-> & h0 & f & Hh & Hopen & Hdisk & Hkey).
  apply lift_inv in E2 as [-> Hd].
  destruct d; try discriminate Hd. injection Hd as ->.
  walk E. walk E.
  apply Forall2_same_index in E0 as [-> Hlt].
  apply bind_inv_Ok in E as (w5 & [] & Hloop & E).
  walk E. apply modify_inv in E as [-> _].
  pose proof (argsort_perm (grid_levels (hier w))) as Hperm.
  assert (Hinv : pass_inv gid (map ident (grids (hier w))) (grid_levels (hier w))
                   (rev (argsort (grid_levels (hier w)))) w5).
  { rewrite <- (app_nil_r (rev _)).
    eapply pass_inv_loop; [exact HJ| | | |exact Hloop].
    + split; [reflexivity|]. split; [reflexivity|]. split.
      * intros c C p HC Hp. rewrite (Hfresh c C HC) in Hp. discriminate.
      * intros g G0 Hin. now apply elem_of_nil in Hin.
    + rewrite Hperm. apply NoDup_seq.
    + intros g _ Hin. now apply elem_of_nil in Hin. }
  exists f, gid, a, w5. split; [exact Hdisk|]. split; [exact Hkey|].
  split; [exact Hinv|]. split; [|split; [reflexivity|split]].
  - destruct Hinv as (_ & <- & _). exact E0.
  - destruct (length (grid_levels (hier w))) as [|k] eqn:Ek; [lia|].
    assert (Hk : k ∈ argsort (grid_levels (hier w))).
    { rewrite Hperm. apply elem_of_seq. lia. }
    rewrite Forall_forall in Hlt. specialize (Hlt k Hk). lia.
  - intros Hp. eapply populate_loop_particles; eauto.
Qed.

Lemma Forall2_fresh_grids (lv : list Z) n gs :
  Forall2 (fun i G => exists l, np_getitem lv (Z.of_nat i) = Ok l /\
                                G = FLASHGrid_init (Z.of_nat i + 1) l)
          (seq 0 n) gs ->
  map ident gs = map (fun i => (Z.of_nat i + 1, nth i lv 0)%Z) (seq 0 n) /\
  (forall c C, gs !! c = Some C -> Parent C = None /\ Children C = []).
Proof.
  generalize 0 at 1 2. intros k Hall. revert k gs Hall.
  induction n as [|n IH]; simpl; intros k gs Hall.
  - inversion Hall; subst. split; [reflexivity|]. intros c C Hc. discriminate.
  - inversion Hall as [|i G is' gs' (l & Hl & ->) Hrest]; subst.
    destruct (IH _ _ Hrest) as [Hm Hf]. split.
    + simpl. rewrite Hm. f_equal. unfold ident. simpl. f_equal.
      apply np_getitem_nat in Hl. symmetry. now apply nth_lookup_Some with (d := 0%Z) in Hl.
    + intros [|c] C Hc; simpl in Hc; [|eauto].
      injection Hc as <-. auto.
Qed.

Lemma levels_agree_parsed ng lv :
  levels_agree (parsed_idents ng lv) lv.
Proof.
  intros i idv l j Hi Hj. unfold parsed_idents in Hi.
  rewrite list_lookup_fmap in Hi.
  destruct (seq 0 (Z.to_nat ng) !! i) as [i'|] eqn:Ei; [|discriminate].
  apply lookup_seq in Ei as [-> _]. injection Hi as <- <-.
  unfold _id_offset in Hj. replace (Z.of_nat i + 1 - 1)%Z with (Z.of_nat i) in Hj by lia.
  apply np_index_nat in Hj as [-> Hlt].
  destruct (lookup_lt_is_Some_2 lv i Hlt) as [x Hx].
  rewrite Hx. f_equal. symmetry. now apply nth_lookup_Some with (d := 0%Z) in Hx.
Qed.

(** What a completed [FLASHHierarchy.__init__] has established. *)
Lemma build_ok w w' :
  FLASHHierarchy_init w = (w', Ok tt) ->
  exists f gid lvf np ng m,
    disk w = Some f /\
    f !! "/gid" = Some (IntArray2 gid) /\
    f !! "/refine level" = Some (IntArray lvf) /\
    f !! "/localnp" = Some (IntArray np) /\
    (0 <= ng)%Z /\
    pass_inv gid (parsed_idents ng (parsed_levels ng lvf)) (parsed_levels ng lvf)
      (rev (argsort (parsed_levels ng lvf))) w' /\
    max_level (hier w') = Some m /\
    np_max_Z (parsed_levels ng lvf) = Ok m /\
    np_assign_rows (Z.to_nat ng) np = Ok (grid_particle_count (hier w')) /\
    particle_offsets ng (grid_particle_count (hier w'))
      = Ok (_particle_indices (hier w')).
Proof.
  intros Hrun.
  destruct (disk w) as [f|] eqn:Hd;
    [|rewrite (init_no_file _ Hd) in Hrun; discriminate].
  pose proof (init_outcome w f Hd) as Ho.
  destruct (AMRHierarchy_init (opened w)) as [w1 [[]|e]] eqn:Ebuild;
    destruct Ho as [Ho _]; rewrite Ho in Hrun; [|discriminate].
  injection Hrun as <-. clear Ho.
  unfold AMRHierarchy_init in Ebuild.
  apply bind_inv_Ok in Ebuild as (wa & [] & Ea & Ebuild).
  apply bind_inv_Ok in Ebuild as (wb & [] & Eb & Ebuild).
  apply bind_inv_Ok in Ebuild as (wc & [] & Ec & Ebuild).
  apply bind_inv_Ok in Ebuild as (wd & [] & Ed & Ee).
  pose proof (stable_count_grids _ _ _ (has_h_opened w) Ea) as (Hda & _ & _ & Hha).
  apply initialize_grid_arrays_ok in Eb as (ng & Hng & Hpos & ->).
  apply parse_hierarchy_ok in Ec
    as (f' & ng' & lvf & np & Hdb & Hlvf & Hnp & Hng' & Senv & Hngc & _ &
        Hcounts & Hoffs & Hlv & Hgrids).
  simpl in Hdb, Hng', Hcounts, Hlv. rewrite Hda in Hdb. simpl in Hdb.
  rewrite Hd in Hdb. injection Hdb as <-.
  rewrite Hng in Hng'. injection Hng' as <-.
  rewrite length_replicate in Hcounts.
  fold (parsed_levels ng lvf) in Hlv.
  rewrite Hlv in Hgrids.
  apply Forall2_fresh_grids in Hgrids as [Hids Hfresh].
  fold (parsed_idents ng (parsed_levels ng lvf)) in Hids.
  apply populate_grid_objects_ok in Ed
    as (f' & gid & m & w5 & Hdc & Hgid & Hinv & Hmax & -> & _ & Hpart).
  2:{ rewrite Hids, Hlv. apply levels_agree_parsed. }
  2:{ intros c C HC. now apply Hfresh in HC. }
  pose proof Senv as (Hdc' & _ & _ & Hhc). rewrite Hdc' in Hdc. simpl in Hdc.
  rewrite Hda in Hdc. simpl in Hdc. rewrite Hd in Hdc. injection Hdc as <-.
  rewrite Hids, Hlv in Hinv. rewrite Hlv in Hmax.
  assert (Hhas : has_h wc).
  { unfold has_h. rewrite Hhc. simpl. rewrite Hha. simpl. eauto. }
  destruct (Hpart Hhas) as ((_ & _ & _ & Hh5) & Hc5 & Hi5).
  assert (Hh5' : has_h (with_hier (set_max_level (Some m)) w5)).
  { unfold has_h. simpl. now rewrite Hh5. }
  destruct (detect_fields_same_hier _ _ _ Hh5' Ee)
    as (_ & Hg1 & Hl1 & Hm1 & Hc1 & Hi1).
  simpl in Hg1, Hl1, Hm1, Hc1, Hi1.
  exists f, gid, lvf, np, ng, m.
  do 5 (split; [assumption || reflexivity|]).
  split.
  { destruct Hinv as (I1 & I2 & I3 & I4). unfold pass_inv. simpl.
    rewrite Hg1, Hl1. auto. }
  simpl. rewrite Hm1, Hc1, Hi1, Hc5, Hi5. auto.
Qed.

(** ** Parent and child links *)

(** C1: in a hierarchy that finished building, a grid whose [Parent] is
    [P] is an element of [P.Children]. *)
Theorem parent_child_symmetry w w' g G p :
  FLASHHierarchy_init w = (w', Ok tt) ->
  grids (hier w') !! g = Some G ->
  Parent G = Some p ->
  exists P, grids (hier w') !! p = Some P /\ g ∈ Children P.
Proof.
  intros Hrun HG Hp.
  apply build_ok in Hrun
    as (f & gid & lvf & np & ng & m & _ & _ & _ & _ & _ & Hinv & _).
  destruct Hinv as (_ & _ & Hpar & _).
  destruct (Hpar g G p HG Hp) as (_ & P & HP & Hin & _). eauto.
Qed.

(** ** Identifiers out of range *)

Lemma elem_of_rev' {A} (x : A) l : x ∈ l -> x ∈ rev l.
Proof. rewrite !list_elem_of_In. apply in_rev. Qed.

Lemma length_parsed_levels ng lvf : length (parsed_levels ng lvf) = Z.to_nat ng.
Proof. unfold parsed_levels. now rewrite length_np_flat_assign, length_replicate. Qed.

Lemma length_parsed_idents ng lv : length (parsed_idents ng lv) = Z.to_nat ng.
Proof. unfold parsed_idents. now rewrite length_map, length_seq. Qed.

Lemma lookup_parsed_idents ng lv i :
  i < Z.to_nat ng ->
  parsed_idents ng lv !! i = Some ((Z.of_nat i + 1)%Z, nth i lv 0%Z).
Proof.
  intros Hi. unfold parsed_idents. rewrite list_lookup_fmap.
  now rewrite lookup_seq_lt.
Qed.

Lemma np_index_upper n k c : np_index n k = Ok c -> (k < Z.of_nat n)%Z.
Proof.
  unfold np_index.
  destruct (0 <=? k)%Z eqn:E0, (k <? Z.of_nat n)%Z eqn:E1; simpl; intros Hc;
    try lia;
    destruct (- Z.of_nat n <=? k)%Z, (k <? 0)%Z eqn:E2; simpl in Hc;
    try discriminate; lia.
Qed.

(** A child slot of the row of one of the [N] grids that holds an
    identifier above [N] stops the build: it raises an exception and
    produces no hierarchy. *)
Theorem child_id_out_of_range_fails w w' res f gid r row v :
  disk w = Some f ->
  f !! "/gid" = Some (IntArray2 gid) ->
  FLASHHierarchy_init w = (w', res) ->
  r < length (grids (hier w')) ->
  gid !! r = Some row ->
  v ∈ drop 7 row ->
  (Z.of_nat (length (grids (hier w'))) < v)%Z ->
  exists e, res = Raise e.
Proof.
  intros Hd Hgid Hrun Hr Hrow Hv Hbig.
  destruct res as [[]|e]; [exfalso|eauto].
  apply build_ok in Hrun
    as (f' & gid' & lvf & np & ng & m & Hd' & Hgid' & _ & _ & Hng & Hinv & _).
  rewrite Hd in Hd'. injection Hd' as <-.
  rewrite Hgid in Hgid'. injection Hgid' as <-.
  destruct Hinv as (Hids & _ & _ & Hval).
  assert (Hn : length (grids (hier w')) = Z.to_nat ng).
  { rewrite <- (length_parsed_idents ng (parsed_levels ng lvf)), <- Hids.
    now rewrite length_map. }
  rewrite Hn in Hr, Hbig.
  assert (Hdone : r ∈ rev (argsort (parsed_levels ng lvf))).
  { apply elem_of_rev'. rewrite (argsort_perm _), length_parsed_levels.
    apply elem_of_seq. lia. }
  rewrite <- Hn in Hr.
  destruct (lookup_lt_is_Some_2 _ _ Hr) as [G HG].
  destruct (Hval r G Hdone HG) as (row' & Hrow' & Hall).
  assert (HidG : id G = (Z.of_nat r + 1)%Z).
  { assert (Hm : map ident (grids (hier w')) !! r = Some (ident G))
      by (rewrite list_lookup_fmap, HG; reflexivity).
    rewrite Hids, lookup_parsed_idents in Hm by lia. now injection Hm as <- _. }
  rewrite HidG in Hrow'. unfold _id_offset in Hrow'.
  replace (Z.of_nat r + 1 - 1)%Z with (Z.of_nat r) in Hrow' by lia.
  rewrite (np_getitem_nat_lookup _ _ _ Hrow) in Hrow'. injection Hrow' as <-.
  assert (Hf : v ∈ filter (fun i => (i > -1)%Z) (drop 7 row))
    by (apply list_elem_of_filter; split; [lia | exact Hv]).
  destruct (Forall2_elem_l _ _ _ _ Hall Hf) as (c & _ & Hc).
  rewrite length_parsed_idents in Hc. apply np_index_upper in Hc. lia.
Qed.

(** ** Refinement levels *)

Lemma nth_map_seq {A} (f : nat -> A) n i d : i < n -> nth i (map f (seq 0 n)) d = f i.
Proof.
  intros Hi. apply nth_lookup_Some with (d := d).
  rewrite list_lookup_fmap, lookup_seq_lt by exact Hi. reflexivity.
Qed.

Lemma nth_lookup_eq {A} (l : list A) i x d : l !! i = Some x -> nth i l d = x.
Proof. intros Hx. rewrite nth_lookup, Hx. reflexivity. Qed.

Lemma nth_parsed_levels ng lvf i l :
  i < Z.to_nat ng -> lvf !! i = Some l ->
  nth i (parsed_levels ng lvf) 0%Z = (l - 1)%Z.
Proof.
  intros Hi Hl. unfold parsed_levels, np_flat_assign.
  destruct (map (fun l => (l - 1)%Z) lvf) as [|x src] eqn:Esrc.
  { destruct lvf; [discriminate Hl | discriminate Esrc]. }
  rewrite length_replicate, nth_map_seq by exact Hi.
  rewrite <- Esrc.
  assert (Hlen : i < length (map (fun l => (l - 1)%Z) lvf)).
  { rewrite length_map. eapply lookup_lt_Some; eauto. }
  rewrite Nat.mod_small by exact Hlen.
  apply nth_lookup_eq. now rewrite list_lookup_fmap, Hl.
Qed.

Lemma elem_of_parsed_levels ng lvf x :
  x ∈ parsed_levels ng lvf ->
  x = 0%Z \/ exists l, l ∈ lvf /\ x = (l - 1)%Z.
Proof.
  unfold parsed_levels, np_flat_assign.
  destruct (map (fun l => (l - 1)%Z) lvf) as [|y src] eqn:Esrc.
  - intros Hx. apply elem_of_replicate in Hx as [-> _]. now left.
  - intros Hx. apply list_elem_of_fmap in Hx as (i & -> & _). right.
    rewrite <- Esrc.
    assert (Hpos : length (map (fun l => (l - 1)%Z) lvf) <> 0)
      by (rewrite Esrc; simpl; lia).
    pose proof (Nat.mod_upper_bound i _ Hpos) as Hlt.
    destruct (lookup_lt_is_Some_2 _ _ Hlt) as [z Hz].
    rewrite (nth_lookup_eq _ _ _ _ Hz).
    rewrite list_lookup_fmap in Hz.
    destruct (lvf !! (i mod _)) as [l|] eqn:El; [|discriminate].
    injection Hz as <-. exists l. split; [|reflexivity].
    eapply list_elem_of_lookup_2; eauto.
Qed.

Lemma fold_left_max_spec l : forall x,
  (fold_left Z.max l x ∈ x :: l) /\ (forall y, y ∈ x :: l -> (y <= fold_left Z.max l x)%Z).
Proof.
  induction l as [|z l IH]; intros x; simpl.
  - split; [left|]. intros y Hy. apply list_elem_of_singleton in Hy as ->. lia.
  - destruct (IH (Z.max x z)) as [Hin Hle]. split.
    + apply elem_of_cons in Hin as [Heq|Hin]; [|now do 2 right].
      rewrite Heq. destruct (Z.max_spec x z) as [[_ ->]|[_ ->]]; [right; left | left].
    + intros y Hy. apply elem_of_cons in Hy as [->|Hy].
      * specialize (Hle (Z.max x z)). etransitivity; [|apply Hle; left]. lia.
      * apply elem_of_cons in Hy as [->|Hy].
        -- specialize (Hle (Z.max x z)). etransitivity; [|apply Hle; left]. lia.
        -- apply Hle. now right.
Qed.

Lemma np_max_Z_spec a m :
  np_max_Z a = Ok m -> m ∈ a /\ (forall y, y ∈ a -> (y <= m)%Z).
Proof.
  destruct a as [|x a]; simpl; [discriminate|]. intros [= <-].
  apply fold_left_max_spec.
Qed.

(** The level of the grid object at a position, in a built hierarchy. *)
Lemma built_level w ng lvf gid done i G :
  pass_inv gid (parsed_idents ng (parsed_levels ng lvf)) (parsed_levels ng lvf) done w ->
  grids (hier w) !! i = Some G ->
  i < Z.to_nat ng /\ id G = (Z.of_nat i + 1)%Z /\
  Level G = nth i (parsed_levels ng lvf) 0%Z.
Proof.
  intros (Hids & _) HG.
  assert (Hi : i < Z.to_nat ng).
  { rewrite <- (length_parsed_idents ng (parsed_levels ng lvf)), <- Hids, length_map.
    eapply lookup_lt_Some; eauto. }
  split; [exact Hi|].
  assert (Hm : map ident (grids (hier w)) !! i = Some (ident G))
    by (rewrite list_lookup_fmap, HG; reflexivity).
  rewrite Hids, lookup_parsed_idents in Hm by exact Hi.
  injection Hm as <- <-. auto.
Qed.

(** C6: the level stored on a grid is the file's level minus one; when
    the file's levels are 1-based the stored levels are not negative; and
    [max_level] is the largest stored level. *)
Theorem levels_normalised w w' f lvf :
  disk w = Some f ->
  f !! "/refine level" = Some (IntArray lvf) ->
  FLASHHierarchy_init w = (w', Ok tt) ->
  (forall i G l, grids (hier w') !! i = Some G -> lvf !! i = Some l ->
     Level G = (l - 1)%Z) /\
  ((forall l, l ∈ lvf -> (1 <= l)%Z) ->
   forall i G, grids (hier w') !! i = Some G -> (0 <= Level G)%Z) /\
  (exists m, max_level (hier w') = Some m /\
     (forall i G, grids (hier w') !! i = Some G -> (Level G <= m)%Z) /\
     (exists i G, grids (hier w') !! i = Some G /\ Level G = m)).
Proof.
  intros Hd Hlv Hrun.
  apply build_ok in Hrun
    as (f' & gid & lvf' & np & ng & m & Hd' & _ & Hlv' & _ & Hng & Hinv & Hm & Hmax & _).
  rewrite Hd in Hd'. injection Hd' as <-.
  rewrite Hlv in Hlv'. injection Hlv' as <-.
  pose proof (length_parsed_levels ng lvf) as Hlen.
  apply np_max_Z_spec in Hmax as [Hmin Hmle].
  split; [|split].
  - intros i G l HG Hl.
    destruct (built_level _ _ _ _ _ _ _ Hinv HG) as (Hi & _ & ->).
    now apply nth_parsed_levels.
  - intros Hone i G HG.
    destruct (built_level _ _ _ _ _ _ _ Hinv HG) as (Hi & _ & ->).
    assert (Hin : nth i (parsed_levels ng lvf) 0%Z ∈ parsed_levels ng lvf).
    { apply list_elem_of_In, nth_In. lia. }
    apply elem_of_parsed_levels in Hin as [->|(l & Hl & ->)]; [lia|].
    specialize (Hone l Hl). lia.
  - exists m. split; [exact Hm|]. split.
    + intros i G HG.
      destruct (built_level _ _ _ _ _ _ _ Hinv HG) as (Hi & _ & ->).
      apply Hmle, list_elem_of_In, nth_In. lia.
    + apply list_elem_of_lookup in Hmin as [i Hi].
      assert (Hlt : i < length (grids (hier w'))).
      { destruct Hinv as (Hids & _).
        rewrite <- (length_map ident), Hids, length_parsed_idents, <- Hlen.
        eapply lookup_lt_Some; eauto. }
      destruct (lookup_lt_is_Some_2 _ _ Hlt) as [G HG].
      exists i, G. split; [exact HG|].
      destruct (built_level _ _ _ _ _ _ _ Hinv HG) as (_ & _ & ->).
      now apply nth_lookup_eq.
Qed.

(** ** The particle-offset table *)

Lemma wrap64_small z : (- 2 ^ 63 <= z < 2 ^ 63)%Z -> wrap64 z = z.
Proof. intros Hz. unfold wrap64. rewrite Z.mod_small; lia. Qed.

Lemma total_app l1 l2 : total (l1 ++ l2) = (total l1 + total l2)%Z.
Proof. unfold total. induction l1 as [|x l1 IH]; simpl; lia. Qed.

Lemma total_nonneg l : Forall (fun c => (0 <= c)%Z) l -> (0 <= total l)%Z.
Proof. unfold total. induction 1; simpl; lia. Qed.

Lemma accumulate64_lookup counts : forall acc k i,
  Forall int32_range counts ->
  (- (k * 2 ^ 31) <= acc <= k * 2 ^ 31)%Z -> (0 <= k)%Z ->
  (k + Z.of_nat (length counts) < 2 ^ 32)%Z ->
  i < length counts ->
  accumulate64 acc counts !! i = Some (acc + total (take (S i) counts))%Z.
Proof.
  induction counts as [|c cs IH]; intros acc k i Hr Hacc Hk Hlen Hi; simpl in *;
    [lia|].
  apply Forall_cons in Hr as [Hc Hr]. unfold int32_range in Hc.
  assert (Hw : wrap64 (acc + c) = (acc + c)%Z) by (apply wrap64_small; nia).
  rewrite Hw. destruct i as [|i]; simpl.
  - unfold total. simpl. rewrite ?take_0. simpl. f_equal. lia.
  - rewrite (IH (acc + c)%Z (k + 1)%Z i Hr) by (try lia; nia).
    f_equal. unfold total. simpl. lia.
Qed.

Lemma offsets_lookup counts i :
  Forall int32_range counts ->
  (Z.of_nat (length counts) < 2 ^ 32)%Z ->
  i <= length counts ->
  (0%Z :: accumulate64 0 counts) !! i = Some (total (take i counts)).
Proof.
  intros Hr Hlen Hi. destruct i as [|i]; simpl.
  - reflexivity.
  - rewrite (accumulate64_lookup counts 0%Z 0%Z i) by (auto; lia).
    reflexivity.
Qed.

Lemma length_accumulate64 counts : forall acc,
  length (accumulate64 acc counts) = length counts.
Proof. induction counts as [|c cs IH]; intros acc; simpl; [|rewrite IH]; reflexivity. Qed.

Lemma np_assign_rows_same {A} (src : list A) :
  np_assign_rows (length src) src = Ok src.
Proof.
  unfold np_assign_rows. destruct src as [|x [|y src]]; simpl; try reflexivity.
  now rewrite Nat.eqb_refl.
Qed.

Lemma total_take_S counts i c :
  counts !! i = Some c -> total (take (S i) counts) = (total (take i counts) + c)%Z.
Proof.
  intros Hc. rewrite (take_S_r _ _ _ Hc), total_app. unfold total. simpl. lia.
Qed.

Lemma total_take_mono counts i j :
  Forall (fun c => (0 <= c)%Z) counts -> i <= j ->
  (total (take i counts) <= total (take j counts))%Z.
Proof.
  intros Hpos Hij.
  rewrite <- (take_drop i (take j counts)), total_app.
  rewrite take_take, Nat.min_l by exact Hij.
  assert (0 <= total (drop i (take j counts)))%Z; [|lia].
  apply total_nonneg, Forall_drop, Forall_take, Hpos.
Qed.

(** C2: [_parse_hierarchy] makes the particle-offset table of the [N]
    per-grid particle counts of the file: [N + 1] entries, the first 0,
    each next one the previous plus the grid's count, hence not decreasing
    when no count is negative, and the last the sum of all counts.  The
    table is an [int64] array, the counts are those of an [int32] array of
    fewer than [2^32] grids, so that no sum wraps around. *)
Theorem particle_offsets_prefix_sums w w' f np :
  disk w = Some f ->
  f !! "/localnp" = Some (IntArray np) ->
  length np = length (grid_particle_count (hier w)) ->
  Forall int32_range np ->
  (Z.of_nat (length np) < 2 ^ 32)%Z ->
  _parse_hierarchy w = (w', Ok tt) ->
  let offs := _particle_indices (hier w') in
  num_grids (hier w') = PyInt (Z.of_nat (length np)) /\
  grid_particle_count (hier w') = np /\
  length offs = S (length np) /\
  offs !! 0 = Some 0%Z /\
  (forall i c, np !! i = Some c ->
     exists o, offs !! i = Some o /\ offs !! S i = Some (o + c)%Z) /\
  (Forall (fun c => (0 <= c)%Z) np ->
   forall i j a b, i <= j -> offs !! i = Some a -> offs !! j = Some b -> (a <= b)%Z) /\
  offs !! length np = Some (total np) /\
  particle_offsets (Z.of_nat (length np)) np = Ok offs /\
  particle_offsets 4 [0; 5; 3; 0]%Z = Ok [0; 0; 5; 8; 8]%Z.
Proof.
  intros Hd Hnp Hlen Hr Hn Hrun offs. subst offs.
  apply parse_hierarchy_ok in Hrun
    as (f' & ng & lvf & np' & Hd' & _ & Hnp' & _ & _ & Hng & _ & Hcounts & Hoffs & _).
  rewrite Hd in Hd'. injection Hd' as <-.
  rewrite Hnp in Hnp'. injection Hnp' as <-.
  rewrite <- Hlen, np_assign_rows_same in Hcounts. injection Hcounts as Hcounts.
  rewrite <- Hcounts in *.
  unfold particle_offsets in Hoffs.
  destruct (ng + 1 <? 0)%Z; [discriminate|].
  destruct (Z.of_nat (length np) =? ng)%Z eqn:Eng; [|discriminate].
  apply Z.eqb_eq in Eng. injection Hoffs as Hoffs.
  rewrite <- Hoffs.
  pose proof (offsets_lookup np) as Hlook.
  split; [now rewrite Hng, Eng|].
  split; [reflexivity|]. split; [simpl; now rewrite length_accumulate64|].
  split; [reflexivity|]. split; [|split; [|split; [|split; [|reflexivity]]]].
  - intros i c Hc. pose proof (lookup_lt_Some _ _ _ Hc) as Hi.
    exists (total (take i np)).
    rewrite !Hlook by (auto; lia). split; [reflexivity|].
    now rewrite (total_take_S _ _ _ Hc).
  - intros Hpos i j a b Hij Ha Hb.
    assert (Hj : j <= length np).
    { apply lookup_lt_Some in Hb. simpl in Hb. rewrite length_accumulate64 in Hb. lia. }
    rewrite Hlook in Ha, Hb by (auto; lia).
    injection Ha as <-. injection Hb as <-. now apply total_take_mono.
  - rewrite Hlook by (auto; lia). now rewrite firstn_all.
  - unfold particle_offsets.
    replace (Z.of_nat (length np) + 1 <? 0)%Z with false by lia.
    now rewrite Z.eqb_refl.
Qed.

(** ** Fallback to the summary table *)

Lemma find_parameter_no_table ptype pname scalar h w f :
  files w !! h = Some true ->
  disk w = Some f ->
  f !! table_name ptype scalar = None ->
  _find_parameter ptype pname scalar (Some h) w
    = (w, Raise (KeyError (table_name ptype scalar))).
Proof.
  intros Hopen Hdisk Htab. unfold _find_parameter.
  cbn [Py.bind Py.ret]. unfold Py.bind at 1. unfold h5_getitem.
  rewrite Hopen, Hdisk, Htab. reflexivity.
Qed.

Lemma find_parameter_bad_table ptype pname scalar h w f d e :
  files w !! h = Some true ->
  disk w = Some f ->
  f !! table_name ptype scalar = Some d ->
  as_ParamTable d = Raise e ->
  _find_parameter ptype pname scalar (Some h) w = (w, Raise e).
Proof.
  intros Hopen Hdisk Htab Hd. unfold _find_parameter.
  cbn [Py.bind Py.ret]. unfold Py.bind at 1. unfold h5_getitem.
  rewrite Hopen, Hdisk, Htab. unfold Py.bind, Py.lift. now rewrite Hd.
Qed.

Lemma scan_rows_cases (rows : list (string * pyval)) pname :
  (exists v, scan_rows rows pname = Ok v) \/
  scan_rows rows pname = Raise (KeyError pname).
Proof.
  induction rows as [|[n v] rows IH]; simpl; [now right|].
  destruct (String.eqb (strip n) pname); [left; eauto | exact IH].
Qed.

Lemma getitem_present h key w f d :
  files w !! h = Some true -> disk w = Some f -> f !! key = Some d ->
  getitem (Some h) key w = (w, Ok d).
Proof.
  intros Hopen Hdisk Hkey. simpl. unfold h5_getitem.
  now rewrite Hopen, Hdisk, Hkey.
Qed.




Lemma np_assign_2d_exact {A} n k (src : list (list A)) :
  length src = n -> Forall (fun r => length r = k) src ->
  np_assign_2d n k src = Ok src.
Proof.
  intros Hn Hk. unfold np_assign_2d. rewrite <- Hn, np_assign_rows_same.
  clear Hn. induction Hk as [|r rs Hr Hrs IH]; [reflexivity|].
  rewrite IH.
  replace (np_assign_rows k r) with (Ok r); [reflexivity|].
  rewrite <- Hr. symmetry. apply np_assign_rows_same.
Qed.







(** ** Units *)

#[local] Instance same_units_frame : Frame same_units any_world.
Proof.
  split.
  - intros w. split; reflexivity.
  - intros w1 w2 w3 [? ?] [? ?]. split; congruence.
  - intros; exact I.
Qed.

#[local] Instance same_domain_frame : Frame same_domain any_world.
Proof.
  split.
  - intros w. repeat split; reflexivity.
  - intros w1 w2 w3 (?&?&?) (?&?&?). repeat split; congruence.
  - intros; exact I.
Qed.

Lemma h5py_File_units : framed same_units any_world h5py_File.
Proof.
  intros w w' r _. unfold h5py_File.
  destruct (disk w); intros [= <- _]; split; reflexivity.
Qed.

Lemma find_parameter_units ptype pname scalar handle :
  framed same_units any_world (_find_parameter ptype pname scalar handle).
Proof.
  unfold _find_parameter. pose proof h5py_File_units.
  sapply framed_bind; [destruct handle; framed_tac | intros h1].
  sapply framed_bind; [destruct h1; [framed_tac | assumption] | intros h2].
  framed_tac.
Qed.

Lemma parse_parameter_file_units : framed same_units any_world _parse_parameter_file.
Proof.
  unfold _parse_parameter_file, find_axes, close_attr, h5_close.
  pose proof h5py_File_units. pose proof find_parameter_units.
  framed_tac; auto.
Qed.

Lemma gets_getattr_inv {A} (f : World -> option A) w w' a :
  Py.bind (Py.gets f) getattr w = (w', Ok a) -> w' = w /\ f w = Some a.
Proof.
  intros Hrun. apply bind_inv_Ok in Hrun as (w1 & o & E1 & E2).
  apply gets_inv in E1 as [-> ->].
  destruct (f w) as [x|]; [|discriminate]. now apply ret_inv in E2 as [-> ->].
Qed.

(** The loop of [_setup_nounits_units] over a list of unit names. *)
Lemma units_loop keys : forall w w',
  Py.for_ keys (fun unit =>
    Py.bind (dict_getitem mpc_conversion unit) (fun a =>
    Py.bind (dict_getitem mpc_conversion "cm") (fun c =>
    Py.modify (with_pf (fun s =>
      set_units (<[unit := PyFloat (f_div a c)]> (units s)) s))))) w = (w', Ok tt) ->
  same_domain w w' /\
  forall u,
    (u ∈ keys ->
     exists a c, mpc_conversion !! u = Some a /\ mpc_conversion !! "cm" = Some c /\
                 units (pf w') !! u = Some (PyFloat (f_div a c))) /\
    (u ∉ keys -> units (pf w') !! u = units (pf w) !! u).
Proof.
  induction keys as [|k keys IH]; intros w w' Hrun; simpl in Hrun.
  - apply ret_inv in Hrun as [-> _]. split; [repeat split; reflexivity|].
    intros u. split; [intros Hin; now apply elem_of_nil in Hin | reflexivity].
  - apply bind_inv_Ok in Hrun as (w1 & [] & E1 & Hrun).
    apply bind_inv_Ok in E1 as (w2 & a & Ea & E1). unfold dict_getitem in Ea.
    destruct (mpc_conversion !! k) as [a'|] eqn:Hk; [|discriminate].
    apply ret_inv in Ea as [-> ->].
    apply bind_inv_Ok in E1 as (w2 & c & Ec & E1). unfold dict_getitem in Ec.
    destruct (mpc_conversion !! "cm") as [c'|] eqn:Hcm; [|discriminate].
    apply ret_inv in Ec as [-> ->].
    apply modify_inv in E1 as [-> _].
    apply IH in Hrun as [(Ht & Hl & Hr) Hu].
    split; [repeat split; assumption|].
    intros u. destruct (Hu u) as [Hin Hnin]. split.
    + intros Hmem. destruct (decide (u ∈ keys)) as [Hk'|Hk']; [now apply Hin|].
      apply elem_of_cons in Hmem as [->|Hmem]; [|contradiction].
      exists a', c'. rewrite Hnin by exact Hk'. simpl.
      rewrite lookup_insert_eq. auto.
    + intros Hmem. rewrite Hnin by (intros Hc; apply Hmem; now right).
      simpl. apply lookup_insert_ne. intros ->. apply Hmem. left.
Qed.

Lemma setup_nounits_units_ok w w' :
  _setup_nounits_units w = (w', Ok tt) ->
  same_domain w w' /\
  forall u,
    (forall a, mpc_conversion !! u = Some a ->
       exists c, mpc_conversion !! "cm" = Some c /\
                 units (pf w') !! u = Some (PyFloat (f_div a c))) /\
    (mpc_conversion !! u = None -> units (pf w') !! u = units (pf w) !! u).
Proof.
  unfold _setup_nounits_units. intros Hrun.
  apply bind_inv_Ok in Hrun as (w1 & hk & E1 & Hrun).
  apply gets_inv in E1 as [-> ->].
  apply bind_inv_Ok in Hrun as (w1 & [] & E1 & Hrun).
  assert (Hw1 : same_domain w w1 /\ units (pf w1) = units (pf w)).
  { destruct (negb _).
    - apply modify_inv in E1 as [-> _]. repeat split; reflexivity.
    - apply ret_inv in E1 as [-> _]. repeat split; reflexivity. }
  destruct Hw1 as [(Ht & Hl & Hr) Hu1].
  apply units_loop in Hrun as [(Ht' & Hl' & Hr') Hu].
  split; [repeat split; congruence|].
  intros u. destruct (Hu u) as [Hin Hnin]. split.
  - intros a Ha.
    destruct Hin as (a' & c & Ha' & Hc & Hunit).
    { apply list_elem_of_fmap. exists (u, a). split; [reflexivity|].
      now apply elem_of_map_to_list. }
    rewrite Ha in Ha'. injection Ha' as <-. eauto.
  - intros Hnone. rewrite Hnin; [now rewrite Hu1|].
    intros Hmem. apply list_elem_of_fmap in Hmem as ([u' a] & -> & Hmem).
    apply elem_of_map_to_list in Hmem. simpl in Hnone. congruence.
Qed.

(** The largest entry of a list, for a maximum that returns one of its
    arguments and is an upper bound of both in the order [fle]. *)
Lemma fold_left_f_max_spec (fle : F -> F -> Prop) :
  (forall a b, f_max a b = a \/ f_max a b = b) ->
  (forall a b, fle a (f_max a b) /\ fle b (f_max a b)) ->
  (forall a b c, fle a b -> fle b c -> fle a c) ->
  forall l x,
    fold_left f_max l x ∈ x :: l /\
    (forall y, y ∈ x :: l -> fle y (fold_left f_max l x)).
Proof.
  intros Hsel Hub Htrans.
  assert (Hrefl : forall a, fle a a).
  { intros a. destruct (Hub a a) as [Ha _]. now destruct (Hsel a a) as [E|E]; rewrite E in Ha. }
  induction l as [|z l IH]; intros x; cbn [fold_left].
  - split; [left|]. intros y Hy. apply list_elem_of_singleton in Hy as ->. apply Hrefl.
  - destruct (IH (f_max x z)) as [Hin Hle]. split.
    + apply elem_of_cons in Hin as [Hin|Hin]; [|now do 2 right].
      rewrite Hin. destruct (Hsel x z) as [->| ->]; [left | right; left].
    + intros y Hy. apply elem_of_cons in Hy as [->|Hy].
      * apply (Htrans _ (f_max x z)); [apply Hub | apply Hle; left].
      * apply elem_of_cons in Hy as [->|Hy].
        -- apply (Htrans _ (f_max x z)); [apply Hub | apply Hle; left].
        -- apply Hle. now right.
Qed.

Lemma np_max_spec (fle : F -> F -> Prop) :
  (forall a b, f_max a b = a \/ f_max a b = b) ->
  (forall a b, fle a (f_max a b) /\ fle b (f_max a b)) ->
  (forall a b c, fle a b -> fle b c -> fle a c) ->
  forall ext m, np_max ext = Ok m ->
    m ∈ ext /\ (forall e, e ∈ ext -> fle e m).
Proof.
  intros Hsel Hub Htrans [|x ext] m Hm; [discriminate Hm|].
  injection Hm as <-. now apply fold_left_f_max_spec.
Qed.

(** C8: after [_set_units], "unitary" is one over the largest extent of
    the domain: over an extent [r - l] of one of the axes that no extent
    of an axis exceeds, in any order [fle] for which the maximum of the
    floats is a maximum; an edge of a single entry stands for every axis,
    as numpy has it.  The unit "1" is 1.0, the time unit "1" is 1, and
    every unit of the length-unit table is its entry divided by the entry
    of "cm".  The names "1" and "unitary" are not entries of that table. *)
Theorem units_after_set_units (fle : F -> F -> Prop) w w' :
  (forall a b, f_max a b = a \/ f_max a b = b) ->
  (forall a b, fle a (f_max a b) /\ fle b (f_max a b)) ->
  (forall a b c, fle a b -> fle b c -> fle a c) ->
  mpc_conversion !! "1" = None ->
  mpc_conversion !! "unitary" = None ->
  _set_units w = (w', Ok tt) ->
  (exists re le m,
     domain_right_edge (pf w') = Some re /\
     domain_left_edge (pf w') = Some le /\
     units (pf w') !! "unitary" = Some (PyFloat (f_div (f_of_Z 1) m)) /\
     (length re = length le ->
      (exists i r l, re !! i = Some r /\ le !! i = Some l /\ m = f_sub r l) /\
      (forall i r l, re !! i = Some r -> le !! i = Some l -> fle (f_sub r l) m)) /\
     (forall r, length re <> length le -> re = [r] ->
      (exists i l, le !! i = Some l /\ m = f_sub r l) /\
      (forall i l, le !! i = Some l -> fle (f_sub r l) m)) /\
     (forall l, length re <> length le -> le = [l] ->
      (exists i r, re !! i = Some r /\ m = f_sub r l) /\
      (forall i r, re !! i = Some r -> fle (f_sub r l) m))) /\
  units (pf w') !! "1" = Some (PyFloat (f_of_Z 1)) /\
  time_units (pf w') !! "1" = Some (PyInt 1) /\
  (forall u a, mpc_conversion !! u = Some a ->
     exists c, mpc_conversion !! "cm" = Some c /\
               units (pf w') !! u = Some (PyFloat (f_div a c))).
Proof.
  intros Hsel Hub Htrans Hone Hunitary Hrun. unfold _set_units in Hrun.
  walk Hrun. walk Hrun. walk Hrun.
  apply bind_inv_Ok in Hrun as (w1 & [] & Eparse & Hrun).
  assert (Hu1 : same_units
                  (with_pf (set_time_units ∅) (with_pf (set_units ∅) w)) w1).
  { destruct (Nat.eqb _ 0).
    - eapply parse_parameter_file_units; [exact I | exact Eparse].
    - apply ret_inv in Eparse as [-> _]. split; reflexivity. }
  destruct Hu1 as [Hu1 Ht1]. simpl in Hu1, Ht1.
  apply bind_inv_Ok in Hrun as (w2 & [] & Esetup & Hrun).
  apply setup_nounits_units_ok in Esetup as [(Ht2 & Hl2 & Hr2) Hu2].
  walk Hrun. walk Hrun. walk Hrun.
  apply bind_inv_Ok in Hrun as (w3 & re & Ere & Hrun).
  apply gets_getattr_inv in Ere as [-> Hre].
  apply bind_inv_Ok in Hrun as (w3 & le & Ele & Hrun).
  apply gets_getattr_inv in Ele as [-> Hle].
  walk Hrun. walk Hrun. walk Hrun. walk Hrun.
  apply modify_inv in Hrun as [-> _]. simpl in *.
  split; [|split; [|split]].
  - exists re, le. eexists. repeat (split; [eassumption|]).
    split; [apply lookup_insert_eq|].
    match goal with
    | Hs : np_sub re le = Ok ?ext, Hm : np_max ?ext = Ok ?m |- _ =>
        destruct (np_max_spec fle Hsel Hub Htrans ext m Hm) as [Hin Hbound];
        rename Hs into Hsub; rename Hm into Hmax
    end.
    unfold np_sub in Hsub. split; [|split].
    + intros Hlen. rewrite Hlen, Nat.eqb_refl in Hsub. injection Hsub as <-. split.
      * apply list_elem_of_lookup in Hin as [i Hi].
        apply lookup_zip_with_Some in Hi as (r & l & Heq & Hr & Hl). eauto 10.
      * intros i r l Hr Hl. apply Hbound.
        apply list_elem_of_lookup. exists i.
        apply lookup_zip_with_Some. eauto.
    + intros r Hlen ->. apply Nat.eqb_neq in Hlen. rewrite Hlen in Hsub.
      injection Hsub as <-. split.
      * apply list_elem_of_fmap in Hin as (l & -> & Hl).
        apply list_elem_of_lookup in Hl as [i Hi]. eauto.
      * intros i l Hl. apply Hbound. apply list_elem_of_fmap. exists l.
        split; [reflexivity|]. apply list_elem_of_lookup. eauto.
    + intros l Hlen ->. pose proof Hlen as Hlen'.
      apply Nat.eqb_neq in Hlen. rewrite Hlen in Hsub.
      match type of Hsub with
      | _ = Ok ?ext =>
          assert (Hsub' : Ok (map (fun x => f_sub x l) re) = Ok ext)
            by (destruct re as [|x [|y re']];
                [exact Hsub | now contradiction Hlen' | exact Hsub])
      end.
      injection Hsub' as <-. split.
      * apply list_elem_of_fmap in Hin as (r & -> & Hr).
        apply list_elem_of_lookup in Hr as [i Hi]. eauto.
      * intros i r Hr. apply Hbound.
        apply (list_elem_of_fmap_2 (fun x => f_sub x l)).
        apply list_elem_of_lookup. eauto.
  - rewrite lookup_insert_ne by discriminate. apply lookup_insert_eq.
  - rewrite !lookup_insert_ne by discriminate. apply lookup_insert_eq.
  - intros u x Hx. destruct (Hu2 u) as [Hin _].
    destruct (Hin x Hx) as (c & Hc & Hunit). exists c. split; [exact Hc|].
    rewrite !lookup_insert_ne by congruence. exact Hunit.
Qed.

(** ** Where children and parents come from *)

Lemma np_index_pred n v c :
  (v > -1)%Z -> np_index n (v - 1) = Ok c ->
  v = (Z.of_nat c + 1)%Z \/ (v = 0%Z /\ S c = n).
Proof.
  intros Hv. unfold np_index.
  destruct (0 <=? v - 1)%Z eqn:E0, (v - 1 <? Z.of_nat n)%Z eqn:E1; simpl;
    try (intros [= <-]; left; lia);
    destruct (- Z.of_nat n <=? v - 1)%Z eqn:E2, (v - 1 <? 0)%Z eqn:E3; simpl;
    try discriminate; intros [= <-]; right; lia.
Qed.

(** In a built hierarchy the children of a grid are the grids that the
    child slots of its row select, slot by slot; a negative slot selects
    nothing. *)
Lemma built_children w w' f gid g G row :
  disk w = Some f ->
  f !! "/gid" = Some (IntArray2 gid) ->
  FLASHHierarchy_init w = (w', Ok tt) ->
  grids (hier w') !! g = Some G ->
  gid !! g = Some row ->
  Forall2 (fun v c => np_index (length (grids (hier w'))) (v - 1) = Ok c)
          (filter (fun i => (i > -1)%Z) (drop 7 row)) (Children G).
Proof.
  intros Hd Hgid Hrun HG Hrow.
  apply build_ok in Hrun
    as (f' & gid' & lvf & np & ng & m & Hd' & Hgid' & _ & _ & Hng & Hinv & _).
  rewrite Hd in Hd'. injection Hd' as <-.
  rewrite Hgid in Hgid'. injection Hgid' as <-.
  destruct (built_level _ _ _ _ _ _ _ Hinv HG) as (Hg & HidG & _).
  destruct Hinv as (Hids & _ & _ & Hval).
  assert (Hn : length (grids (hier w')) = Z.to_nat ng).
  { rewrite <- (length_parsed_idents ng (parsed_levels ng lvf)), <- Hids.
    now rewrite length_map. }
  assert (Hdone : g ∈ rev (argsort (parsed_levels ng lvf))).
  { apply elem_of_rev'. rewrite (argsort_perm _), length_parsed_levels.
    apply elem_of_seq. lia. }
  destruct (Hval g G Hdone HG) as (row' & Hrow' & Hall).
  rewrite HidG in Hrow'. unfold _id_offset in Hrow'.
  replace (Z.of_nat g + 1 - 1)%Z with (Z.of_nat g) in Hrow' by lia.
  rewrite (np_getitem_nat_lookup _ _ _ Hrow) in Hrow'. injection Hrow' as <-.
  now rewrite Hn, <- (length_parsed_idents ng (parsed_levels ng lvf)).
Qed.

Lemma filter_negative_slots (row : list Z) :
  (forall v, v ∈ drop 7 row -> (v <= -1)%Z) ->
  filter (fun i => (i > -1)%Z) (drop 7 row) = [].
Proof.
  intros Hneg. destruct (filter _ (drop 7 row)) as [|v l] eqn:Ef; [reflexivity|].
  assert (Hv : v ∈ filter (fun i => (i > -1)%Z) (drop 7 row))
    by (rewrite Ef; left).
  apply list_elem_of_filter in Hv as [Hgt Hv]. apply Hneg in Hv. lia.
Qed.

(** C3 (as amended): a child slot that holds -1 or another negative value
    is ignored: the children of a grid are the grids selected by the child
    slots above -1 of its row, one per slot; a row whose child slots are
    all negative gives no reference and no error, and leaves the grid with
    empty [Children]. *)
Theorem negative_slots_ignored w w' f gid g G row :
  disk w = Some f ->
  f !! "/gid" = Some (IntArray2 gid) ->
  FLASHHierarchy_init w = (w', Ok tt) ->
  grids (hier w') !! g = Some G ->
  gid !! g = Some row ->
  Forall2 (fun v c => np_index (length (grids (hier w'))) (v - 1) = Ok c)
          (filter (fun i => (i > -1)%Z) (drop 7 row)) (Children G) /\
  ((forall v, v ∈ drop 7 row -> (v <= -1)%Z) ->
   Children G = [] /\
   forall n w0, child_refs n row w0 = (w0, Ok [])).
Proof.
  intros Hd Hgid Hrun HG Hrow.
  pose proof (built_children _ _ _ _ _ _ _ Hd Hgid Hrun HG Hrow) as Hall.
  split; [exact Hall|]. intros Hneg.
  pose proof (filter_negative_slots row Hneg) as Hnil. split.
  - rewrite Hnil in Hall. now inversion Hall.
  - intros n w0. unfold child_refs. now rewrite Hnil.
Qed.

(** In a built hierarchy a grid has a parent only because a child slot of
    the parent's row selects it: the slot holds the grid's identifier, or
    it holds 0 and the grid is the last one. *)
Lemma built_parent_source w w' f gid c C p :
  disk w = Some f ->
  f !! "/gid" = Some (IntArray2 gid) ->
  FLASHHierarchy_init w = (w', Ok tt) ->
  grids (hier w') !! c = Some C ->
  Parent C = Some p ->
  exists row v, gid !! p = Some row /\ v ∈ drop 7 row /\
    (v = id C \/ (v = 0%Z /\ S c = length (grids (hier w')))).
Proof.
  intros Hd Hgid Hrun HC Hp.
  apply build_ok in Hrun
    as (f' & gid' & lvf & np & ng & m & Hd' & Hgid' & _ & _ & Hng & Hinv & _).
  rewrite Hd in Hd'. injection Hd' as <-.
  rewrite Hgid in Hgid'. injection Hgid' as <-.
  destruct (built_level _ _ _ _ _ _ _ Hinv HC) as (Hc & HidC & _).
  pose proof Hinv as (Hids & _ & Hpar & _).
  assert (Hn : length (grids (hier w')) = Z.to_nat ng).
  { rewrite <- (length_parsed_idents ng (parsed_levels ng lvf)), <- Hids.
    now rewrite length_map. }
  destruct (Hpar c C p HC Hp) as (_ & P & HP & _ & row & v & Hrow & Hv & Hgt & Hsel).
  destruct (built_level _ _ _ _ _ _ _ Hinv HP) as (_ & HidP & _).
  rewrite HidP in Hrow. unfold _id_offset in Hrow.
  replace (Z.of_nat p + 1 - 1)%Z with (Z.of_nat p) in Hrow by lia.
  apply np_getitem_nat in Hrow.
  exists row, v. split; [exact Hrow|]. split; [exact Hv|].
  rewrite length_parsed_idents in Hsel.
  destruct (np_index_pred _ _ _ Hgt Hsel) as [->|[-> Hlast]]; [left | right].
  - now rewrite HidC.
  - split; [reflexivity | now rewrite Hn].
Qed.

(** A grid whose identifier is in no child slot, in a file without a 0 in
    a child slot, has no parent. *)
Lemma orphan_has_no_parent w w' f gid c C :
  disk w = Some f ->
  f !! "/gid" = Some (IntArray2 gid) ->
  FLASHHierarchy_init w = (w', Ok tt) ->
  grids (hier w') !! c = Some C ->
  (forall p row v, gid !! p = Some row -> v ∈ drop 7 row -> v <> id C /\ v <> 0%Z) ->
  Parent C = None.
Proof.
  intros Hd Hgid Hrun HC Hno.
  destruct (Parent C) as [p|] eqn:Hp; [exfalso|reflexivity].
  destruct (built_parent_source _ _ _ _ _ _ _ Hd Hgid Hrun HC Hp)
    as (row & v & Hrow & Hv & Hcase).
  destruct (Hno p row v Hrow Hv) as [Hne H0].
  destruct Hcase as [?|[? _]]; contradiction.
Qed.

(** * Further properties *)

(** ** [str.strip] and the names of a parameter table *)

Lemma append_empty_l (q : string) : "" +:+ q = q.
Proof. reflexivity. Qed.

Lemma append_cons (c : ascii) (a b : string) : String c a +:+ b = String c (a +:+ b).
Proof. reflexivity. Qed.

Lemma rstrip_cons c s :
  rstrip (String c s) = match rstrip s with
                        | EmptyString => if is_space c then EmptyString
                                         else String c EmptyString
                        | r => String c r
                        end.
Proof. reflexivity. Qed.

Lemma rstrip_all_space ws : all_space ws = true -> rstrip ws = "".
Proof.
  induction ws as [|c ws IH]; [reflexivity|].
  simpl. intros Hs. apply andb_prop in Hs as [Hc Hws]. now rewrite (IH Hws), Hc.
Qed.

Lemma rstrip_app_space a ws : all_space ws = true -> rstrip (a +:+ ws) = rstrip a.
Proof.
  intros Hws. induction a as [|c a IH].
  - rewrite append_empty_l. now apply rstrip_all_space.
  - now rewrite append_cons, !rstrip_cons, IH.
Qed.

Lemma rstrip_space_app ws q :
  all_space ws = true ->
  rstrip (ws +:+ q) = match rstrip q with
                      | EmptyString => EmptyString
                      | _ => ws +:+ rstrip q
                      end.
Proof.
  induction ws as [|c ws IH].
  - intros _. rewrite append_empty_l. destruct (rstrip q); reflexivity.
  - intros Hs. simpl in Hs. apply andb_prop in Hs as [Hc Hws].
    rewrite (append_cons c ws q), rstrip_cons, (IH Hws).
    destruct (rstrip q) as [|a r]; [now rewrite Hc|].
    destruct ws; reflexivity.
Qed.

Lemma lstrip_space_app ws q : all_space ws = true -> lstrip (ws +:+ q) = lstrip q.
Proof.
  induction ws as [|c ws IH]; [reflexivity|].
  intros Hs. simpl in Hs. apply andb_prop in Hs as [Hc Hws].
  rewrite append_cons. simpl. now rewrite Hc, IH.
Qed.

Lemma strip_pad ws1 p ws2 :
  all_space ws1 = true -> all_space ws2 = true ->
  strip (ws1 +:+ p +:+ ws2) = strip p.
Proof.
  intros H1 H2. unfold strip.
  rewrite (rstrip_space_app _ _ H1), (rstrip_app_space _ _ H2).
  destruct (rstrip p) as [|a r] eqn:Ep; [reflexivity|].
  now rewrite lstrip_space_app.
Qed.

Lemma lstrip_decomp t : exists ws, all_space ws = true /\ t = ws +:+ lstrip t.
Proof.
  induction t as [|c t (ws & Hws & Ht)].
  - exists "". split; reflexivity.
  - simpl. destruct (is_space c) eqn:Hc.
    + exists (String c ws). simpl. rewrite Hc, Hws. split; [reflexivity|].
      now rewrite append_cons, <- Ht.
    + exists "". split; reflexivity.
Qed.

Lemma rstrip_idem s : rstrip (rstrip s) = rstrip s.
Proof.
  induction s as [|c s IH]; [reflexivity|].
  rewrite rstrip_cons. destruct (rstrip s) as [|a r] eqn:Er.
  - destruct (is_space c) eqn:Hc; [reflexivity|].
    rewrite rstrip_cons. simpl. now rewrite Hc.
  - rewrite rstrip_cons. now rewrite IH.
Qed.

Lemma lstrip_idem t : lstrip (lstrip t) = lstrip t.
Proof.
  induction t as [|c t IH]; simpl; [reflexivity|].
  destruct (is_space c) eqn:Hc; [exact IH | simpl; now rewrite Hc].
Qed.

Lemma append_inj_l ws a b : ws +:+ a = ws +:+ b -> a = b.
Proof.
  induction ws as [|c ws IH]; [auto|].
  rewrite !append_cons. intros [= Heq]. auto.
Qed.

Lemma append_empty a b : a +:+ b = "" -> b = "".
Proof. destruct a; [auto | rewrite append_cons; discriminate]. Qed.

Lemma strip_idem s : strip (strip s) = strip s.
Proof.
  unfold strip. generalize (rstrip_idem s). generalize (rstrip s).
  intros t Ht.
  destruct (lstrip_decomp t) as (ws & Hws & Hdec).
  assert (Hu : rstrip (lstrip t) = lstrip t).
  { rewrite Hdec in Ht at 1. rewrite (rstrip_space_app _ _ Hws) in Ht.
    destruct (rstrip (lstrip t)) as [|a r] eqn:Eu.
    - rewrite <- Ht. reflexivity.
    - apply (append_inj_l ws). rewrite <- Hdec. exact Ht. }
  now rewrite Hu, lstrip_idem.
Qed.

(** Stored names may be padded with whitespace on either side: the row
    is found under the stripped name. *)
Theorem find_parameter_padded_name ptype scalar h w f pre post ws1 name ws2 v :
  files w !! h = Some true ->
  disk w = Some f ->
  f !! table_name ptype scalar
    = Some (ParamTable (pre ++ (ws1 +:+ name +:+ ws2, v) :: post)) ->
  all_space ws1 = true -> all_space ws2 = true ->
  (forall n' v', (n', v') ∈ pre -> strip n' <> strip name) ->
  _find_parameter ptype (strip name) scalar (Some h) w = (w, Ok v).
Proof.
  intros Hopen Hdisk Htab H1 H2 Hpre.
  rewrite (find_parameter_handle _ _ _ _ _ _ _ Hopen Hdisk Htab).
  rewrite scan_rows_first; [reflexivity | now apply strip_pad | exact Hpre].
Qed.

(** The requested name is compared as it is: a name with whitespace at
    either end is never found, whatever the table holds. *)
Theorem find_parameter_untrimmed_request ptype pname scalar h w f rows :
  files w !! h = Some true ->
  disk w = Some f ->
  f !! table_name ptype scalar = Some (ParamTable rows) ->
  strip pname <> pname ->
  _find_parameter ptype pname scalar (Some h) w = (w, Raise (KeyError pname)).
Proof.
  intros Hopen Hdisk Htab Hne.
  rewrite (find_parameter_handle _ _ _ _ _ _ _ Hopen Hdisk Htab).
  rewrite scan_rows_none; [reflexivity|].
  intros n v _ Heq. apply Hne. rewrite <- Heq. apply strip_idem.
Qed.

Lemma find_parameter_cached ptype pname scalar h w :
  pf_handle (pf w) = Some h ->
  _find_parameter ptype pname scalar None w
    = _find_parameter ptype pname scalar (Some h) w.
Proof.
  intros Hh. unfold _find_parameter.
  unfold Py.bind at 1. unfold Py.gets. rewrite Hh.
  unfold Py.bind at 4. reflexivity.
Qed.

Lemma find_parameter_opens ptype pname scalar w f :
  pf_handle (pf w) = None -> disk w = Some f ->
  _find_parameter ptype pname scalar None w
    = _find_parameter ptype pname scalar (Some (length (files w)))
        (with_files (fun fs => fs ++ [true]) w).
Proof.
  intros Hh Hdisk. unfold _find_parameter.
  unfold Py.bind at 1. unfold Py.gets. rewrite Hh.
  unfold Py.bind at 1. unfold h5py_File. rewrite Hdisk.
  unfold Py.bind at 4. reflexivity.
Qed.

(** Without a handle of its own and without one on the parameter file,
    every lookup opens the checkpoint anew: the File object it creates is
    neither closed nor kept, whether the name is found or not; a
    checkpoint that cannot be opened gives [IOError]. *)
Theorem find_parameter_no_handle_leaks ptype pname scalar w :
  pf_handle (pf w) = None ->
  match disk w with
  | None => _find_parameter ptype pname scalar None w = (w, Raise IOError)
  | Some _ =>
      fst (_find_parameter ptype pname scalar None w)
        = with_files (fun fs => fs ++ [true]) w
  end.
Proof.
  intros Hh. destruct (disk w) as [f|] eqn:Hdisk.
  - rewrite (find_parameter_opens _ _ _ _ f Hh Hdisk).
    unfold _find_parameter. cbn [Py.bind Py.ret].
    unfold Py.bind, h5_getitem, Py.lift.
    destruct (files _ !! _) as [[]|]; [|reflexivity..].
    destruct (disk _) as [f'|]; [|reflexivity].
    destruct (f' !! table_name ptype scalar) as [d|]; [|reflexivity].
    destruct (as_ParamTable d); reflexivity.
  - unfold _find_parameter.
    unfold Py.bind at 1. unfold Py.gets. rewrite Hh.
    unfold Py.bind at 1. unfold h5py_File. now rewrite Hdisk.
Qed.

(** ** What [_parse_parameter_file] reads and leaves behind *)

Lemma find_parameter_inv ptype pname scalar h w w' v :
  _find_parameter ptype pname scalar (Some h) w = (w', Ok v) ->
  w' = w /\
  exists f rows, files w !! h = Some true /\ disk w = Some f /\
                 f !! table_name ptype scalar = Some (ParamTable rows) /\
                 scan_rows rows pname = Ok v.
Proof.
  unfold _find_parameter. cbn [Py.bind Py.ret].
  unfold Py.bind, h5_getitem, Py.lift.
  destruct (files w !! h) as [[]|] eqn:Hopen; [|discriminate..].
  destruct (disk w) as [f|] eqn:Hdisk; [|discriminate].
  destruct (f !! table_name ptype scalar) as [d|] eqn:Htab; [|discriminate].
  destruct d; try discriminate. cbn [as_ParamTable].
  intros [= <- Hscan]. split; [reflexivity|]. eauto 10.
Qed.

Lemma find_axes_run suffix w h f rows x y z :
  pf_handle (pf w) = Some h ->
  files w !! h = Some true ->
  disk w = Some f ->
  f !! "/real runtime parameters" = Some (ParamTable rows) ->
  scan_rows rows ("x" +:+ suffix) = Ok x ->
  scan_rows rows ("y" +:+ suffix) = Ok y ->
  scan_rows rows ("z" +:+ suffix) = Ok z ->
  find_axes suffix w = (w, Ok [py_float x; py_float y; py_float z]).
Proof.
  intros Hh Hopen Hdisk Htab Hx Hy Hz.
  assert (E : forall ax v, scan_rows rows (ax +:+ suffix) = Ok v ->
              _find_parameter "real" (ax +:+ suffix) false None w = (w, Ok v)).
  { intros ax v Hv. rewrite (find_parameter_cached _ _ _ h w Hh).
    rewrite (find_parameter_handle "real" _ false h w f rows Hopen Hdisk Htab).
    now rewrite Hv. }
  unfold find_axes. cbn [Py.mapM]. unfold Py.bind, Py.ret.
  rewrite (E "x" x Hx). cbv beta iota.
  rewrite (E "y" y Hy). cbv beta iota.
  rewrite (E "z" z Hz). reflexivity.
Qed.

Lemma find_axes_inv suffix w w' h l :
  pf_handle (pf w) = Some h ->
  find_axes suffix w = (w', Ok l) ->
  w' = w /\
  exists f rows x y z,
    files w !! h = Some true /\ disk w = Some f /\
    f !! "/real runtime parameters" = Some (ParamTable rows) /\
    scan_rows rows ("x" +:+ suffix) = Ok x /\
    scan_rows rows ("y" +:+ suffix) = Ok y /\
    scan_rows rows ("z" +:+ suffix) = Ok z /\
    l = [py_float x; py_float y; py_float z].
Proof.
  intros Hh Hrun. unfold find_axes in Hrun. cbn [Py.mapM] in Hrun.
  assert (E : forall ax w0 w1 v, pf_handle (pf w0) = Some h ->
              Py.bind (_find_parameter "real" (ax +:+ suffix) false None)
                      (fun v => Py.ret (py_float v)) w0 = (w1, Ok v) ->
              w1 = w0 /\ exists f rows x,
                files w0 !! h = Some true /\ disk w0 = Some f /\
                f !! "/real runtime parameters" = Some (ParamTable rows) /\
                scan_rows rows (ax +:+ suffix) = Ok x /\ v = py_float x).
  { intros ax w0 w1 v Hh0 Hr. apply bind_inv_Ok in Hr as (w2 & x & E1 & E2).
    rewrite (find_parameter_cached _ _ _ h w0 Hh0) in E1.
    apply find_parameter_inv in E1 as (-> & f & rows & Hopen & Hdisk & Htab & Hx).
    apply ret_inv in E2 as [-> ->]. split; [reflexivity|]. eauto 10. }
  apply bind_inv_Ok in Hrun as (w1 & vx & Ex & Hrun).
  apply E in Ex as (-> & f & rows & x & Hopen & Hdisk & Htab & Hx & ->); [|exact Hh].
  apply bind_inv_Ok in Hrun as (w1 & l1 & Hrun & Hret).
  apply ret_inv in Hret as [-> ->].
  apply bind_inv_Ok in Hrun as (w2 & vy & Ey & Hrun).
  apply E in Ey as (-> & f' & rows' & y & _ & Hdisk' & Htab' & Hy & ->); [|exact Hh].
  apply bind_inv_Ok in Hrun as (w2 & l2 & Hrun & Hret).
  apply ret_inv in Hret as [-> ->].
  apply bind_inv_Ok in Hrun as (w3 & vz & Ez & Hrun).
  apply E in Ez as (-> & f'' & rows'' & z & _ & Hdisk'' & Htab'' & Hz & ->); [|exact Hh].
  apply bind_inv_Ok in Hrun as (w3 & l3 & Hrun & Hret).
  apply ret_inv in Hret as [-> ->]. apply ret_inv in Hrun as [-> ->].
  rewrite Hdisk in Hdisk', Hdisk''. injection Hdisk' as <-. injection Hdisk'' as <-.
  rewrite Htab in Htab', Htab''. injection Htab' as <-. injection Htab'' as <-.
  split; [reflexivity|]. exists f, rows, x, y, z. auto 10.
Qed.

(** A checkpoint that holds the six bounds of the domain among its real
    runtime parameters and the time among its real scalars is parsed
    without an exception: the edges are the minima and the maxima in the
    order x, y, z, the File object opened for the parse is the parameter
    file's handle and is closed, and nothing else is touched. *)
Theorem parse_parameter_file_reads w f rp rs x0 y0 z0 x1 y1 z1 t :
  disk w = Some f ->
  f !! "/real runtime parameters" = Some (ParamTable rp) ->
  f !! "/real scalars" = Some (ParamTable rs) ->
  scan_rows rp "xmin" = Ok x0 ->
  scan_rows rp "ymin" = Ok y0 ->
  scan_rows rp "zmin" = Ok z0 ->
  scan_rows rp "xmax" = Ok x1 ->
  scan_rows rp "ymax" = Ok y1 ->
  scan_rows rp "zmax" = Ok z1 ->
  scan_rows rs "time" = Ok t ->
  _parse_parameter_file w =
    (with_files (fun fs => fs ++ [false])
       (with_pf (fun s =>
          set_current_time (Some (py_float t))
            (set_domain_right_edge (Some [py_float x1; py_float y1; py_float z1])
               (set_domain_left_edge (Some [py_float x0; py_float y0; py_float z0])
                  (set_pf_handle (Some (length (files w))) s)))) w), Ok tt).
Proof.
  intros Hdisk Hrp Hrs Hx0 Hy0 Hz0 Hx1 Hy1 Hz1 Ht.
  rewrite (parse_parameter_file_unfold w f Hdisk).
  assert (Hlast : forall fs : list bool, (fs ++ [true]) !! length fs = Some true).
  { intros fs. rewrite lookup_app_r by lia. now rewrite Nat.sub_diag. }
  erewrite bind_Ok; cycle 1.
  { eapply (find_axes_run "min" _ (length (files w)) f rp);
      [reflexivity | apply Hlast | exact Hdisk | exact Hrp | eassumption..]. }
  erewrite bind_Ok by reflexivity.
  erewrite bind_Ok; cycle 1.
  { eapply (find_axes_run "max" _ (length (files w)) f rp);
      [reflexivity | apply Hlast | exact Hdisk | exact Hrp | eassumption..]. }
  erewrite bind_Ok by reflexivity.
  erewrite bind_Ok; cycle 1.
  { rewrite (find_parameter_cached _ _ _ (length (files w))) by reflexivity.
    rewrite (find_parameter_handle "real" "time" true (length (files w)) _ f rs);
      [rewrite Ht; reflexivity | apply Hlast | exact Hdisk | exact Hrs]. }
  erewrite bind_Ok by reflexivity.
  erewrite bind_Ok by reflexivity.
  cbn. unfold h5_close, Py.modify, with_files, with_pf. cbn.
  now rewrite close_last.
Qed.

(** The converse: a parse that ends without an exception has found all
    six bounds and the time in the checkpoint, and its result is the one
    above. *)
Theorem parse_parameter_file_requires w w' :
  _parse_parameter_file w = (w', Ok tt) ->
  exists f rp rs x0 y0 z0 x1 y1 z1 t,
    disk w = Some f /\
    f !! "/real runtime parameters" = Some (ParamTable rp) /\
    f !! "/real scalars" = Some (ParamTable rs) /\
    scan_rows rp "xmin" = Ok x0 /\ scan_rows rp "ymin" = Ok y0 /\
    scan_rows rp "zmin" = Ok z0 /\
    scan_rows rp "xmax" = Ok x1 /\ scan_rows rp "ymax" = Ok y1 /\
    scan_rows rp "zmax" = Ok z1 /\
    scan_rows rs "time" = Ok t /\
    domain_left_edge (pf w') = Some [py_float x0; py_float y0; py_float z0] /\
    domain_right_edge (pf w') = Some [py_float x1; py_float y1; py_float z1] /\
    current_time (pf w') = Some (py_float t).
Proof.
  intros Hrun.
  destruct (disk w) as [f|] eqn:Hdisk; cycle 1.
  { unfold _parse_parameter_file in Hrun. unfold Py.bind at 1 in Hrun.
    unfold h5py_File in Hrun. rewrite Hdisk in Hrun. discriminate. }
  rewrite (parse_parameter_file_unfold w f Hdisk) in Hrun.
  apply bind_inv_Ok in Hrun as (w1 & le & Ele & Hrun).
  apply (find_axes_inv _ _ _ (length (files w))) in Ele
    as (-> & f1 & rp & x0 & y0 & z0 & _ & Hd1 & Hrp & Hx0 & Hy0 & Hz0 & ->);
    [|reflexivity].
  cbn in Hd1. rewrite Hdisk in Hd1. injection Hd1 as <-.
  walk Hrun.
  apply bind_inv_Ok in Hrun as (w1 & re & Ere & Hrun).
  apply (find_axes_inv _ _ _ (length (files w))) in Ere
    as (-> & f1 & rp' & x1 & y1 & z1 & _ & Hd1 & Hrp' & Hx1 & Hy1 & Hz1 & ->);
    [|reflexivity].
  cbn in Hd1. rewrite Hdisk in Hd1. injection Hd1 as <-.
  rewrite Hrp in Hrp'. injection Hrp' as <-.
  walk Hrun.
  apply bind_inv_Ok in Hrun as (w1 & t & Et & Hrun).
  rewrite (find_parameter_cached _ _ _ (length (files w))) in Et by reflexivity.
  apply find_parameter_inv in Et as (-> & f1 & rs & _ & Hd1 & Hrs & Ht).
  cbn in Hd1. rewrite Hdisk in Hd1. injection Hd1 as <-.
  walk Hrun. walk Hrun.
  cbn in Hrun. apply modify_inv in Hrun as [-> _].
  exists f, rp, rs, x0, y0, z0, x1, y1, z1, t. cbn. auto 20.
Qed.

(** After a parse the parameter file keeps the closed File object as its
    handle: a later lookup without a handle of its own goes to that
    object, raises, and opens nothing. *)
Theorem stale_handle_after_parse w w' ptype pname scalar :
  _parse_parameter_file w = (w', Ok tt) ->
  exists e, _find_parameter ptype pname scalar None w' = (w', Raise e).
Proof.
  intros Hrun.
  destruct (disk w) as [f|] eqn:Hdisk; cycle 1.
  { unfold _parse_parameter_file in Hrun. unfold Py.bind at 1 in Hrun.
    unfold h5py_File in Hrun. rewrite Hdisk in Hrun. discriminate. }
  rewrite (parse_parameter_file_unfold w f Hdisk) in Hrun.
  apply bind_inv_Ok in Hrun as (w1 & le & Ele & Hrun).
  apply (find_axes_inv _ _ _ (length (files w))) in Ele as (-> & _); [|reflexivity].
  walk Hrun.
  apply bind_inv_Ok in Hrun as (w1 & re & Ere & Hrun).
  apply (find_axes_inv _ _ _ (length (files w))) in Ere as (-> & _); [|reflexivity].
  walk Hrun.
  apply bind_inv_Ok in Hrun as (w1 & t & Et & Hrun).
  rewrite (find_parameter_cached _ _ _ (length (files w))) in Et by reflexivity.
  apply find_parameter_inv in Et as (-> & _).
  walk Hrun. walk Hrun.
  cbn in Hrun. apply modify_inv in Hrun as [-> _].
  exists ValueError.
  rewrite (find_parameter_cached _ _ _ (length (files w))) by reflexivity.
  unfold _find_parameter. cbn [Py.bind Py.ret].
  unfold Py.bind, h5_getitem. cbn. now rewrite close_last, lookup_app_r, Nat.sub_diag by lia.
Qed.

(** ** The unit tables that [_set_units] leaves *)

#[local] Instance same_env_any : Frame same_env any_world.
Proof.
  split; [exact same_env_refl | exact same_env_trans | intros; exact I].
Qed.

Lemma stable_setup_nounits_units : stable any_world _setup_nounits_units.
Proof. unfold _setup_nounits_units, has_key. framed_tac. Qed.

Lemma units_loop_total c keys : forall w,
  mpc_conversion !! "cm" = Some c ->
  (forall k, k ∈ keys -> is_Some (mpc_conversion !! k)) ->
  exists w',
    Py.for_ keys (fun unit =>
      Py.bind (dict_getitem mpc_conversion unit) (fun a =>
      Py.bind (dict_getitem mpc_conversion "cm") (fun c =>
      Py.modify (with_pf (fun s =>
        set_units (<[unit := PyFloat (f_div a c)]> (units s)) s))))) w = (w', Ok tt).
Proof.
  induction keys as [|k keys IH]; intros w Hcm Hkeys; cbn [Py.for_].
  - eexists. reflexivity.
  - destruct (Hkeys k) as [a Ha]; [left|].
    destruct (IH (with_pf (fun s =>
                set_units (<[k := PyFloat (f_div a c)]> (units s)) s) w) Hcm)
      as [w' E]; [intros k' Hk'; apply Hkeys; now right|].
    exists w'. erewrite bind_Ok; [exact E|].
    unfold Py.bind, dict_getitem. now rewrite Ha, Hcm.
Qed.

Lemma setup_nounits_units_total c w :
  mpc_conversion !! "cm" = Some c ->
  exists w', _setup_nounits_units w = (w', Ok tt).
Proof.
  intros Hcm. unfold _setup_nounits_units, has_key.
  unfold Py.bind at 1. unfold Py.gets at 1.
  unfold Py.bind at 1.
  assert (Hkeys : forall k, k ∈ map fst (map_to_list mpc_conversion) ->
                            is_Some (mpc_conversion !! k)).
  { intros k Hk. apply list_elem_of_fmap in Hk as ([k' a] & -> & Hk).
    apply elem_of_map_to_list in Hk. eauto. }
  destruct (negb _); cbn [Py.modify Py.ret];
    now apply (units_loop_total c).
Qed.

(** After [_set_units] the time units are exactly "1", "years" and
    "days" and the units are exactly the names of the length-unit table
    together with "1" and "unitary": whatever either table held before is
    gone, and no conversion factor is stored. *)
Theorem set_units_tables w w' :
  _set_units w = (w', Ok tt) ->
  time_units (pf w') =
    <["days" := PyFloat (f_div (f_of_Z 1) (f_mul (f_of_Z 3600) (f_of_Z 24)))]>
      (<["years" := PyFloat (f_div (f_of_Z 1)
                               (f_mul (f_of_Z (365 * 3600)) (f_of_Z 24)))]>
         (<["1" := PyInt 1]> ∅)) /\
  conversion_factors (pf w') = ∅ /\
  (forall u, is_Some (units (pf w') !! u) <->
             u = "1" \/ u = "unitary" \/ is_Some (mpc_conversion !! u)).
Proof.
  intros Hrun. unfold _set_units in Hrun.
  walk Hrun. walk Hrun. walk Hrun.
  apply bind_inv_Ok in Hrun as (w1 & [] & Eparse & Hrun).
  assert (Hu1 : same_units
                  (with_pf (set_time_units ∅) (with_pf (set_units ∅) w)) w1).
  { destruct (Nat.eqb _ 0).
    - eapply parse_parameter_file_units; [exact I | exact Eparse].
    - apply ret_inv in Eparse as [-> _]. split; reflexivity. }
  destruct Hu1 as [Hu1 Ht1]. simpl in Hu1, Ht1.
  apply bind_inv_Ok in Hrun as (w2 & [] & Esetup & Hrun).
  apply setup_nounits_units_ok in Esetup as [(Ht2 & Hl2 & Hr2) Hu2].
  walk Hrun. walk Hrun. walk Hrun.
  apply bind_inv_Ok in Hrun as (w3 & re & Ere & Hrun).
  apply gets_getattr_inv in Ere as [-> Hre].
  apply bind_inv_Ok in Hrun as (w3 & le & Ele & Hrun).
  apply gets_getattr_inv in Ele as [-> Hle].
  walk Hrun. walk Hrun. walk Hrun. walk Hrun.
  apply modify_inv in Hrun as [-> _]. simpl in *.
  split; [now rewrite Ht2, Ht1|]. split; [reflexivity|].
  intros u. destruct (Hu2 u) as [Hin Hnin].
  destruct (decide (u = "unitary")) as [->|Hn1].
  { rewrite lookup_insert_eq. split; eauto. }
  rewrite lookup_insert_ne by congruence.
  destruct (decide (u = "1")) as [->|Hn2].
  { rewrite lookup_insert_eq. split; eauto. }
  rewrite lookup_insert_ne by congruence.
  destruct (mpc_conversion !! u) as [au|] eqn:Hu.
  - destruct (Hin au eq_refl) as (cu & _ & ->). split; eauto.
  - rewrite (Hnin eq_refl), Hu1, lookup_empty. split.
    + intros [? ?]; discriminate.
    + intros [?|[?|[? ?]]]; congruence.
Qed.

(** With parameters already present [_set_units] does not parse the
    checkpoint: no File object is opened and the handles stay as they
    are, and the call succeeds exactly when both edges of the domain are
    set and their difference has a largest entry. *)
Theorem set_units_with_parameters w c :
  size (parameters (pf w)) <> 0 ->
  mpc_conversion !! "cm" = Some c ->
  same_env w (fst (_set_units w)) /\
  snd (_set_units w) =
    match domain_right_edge (pf w), domain_left_edge (pf w) with
    | Some re, Some le =>
        match np_sub re le with
        | Ok ext => match np_max ext with Ok _ => Ok tt | Raise e => Raise e end
        | Raise e => Raise e
        end
    | _, _ => Raise AttributeError
    end.
Proof.
  intros Hsize Hcm.
  destruct (_set_units w) as [w' r] eqn:E. cbn [fst snd].
  unfold _set_units in E.
  erewrite bind_Ok in E by reflexivity.
  erewrite bind_Ok in E by reflexivity.
  erewrite bind_Ok in E by reflexivity.
  cbn [pf with_pf parameters set_time_units set_units] in E.
  destruct (Nat.eqb_spec (size (parameters (pf w))) 0) as [E0|_]; [contradiction|].
  erewrite bind_Ok in E by reflexivity.
  set (w0 := with_pf (set_time_units ∅) (with_pf (set_units ∅) w)) in E.
  destruct (setup_nounits_units_total c w0 Hcm) as [w2 E2].
  pose proof (stable_setup_nounits_units _ _ _ I E2) as Henv.
  pose proof (setup_nounits_units_ok _ _ E2) as [(_ & Hl & Hr) _].
  assert (Henv0 : same_env w w2).
  { apply (same_env_trans _ w0); [repeat split; reflexivity | exact Henv]. }
  cbn in Hl, Hr.
  rewrite (bind_Ok _ _ _ _ _ E2) in E.
  erewrite bind_Ok in E by reflexivity.
  erewrite bind_Ok in E by reflexivity.
  erewrite bind_Ok in E by reflexivity.
  match type of E with
  | Py.bind _ _ ?w3 = _ =>
      assert (Henv3 : same_env w w3) by
        (apply (same_env_trans _ w2); [exact Henv0 | repeat split; reflexivity])
  end.
  unfold Py.bind at 1 2 in E. unfold Py.gets at 1 in E.
  cbn [pf with_pf domain_right_edge set_units set_time_units
       set_conversion_factors] in E.
  rewrite Hr in E.
  destruct (domain_right_edge (pf w)) as [re|]; cbn [getattr Py.ret Py.raise] in E.
  2:{ injection E as <- <-. split; [exact Henv3 | reflexivity]. }
  unfold Py.bind at 1 2 in E. unfold Py.gets at 1 in E.
  cbn [pf with_pf domain_left_edge set_units set_time_units
       set_conversion_factors] in E.
  rewrite Hl in E.
  destruct (domain_left_edge (pf w)) as [le|]; cbn [getattr Py.ret Py.raise] in E.
  2:{ injection E as <- <-. split; [exact Henv3 | reflexivity]. }
  unfold Py.bind at 1 in E. unfold Py.lift at 1 in E.
  destruct (np_sub re le) as [ext|e];
    [|injection E as <- <-; split; [exact Henv3 | reflexivity]].
  unfold Py.bind at 1 in E. unfold Py.lift at 1 in E.
  destruct (np_max ext) as [m|e];
    [|injection E as <- <-; split; [exact Henv3 | reflexivity]].
  cbn [Py.bind Py.modify] in E. injection E as <- <-.
  split; [|reflexivity].
  eapply same_env_trans; [exact Henv3 | repeat split; reflexivity].
Qed.

(** ** What [_count_grids] touches *)

Lemma readonly_summary_first_entry h :
  readonly any_world (summary_first_entry (Some h)).
Proof. unfold summary_first_entry. framed_tac. Qed.

(** With the hierarchy's handle in place, counting the grids writes the
    attribute [num_grids] and nothing else, and writes nothing at all
    when it ends with an exception. *)
Theorem count_grids_only_sets_num_grids w :
  is_Some (h_handle (hier w)) ->
  match _count_grids w with
  | (w', Ok _) => exists n, w' = with_hier (set_num_grids n) w
  | (w', Raise _) => w' = w
  end.
Proof.
  intros [h Hh]. unfold _count_grids, self_handle.
  unfold Py.bind at 1. unfold Py.gets at 1. rewrite Hh.
  unfold Py.bind, Py.try_except_KeyError.
  pose proof (framed_find_parameter eq any_world "integer" "globalnumblocks"
                true h w) as E1.
  destruct (_find_parameter "integer" "globalnumblocks" true (Some h) w)
    as [w1 [v|e]]; specialize (E1 _ _ I eq_refl); subst w1.
  - cbn [Py.modify]. eauto.
  - pose proof (readonly_summary_first_entry h w) as E2.
    destruct e; try reflexivity.
    destruct (summary_first_entry (Some h) w) as [w2 [v|e]];
      specialize (E2 _ _ I eq_refl); subst w2;
      [cbn [Py.modify]; eauto | reflexivity].
Qed.

(** A checkpoint with neither the integer scalars nor the summary table
    has no grid count: the exception names the summary table, the last
    place looked at, and [num_grids] is not assigned. *)
Theorem count_grids_no_source w h f :
  h_handle (hier w) = Some h ->
  files w !! h = Some true ->
  disk w = Some f ->
  f !! "/integer scalars" = None ->
  f !! "/simulation parameters" = None ->
  _count_grids w = (w, Raise (KeyError "/simulation parameters")).
Proof.
  intros Hh Hopen Hdisk Hint Hsum. unfold _count_grids, self_handle.
  unfold Py.bind at 1. unfold Py.gets at 1. rewrite Hh.
  unfold Py.bind at 1. unfold Py.try_except_KeyError.
  rewrite (find_parameter_no_table "integer" "globalnumblocks" true h w f
             Hopen Hdisk Hint).
  unfold summary_first_entry. cbn [getitem].
  unfold Py.bind at 1. unfold h5_getitem. now rewrite Hopen, Hdisk, Hsum.
Qed.

(** ** Shapes that [_parse_hierarchy] accepts and rejects *)

Lemma np_assign_rows_Ok {A} n (src r : list A) :
  np_assign_rows n src = Ok r -> length src = 1 \/ length src = n.
Proof.
  unfold np_assign_rows. destruct src as [|x [|y src]]; [|now left|].
  - destruct (Nat.eqb_spec (length (@nil A)) n); [now right | discriminate].
  - destruct (Nat.eqb_spec (length (x :: y :: src)) n); [now right | discriminate].
Qed.

(** The particle counts of the checkpoint must come one per grid, or as a
    single count: anything else stops the parse, and a single count is
    given to every grid. *)
Theorem localnp_shape w f np :
  disk w = Some f ->
  f !! "/localnp" = Some (IntArray np) ->
  (length np <> 1 -> length np <> length (grid_particle_count (hier w)) ->
   exists e, snd (_parse_hierarchy w) = Raise e) /\
  (forall c w', np = [c] -> _parse_hierarchy w = (w', Ok tt) ->
     grid_particle_count (hier w')
       = replicate (length (grid_particle_count (hier w))) c).
Proof.
  intros Hdisk Hnp. split.
  - intros H1 Hn.
    destruct (_parse_hierarchy w) as [w' [[]|e]] eqn:E; [|eauto].
    apply parse_hierarchy_ok in E
      as (f' & ng & lv & np' & Hd & _ & Hnp' & _ & _ & _ & _ & Hassign & _).
    rewrite Hdisk in Hd. injection Hd as <-.
    rewrite Hnp in Hnp'. injection Hnp' as <-.
    apply np_assign_rows_Ok in Hassign as [?|?]; contradiction.
  - intros c w' -> E.
    apply parse_hierarchy_ok in E
      as (f' & ng & lv & np' & Hd & _ & Hnp' & _ & _ & _ & _ & Hassign & _).
    rewrite Hdisk in Hd. injection Hd as <-.
    rewrite Hnp in Hnp'. injection Hnp' as <-.
    cbn in Hassign. now injection Hassign as <-.
Qed.

Lemma parse_hierarchy_edges_ok w w' :
  _parse_hierarchy w = (w', Ok tt) ->
  exists f bb,
    disk w = Some f /\ f !! "/bounding box" = Some (BoxArray bb) /\
    np_assign_2d (length (grid_left_edge (hier w))) 3 (map (map fst) bb)
      = Ok (grid_left_edge (hier w')) /\
    np_assign_2d (length (grid_right_edge (hier w))) 3 (map (map snd) bb)
      = Ok (grid_right_edge (hier w')).
Proof.
  unfold _parse_hierarchy. intros E.
  do 9 walk E. rewrite Hh in E. repeat walk E.
  apply modify_inv in E as [-> _].
  match goal with
  | HM : Py.mapM _ _ _ = _ |- _ =>
      apply (mapM_inv _ (fun w i G => True)) in HM as [-> HM]
  end.
  2:{ intros i w1 w2 G Hi. walk Hi. walk Hi. apply ret_inv in Hi as [-> ->].
      auto. }
  simpl in *.
  repeat match goal with
         | Hd : disk w = Some ?f1, Hd' : disk w = Some ?f2 |- _ =>
             rewrite Hd in Hd'; injection Hd' as <-
         end.
  match goal with
  | H1 : f !! "/bounding box" = Some ?d, H2 : f !! "/bounding box" = Some ?d' |- _ =>
      rewrite H1 in H2; injection H2 as <-
  end.
  repeat match goal with
         | Hc : as_BoxArray (BoxArray _) = Ok _ |- _ => injection Hc as ->
         | Hc : as_BoxArray ?d = Ok _ |- _ => destruct d; try discriminate Hc
         end.
  eexists _, _. repeat split; eassumption.
Qed.

(** A bounding-box array with one row of three axes per grid is copied
    as it is: the left edges are its lower bounds, the right edges its
    upper bounds. *)
Theorem parse_hierarchy_edges w w' f bb :
  disk w = Some f ->
  f !! "/bounding box" = Some (BoxArray bb) ->
  Forall (fun row => length row = 3) bb ->
  _parse_hierarchy w = (w', Ok tt) ->
  (length bb = length (grid_left_edge (hier w)) ->
   grid_left_edge (hier w') = map (map fst) bb) /\
  (length bb = length (grid_right_edge (hier w)) ->
   grid_right_edge (hier w') = map (map snd) bb).
Proof.
  intros Hdisk Hbb Hrows E.
  apply parse_hierarchy_edges_ok in E as (f' & bb' & Hd & Hbb' & Hl & Hr).
  rewrite Hdisk in Hd. injection Hd as <-.
  rewrite Hbb in Hbb'. injection Hbb' as <-.
  split; intros Hlen.
  - rewrite np_assign_2d_exact in Hl; [now injection Hl | now rewrite length_map|].
    apply Forall_fmap. eapply Forall_impl; [exact Hrows|].
    intros row Hrow. cbn. now rewrite length_map.
  - rewrite np_assign_2d_exact in Hr; [now injection Hr | now rewrite length_map|].
    apply Forall_fmap. eapply Forall_impl; [exact Hrows|].
    intros row Hrow. cbn. now rewrite length_map.
Qed.

(** The parse makes one grid object per block, whatever objects were
    there before: the object at position [i] has the identifier [i + 1]
    and the level of row [i], and neither parent nor children. *)
Theorem parse_hierarchy_fresh_grids w w' ng :
  num_grids (hier w) = PyInt ng ->
  _parse_hierarchy w = (w', Ok tt) ->
  length (grids (hier w')) = Z.to_nat ng /\
  forall i G, grids (hier w') !! i = Some G ->
    exists l, grid_levels (hier w') !! i = Some l /\
              G = FLASHGrid_init (Z.of_nat i + 1) l.
Proof.
  intros Hng E.
  apply parse_hierarchy_ok in E
    as (f & ng' & lv & np & _ & _ & _ & Hng' & _ & _ & _ & _ & _ & _ & Hall).
  rewrite Hng in Hng'. injection Hng' as <-.
  split.
  - apply Forall2_length in Hall. now rewrite length_seq in Hall.
  - intros i G HG.
    destruct (Forall2_lookup_r _ _ _ _ _ Hall HG) as (i' & Hi' & l & Hl & ->).
    apply lookup_seq in Hi' as [-> _]. cbn in Hl.
    exists l. split; [now apply np_getitem_nat | reflexivity].
Qed.

(** ** The hierarchy after a completed build *)

Lemma np_index_lt n k c : np_index n k = Ok c -> c < n.
Proof.
  unfold np_index.
  destruct (0 <=? k)%Z eqn:E1, (k <? Z.of_nat n)%Z eqn:E2; cbn [andb];
    try (intros [= <-]; lia).
  - destruct (- Z.of_nat n <=? k)%Z eqn:E3, (k <? 0)%Z eqn:E4; cbn [andb];
      try discriminate; intros [= <-]; lia.
  - destruct (- Z.of_nat n <=? k)%Z eqn:E3, (k <? 0)%Z eqn:E4; cbn [andb];
      try discriminate; intros [= <-]; lia.
  - destruct (- Z.of_nat n <=? k)%Z eqn:E3, (k <? 0)%Z eqn:E4; cbn [andb];
      try discriminate; intros [= <-]; lia.
Qed.

Lemma listed_inv_step gid done g w w' :
  listed_inv done (grids (hier w)) ->
  populate_grid gid g w = (w', Ok tt) ->
  listed_inv (g :: done) (grids (hier w')).
Proof.
  intros Hinv Hrun.
  apply populate_grid_ok in Hrun
    as (G & row & ch & j & HG & Hrow & Hch & Hj & Hlv' & Hlinks).
  intros p P' c Hp HP' Hc.
  destruct (map_eq_lookup links _ _ _ _ Hlinks HP') as (P2 & HP2 & HL).
  rewrite lookup_link_children in HP2.
  destruct (grids (hier w) !! p) as [P0|] eqn:HP0; [|discriminate].
  injection HP2 as <-. injection HL as _ _ _ HCh.
  rewrite Children_relink in HCh. rewrite <- HCh in Hc.
  assert (Hex : exists C0, grids (hier w) !! c = Some C0 /\
                           (c ∈ ch \/ exists q, Parent C0 = Some q)).
  { destruct (decide (p = g)) as [->|Hne].
    - destruct (Forall2_elem_r _ _ _ _ Hch Hc) as (v & _ & Hv).
      apply np_index_lt in Hv.
      destruct (lookup_lt_is_Some_2 _ _ Hv) as [C0 HC0]. eauto.
    - apply elem_of_cons in Hp as [->|Hp]; [contradiction|].
      destruct (Hinv p P0 c Hp HP0 Hc) as (C0 & q & HC0 & Hq). eauto. }
  destruct Hex as (C0 & HC0 & Hcase).
  assert (HC2 : link_children g ch (grids (hier w)) !! c = Some (relink g ch c C0))
    by (rewrite lookup_link_children, HC0; reflexivity).
  destruct (map_eq_lookup links _ _ _ _ (eq_sym Hlinks) HC2) as (C' & HC' & HL').
  injection HL' as _ _ HPar _. rewrite Parent_relink in HPar.
  exists C'. destruct (decide (c ∈ ch)) as [Hin|Hnin]; [eauto|].
  destruct Hcase as [?|[q Hq]]; [contradiction|].
  exists q. split; congruence.
Qed.

Lemma listed_inv_loop gid gs : forall done w w',
  listed_inv done (grids (hier w)) ->
  Py.for_ gs (populate_grid gid) w = (w', Ok tt) ->
  listed_inv (rev gs ++ done) (grids (hier w')).
Proof.
  induction gs as [|g gs IH]; simpl; intros done w w' Hinv Hrun.
  - apply ret_inv in Hrun as [-> _]. exact Hinv.
  - apply bind_inv_Ok in Hrun as (w1 & [] & E1 & Hrun).
    rewrite <- app_assoc. simpl.
    apply (IH (g :: done) w1 w'); [|exact Hrun].
    eapply listed_inv_step; eauto.
Qed.

Lemma populate_grid_objects_listed w w' :
  _populate_grid_objects w = (w', Ok tt) ->
  listed_inv (rev (argsort (grid_levels (hier w)))) (grids (hier w')).
Proof.
  unfold _populate_grid_objects. intros E.
  walk E.
  apply bind_inv_Ok in E as (w1 & gid & E1 & E).
  change (Py.bind (Py.bind self_handle (fun h => getitem h "/gid"))
            (fun d => Py.lift (as_IntArray2 d)) w = (w1, Ok gid)) in E1.
  apply bind_inv_Ok in E1 as (w2 & d & E1 & E2).
  apply bind_inv_Ok in E1 as (w3 & h & E0 & E1).
  apply gets_inv in E0 as [-> ->].
  apply getitem_inv in E1 as (-> & h0 & f & Hh & Hopen & Hdisk & Hkey).
  apply lift_inv in E2 as [-> Hd].
  walk E. walk E.
  apply Forall2_same_index in E0 as [-> Hlt].
  apply bind_inv_Ok in E as (w5 & [] & Hloop & E).
  walk E. apply modify_inv in E as [-> _]. cbn.
  rewrite <- (app_nil_r (rev _)).
  eapply listed_inv_loop; [|exact Hloop].
  intros p P c Hp. now apply elem_of_nil in Hp.
Qed.

#[local] Instance same_count_frame : Frame same_count any_world.
Proof.
  split; unfold same_count; [reflexivity | congruence | intros; exact I].
Qed.

Lemma populate_grid_objects_count : framed same_count any_world _populate_grid_objects.
Proof.
  unfold _populate_grid_objects, populate_grid, child_refs,
    _prepare_grid, _setup_dx, update_grid, self_handle.
  framed_tac.
Qed.

Lemma detect_fields_count : framed same_count any_world _detect_fields.
Proof. unfold _detect_fields, self_handle. framed_tac. Qed.

Lemma np_assign_rows_length {A} n (src r : list A) :
  np_assign_rows n src = Ok r -> length r = n.
Proof.
  unfold np_assign_rows. destruct src as [|x [|y src]].
  - destruct (Nat.eqb_spec (length (@nil A)) n); [|discriminate].
    now intros [= <-].
  - intros [= <-]. apply length_replicate.
  - destruct (Nat.eqb_spec (length (x :: y :: src)) n); [|discriminate].
    now intros [= <-].
Qed.

Lemma particle_offsets_length n counts offs :
  particle_offsets n counts = Ok offs -> length offs = S (length counts).
Proof.
  unfold particle_offsets.
  destruct (n + 1 <? 0)%Z; [discriminate|].
  destruct (negb _); [discriminate|].
  intros [= <-]. cbn. now rewrite length_accumulate64.
Qed.

(** The phases of a completed build, with the relationship pass singled
    out. *)
Lemma build_phases w w' :
  FLASHHierarchy_init w = (w', Ok tt) ->
  exists wc wd ng lvf,
    (0 <= ng)%Z /\
    grid_levels (hier wc) = parsed_levels ng lvf /\
    _populate_grid_objects wc = (wd, Ok tt) /\
    grids (hier w') = grids (hier wd) /\
    length (grids (hier w')) = Z.to_nat ng /\
    num_grids (hier w') = PyInt ng /\
    grid_levels (hier w') = parsed_levels ng lvf /\
    h_handle (hier w') = None /\
    length (grid_particle_count (hier w')) = Z.to_nat ng /\
    length (_particle_indices (hier w')) = S (Z.to_nat ng).
Proof.
  intros Hrun.
  destruct (disk w) as [f|] eqn:Hd;
    [|rewrite (init_no_file _ Hd) in Hrun; discriminate].
  pose proof (init_outcome w f Hd) as Ho.
  destruct (AMRHierarchy_init (opened w)) as [w1 [[]|e]] eqn:Ebuild;
    destruct Ho as [Ho _]; rewrite Ho in Hrun; [|discriminate].
  injection Hrun as <-. clear Ho.
  unfold AMRHierarchy_init in Ebuild.
  apply bind_inv_Ok in Ebuild as (wa & [] & Ea & Ebuild).
  apply bind_inv_Ok in Ebuild as (wb & [] & Eb & Ebuild).
  apply bind_inv_Ok in Ebuild as (wc & [] & Ec & Ebuild).
  apply bind_inv_Ok in Ebuild as (wd & [] & Ed & Ee).
  pose proof (stable_count_grids _ _ _ (has_h_opened w) Ea) as (Hda & _ & _ & Hha).
  apply initialize_grid_arrays_ok in Eb as (ng & Hng & Hpos & ->).
  apply parse_hierarchy_ok in Ec
    as (f' & ng' & lvf & np & Hdb & Hlvf & Hnp & Hng' & Senv & Hngc & _ &
        Hcounts & Hoffs & Hlv & Hgrids).
  simpl in Hdb, Hng', Hcounts, Hlv.
  rewrite Hng in Hng'. injection Hng' as <-.
  rewrite length_replicate in Hcounts.
  fold (parsed_levels ng lvf) in Hlv.
  pose proof Hgrids as Hgrids'. rewrite Hlv in Hgrids'.
  apply Forall2_fresh_grids in Hgrids' as [Hids Hfresh].
  fold (parsed_idents ng (parsed_levels ng lvf)) in Hids.
  pose proof Ed as Ed'.
  apply populate_grid_objects_ok in Ed'
    as (f'' & gid & m & w5 & Hdc & Hgid & Hinv & Hmax & -> & _ & Hpart).
  2:{ rewrite Hids, Hlv. apply levels_agree_parsed. }
  2:{ intros c C HC. now apply Hfresh in HC. }
  pose proof Senv as (_ & _ & _ & Hhc).
  assert (Hhas : has_h wc).
  { unfold has_h. rewrite Hhc. simpl. rewrite Hha. simpl. eauto. }
  destruct (Hpart Hhas) as ((_ & _ & _ & Hh5) & Hc5 & Hi5).
  assert (Hh5' : has_h (with_hier (set_max_level (Some m)) w5)).
  { unfold has_h. simpl. now rewrite Hh5. }
  destruct (detect_fields_same_hier _ _ _ Hh5' Ee)
    as (_ & Hg1 & Hl1 & Hm1 & Hc1 & Hi1).
  simpl in Hg1, Hl1, Hm1, Hc1, Hi1.
  destruct Hinv as (I1 & I2 & _).
  exists wc, (with_hier (set_max_level (Some m)) w5), ng, lvf.
  split; [exact Hpos|]. split; [exact Hlv|]. split; [exact Ed|].
  cbn. split; [exact Hg1|]. split.
  { rewrite Hg1, <- (length_map ident), I1, Hids. apply length_parsed_idents. }
  pose proof (populate_grid_objects_count _ _ _ I Ed) as Hn1.
  pose proof (detect_fields_count _ _ _ I Ee) as Hn2.
  unfold same_count in Hn1, Hn2. cbn in Hn1, Hn2.
  split; [congruence|].
  split; [congruence|].
  split; [reflexivity|].
  split.
  { rewrite Hc1, Hc5. now apply np_assign_rows_length in Hcounts. }
  rewrite Hi1, Hi5. apply particle_offsets_length in Hoffs.
  apply np_assign_rows_length in Hcounts. congruence.
Qed.

(** A completed build leaves a hierarchy with at least one grid, as many
    grid objects as [num_grids] says, numbered from 1 in the order of the
    checkpoint, one row per grid in the per-grid arrays and one more in
    the particle offsets, and no handle. *)
Theorem built_hierarchy_shape w w' :
  FLASHHierarchy_init w = (w', Ok tt) ->
  1 <= length (grids (hier w')) /\
  num_grids (hier w') = PyInt (Z.of_nat (length (grids (hier w')))) /\
  (forall i G, grids (hier w') !! i = Some G -> id G = (Z.of_nat i + 1)%Z) /\
  length (grid_levels (hier w')) = length (grids (hier w')) /\
  length (grid_particle_count (hier w')) = length (grids (hier w')) /\
  length (_particle_indices (hier w')) = S (length (grids (hier w'))) /\
  h_handle (hier w') = None.
Proof.
  intros Hrun.
  pose proof (build_phases _ _ Hrun)
    as (wc & wd & ng & lvf & Hpos & _ & _ & _ & Hn & Hnum & Hlv & Hh & Hc & Hi).
  apply build_ok in Hrun
    as (f & gid & lvf' & np & ng' & m & _ & _ & _ & _ & _ & Hinv & _ & Hmax & _).
  rewrite Hn, Hlv, length_parsed_levels, Z2Nat.id by exact Hpos.
  split.
  { pose proof Hinv as (_ & Hlv' & _).
    assert (Hlen : length (parsed_levels ng' lvf') = Z.to_nat ng).
    { rewrite <- Hlv', Hlv. apply length_parsed_levels. }
    destruct (parsed_levels ng' lvf'); [discriminate Hmax|]. cbn in Hlen. lia. }
  split; [exact Hnum|]. split; [|auto].
  intros i G HG. now destruct (built_level _ _ _ _ _ _ _ Hinv HG) as (_ & ? & _).
Qed.


(** Every grid that some grid has among its children has a parent, and
    the parent is a grid that has it among its children. *)
Theorem listed_child_has_parent w w' p P c :
  FLASHHierarchy_init w = (w', Ok tt) ->
  grids (hier w') !! p = Some P ->
  c ∈ Children P ->
  exists C q Q, grids (hier w') !! c = Some C /\ Parent C = Some q /\
                grids (hier w') !! q = Some Q /\ c ∈ Children Q.
Proof.
  intros Hrun HP Hc.
  pose proof (build_phases _ _ Hrun)
    as (wc & wd & ng & lvf & Hpos & Hlv & Epop & Hg & Hn & _).
  apply populate_grid_objects_listed in Epop as Hlisted.
  rewrite Hlv, <- Hg in Hlisted.
  destruct (Hlisted p P c) as (C & q & HC & Hq); [|exact HP|exact Hc|].
  { apply elem_of_rev'. rewrite (argsort_perm (parsed_levels ng lvf)).
    rewrite length_parsed_levels, <- Hn. apply elem_of_seq.
    apply lookup_lt_Some in HP. lia. }
  apply build_ok in Hrun
    as (f & gid & lvf' & np & ng' & m & _ & _ & _ & _ & _ & Hinv & _).
  destruct Hinv as (_ & _ & Hpar & _).
  destruct (Hpar c C q HC Hq) as (_ & Q & HQ & HcQ & _).
  exists C, q, Q. auto.
Qed.

(** A grid that exactly one grid names in its child slots, in a
    checkpoint without a 0 in a child slot, has that grid as its
    parent. *)
Theorem unique_parent w w' f gid p P row c C :
  disk w = Some f ->
  f !! "/gid" = Some (IntArray2 gid) ->
  FLASHHierarchy_init w = (w', Ok tt) ->
  grids (hier w') !! c = Some C ->
  grids (hier w') !! p = Some P ->
  gid !! p = Some row ->
  id C ∈ drop 7 row ->
  (forall q row' v, gid !! q = Some row' -> v ∈ drop 7 row' ->
     v <> 0%Z /\ (v = id C -> q = p)) ->
  Parent C = Some p.
Proof.
  intros Hd Hgid Hrun HC HP Hrow Hin Huniq.
  pose proof (built_children _ _ _ _ _ _ _ Hd Hgid Hrun HP Hrow) as Hall.
  pose proof (build_phases _ _ Hrun)
    as (wc & wd & ng & lvf & Hpos & Hlv & Epop & Hg & Hn & _).
  pose proof Hrun as Hrun'.
  apply build_ok in Hrun'
    as (f' & gid' & lvf' & np & ng' & m & _ & _ & _ & _ & _ & Hinv & _).
  destruct (built_level _ _ _ _ _ _ _ Hinv HC) as (_ & HidC & _).
  assert (HcP : c ∈ Children P).
  { assert (Hf : id C ∈ filter (fun i => (i > -1)%Z) (drop 7 row)).
    { apply list_elem_of_filter. split; [lia | exact Hin]. }
    destruct (Forall2_elem_l _ _ _ _ Hall Hf) as (c' & Hc' & Hsel).
    rewrite HidC in Hsel.
    replace (Z.of_nat c + 1 - 1)%Z with (Z.of_nat c) in Hsel by lia.
    apply np_index_nat in Hsel as [-> _]. exact Hc'. }
  apply populate_grid_objects_listed in Epop as Hlisted.
  rewrite Hlv, <- Hg in Hlisted.
  destruct (Hlisted p P c) as (C' & q & HC' & Hq); [|exact HP|exact HcP|].
  { apply elem_of_rev'. rewrite (argsort_perm (parsed_levels ng lvf)).
    rewrite length_parsed_levels, <- Hn. apply elem_of_seq.
    apply lookup_lt_Some in HP. lia. }
  rewrite HC in HC'. injection HC' as <-.
  destruct (built_parent_source _ _ _ _ _ _ _ Hd Hgid Hrun HC Hq)
    as (row' & v & Hrow' & Hv & Hcase).
  destruct (Huniq q row' v Hrow' Hv) as [Hnz Hsame].
  destruct Hcase as [Hv'|[Hz _]]; [|contradiction].
  now rewrite (Hsame Hv') in Hq.
Qed.

#[local] Instance same_store_frame : Frame same_store any_world.
Proof.
  split.
  - intros w. split; reflexivity.
  - intros w1 w2 w3 [? ?] [? ?]. split; congruence.
  - intros; exact I.
Qed.

Lemma h5py_File_store : framed same_store any_world h5py_File.
Proof.
  intros w w' r _. unfold h5py_File.
  destruct (disk w); intros [= <- _]; split; reflexivity.
Qed.

Lemma find_parameter_store ptype pname scalar handle :
  framed same_store any_world (_find_parameter ptype pname scalar handle).
Proof.
  unfold _find_parameter. pose proof h5py_File_store.
  sapply framed_bind; [destruct handle; framed_tac | intros h1].
  sapply framed_bind; [destruct h1; [framed_tac | assumption] | intros h2].
  framed_tac.
Qed.

Ltac store_tac :=
  repeat (framed_step
          || sapply find_parameter_store
          || sapply h5py_File_store).

(** None of the passes of the hierarchy writes the parameter file
    object or the checkpoint, whichever way the pass ends: the parameter
    file is only asked for parameters. *)
Theorem passes_keep_parameter_file w :
  same_store w (fst (_count_grids w)) /\
  same_store w (fst (_parse_hierarchy w)) /\
  same_store w (fst (_populate_grid_objects w)) /\
  same_store w (fst (_detect_fields w)).
Proof.
  assert (Hrun : forall {A} (m : M A), framed same_store any_world m ->
                   same_store w (fst (m w))).
  { intros A m Hm. destruct (m w) as [w' r] eqn:E. exact (Hm w w' r I E). }
  split; [|split; [|split]]; apply Hrun.
  - unfold _count_grids, summary_first_entry, self_handle. store_tac.
  - unfold _parse_hierarchy, block_sizes, summary_block_size, self_handle.
    store_tac.
  - unfold _populate_grid_objects, populate_grid, child_refs, _prepare_grid,
      _setup_dx, update_grid, self_handle.
    store_tac.
  - unfold _detect_fields, self_handle. store_tac.
Qed.

(** ** The field list *)

Lemma particle_fields_run (pn : list (list string)) (w : World) :
  Forall (fun row => row <> []) pn ->
  Py.mapM (fun s => Py.bind (Py.lift (first_name s))
                      (fun x => Py.ret ("particle_" +:+ strip x))) pn w
    = (w, Ok (map (fun row => "particle_" +:+ strip (hd EmptyString row)) pn)).
Proof.
  induction 1 as [|row pn Hrow _ IH]; [reflexivity|].
  cbn [Py.mapM map]. destruct row as [|x row]; [contradiction|].
  unfold Py.bind at 1. unfold Py.bind at 1. cbn [first_name Py.lift Py.ret hd].
  unfold Py.bind at 1. rewrite IH. reflexivity.
Qed.

(** The field list is made anew from the checkpoint, whatever it held
    before: first every name of the cell-data array, stripped, then one
    name per row of the particle array, stripped and prefixed with
    "particle_".  When the particle array is missing the list has already
    been replaced by the cell-data names and stays so. *)
Theorem detect_fields_result w h f un :
  h_handle (hier w) = Some h ->
  files w !! h = Some true ->
  disk w = Some f ->
  f !! "/unknown names" = Some (NameArray un) ->
  (forall pn, f !! "/particle names" = Some (NameArray pn) ->
     Forall (fun row => row <> []) pn ->
     _detect_fields w =
       (with_hier (set_field_list
          (map strip (concat un) ++
           map (fun row => "particle_" +:+ strip (hd EmptyString row)) pn)) w,
        Ok tt)) /\
  (f !! "/particle names" = None ->
   _detect_fields w =
     (with_hier (set_field_list (map strip (concat un))) w,
      Raise (KeyError "/particle names"))).
Proof.
  intros Hh Hopen Hdisk Hun.
  assert (Eun : forall w0, files w0 = files w -> disk w0 = disk w ->
            Py.bind (getitem (Some h) "/unknown names")
                    (fun d => Py.lift (as_NameArray d)) w0 = (w0, Ok un)).
  { intros w0 Hf Hd.
    erewrite bind_Ok; cycle 1.
    { apply (getitem_present h _ w0 f);
        [now rewrite Hf | now rewrite Hd | exact Hun]. }
    reflexivity. }
  split; [intros pn Hpn Hrows | intros Hpn];
    unfold _detect_fields, self_handle;
    (unfold Py.bind at 1); (unfold Py.gets at 1); rewrite Hh;
    rewrite (bind_Ok _ _ _ _ _ (Eun w eq_refl eq_refl));
    rewrite (bind_Ok _ _ _ _ _ (Eun w eq_refl eq_refl));
    (erewrite bind_Ok by reflexivity);
    set (w1 := with_hier (set_field_list (map strip (concat un))) w).
  - erewrite bind_Ok; cycle 1.
    { erewrite bind_Ok; cycle 1.
      { apply (getitem_present h _ w1 f); [exact Hopen | exact Hdisk | exact Hpn]. }
      reflexivity. }
    cbn [as_NameArray].
    rewrite (bind_Ok _ _ _ _ _ (particle_fields_run pn w1 Hrows)).
    reflexivity.
  - unfold Py.bind at 1 2. cbn [getitem]. unfold h5_getitem.
    replace (files w1) with (files w) by reflexivity.
    replace (disk w1) with (disk w) by reflexivity.
    now rewrite Hopen, Hdisk, Hpn.
Qed.

(** ** Recognising a checkpoint *)

Lemma root_member_inv path name :
  root_member path = Some name <-> path = String "/"%char name.
Proof.
  unfold root_member. destruct path as [|c path]; [split; discriminate|].
  destruct (Ascii.ascii_dec c "/"%char) as [->|Hne].
  - split; [now intros [= ->] | now intros [= ->]].
  - split.
    + intros Hm. exfalso.
      destruct c as [[] [] [] [] [] [] [] []]; try discriminate Hm.
      now apply Hne.
    + intros [= -> _]. now contradiction Hne.
Qed.

Lemma root_keys_bounding_box (f : gmap string Dataset) :
  "bounding box" ∈ omap root_member (map fst (map_to_list f))
  <-> is_Some (f !! "/bounding box").
Proof.
  rewrite list_elem_of_omap. split.
  - intros (path & Hin & Hm). apply root_member_inv in Hm as ->.
    apply list_elem_of_fmap in Hin as ([k d] & Hk & Hin). cbn in Hk. subst k.
    apply elem_of_map_to_list in Hin. eauto.
  - intros [d Hd]. exists "/bounding box". split; [|reflexivity].
    apply list_elem_of_fmap. exists ("/bounding box", d).
    split; [reflexivity|]. now apply elem_of_map_to_list.
Qed.

(** [_is_valid] never raises: it answers [True] exactly when the file
    opens as a container and holds a bounding box, and [False] otherwise.
    The File object it opens is left open. *)
Theorem is_valid_answer w :
  _is_valid w =
    match disk w with
    | Some f => (with_files (fun fs => fs ++ [true]) w,
                 Ok (bool_decide (is_Some (f !! "/bounding box"))))
    | None => (w, Ok false)
    end.
Proof.
  unfold _is_valid, try_except. unfold Py.bind at 1.
  unfold Py.bind at 1. unfold h5py_File.
  destruct (disk w) as [f|] eqn:Hdisk; [|reflexivity].
  unfold Py.bind at 1. unfold h5_root_keys.
  cbn [files with_files disk].
  rewrite lookup_app_r, Nat.sub_diag by lia. cbn [lookup]. rewrite Hdisk.
  change (list_lookup 0 [true]) with (Some true). cbv beta iota.
  destruct (bool_decide_reflect
              ("bounding box" ∈ omap root_member (map fst (map_to_list f))))
    as [Hin|Hnin]; cbn [Py.ret].
  - apply root_keys_bounding_box in Hin.
    now rewrite (bool_decide_eq_true_2 _ Hin).
  - rewrite bool_decide_eq_false_2; [reflexivity|].
    intros Hs. now apply Hnin, root_keys_bounding_box.
Qed.

End Flash.

(** * The model at work

    The properties above are instantiated on the sample checkpoints, with
    rational numbers for the floats and the stable sort for [argsort]. *)

Lemma insert_by_perm keys i sorted : Permutation (insert_by keys i sorted) (i :: sorted).
Proof.
  induction sorted as [|j rest IH]; simpl; [reflexivity|].
  destruct (nth i keys 0 <? nth j keys 0)%Z; [reflexivity|].
  rewrite IH. apply perm_swap.
Qed.

Lemma fold_insert_by_perm keys l : forall acc,
  Permutation (fold_left (fun acc i => insert_by keys i acc) l acc) (l ++ acc).
Proof.
  induction l as [|x l IH]; intros acc; simpl; [reflexivity|].
  rewrite IH, insert_by_perm. symmetry. apply Permutation_middle.
Qed.

Lemma stable_argsort_perm l : Permutation (stable_argsort l) (seq 0 (length l)).
Proof. unfold stable_argsort. rewrite fold_insert_by_perm. now rewrite app_nil_r. Qed.

Lemma stable_argsort_example : stable_argsort [1; 0; 1; 0]%Z = [1; 3; 0; 2].
Proof. reflexivity. Qed.

Lemma parent_child_symmetry_witness :
  exists P, grids (hier (fst (FLASHHierarchy_init stable_argsort
                                 (linked_world (F := Q))))) !! 0 = Some P /\
            1 ∈ Children P.
Proof.
  eapply (parent_child_symmetry stable_argsort stable_argsort_perm
            linked_world _ 1 _ 0); vm_compute; reflexivity.
Defined.

(** The sample build: grid 1 is the parent of grids 2 and 3. *)
Lemma linked_world_build :
  let r := FLASHHierarchy_init stable_argsort (linked_world (F := Q)) in
  snd r = Ok tt /\
  map links (grids (hier (fst r)))
    = [(1%Z, 0%Z, None, [1; 2]); (2%Z, 1%Z, Some 0, []); (3%Z, 1%Z, Some 0, [])] /\
  max_level (hier (fst r)) = Some 1%Z /\
  _particle_indices (hier (fst r)) = [0; 0; 5; 8]%Z /\
  files (fst r) = [false].
Proof. vm_compute. repeat split; reflexivity. Qed.

Lemma particle_offsets_prefix_sums_witness :
  let w := fst (_initialize_grid_arrays
                  (fst (_count_grids (opened (old_format_world (F := Q)))))) in
  let w' := fst (_parse_hierarchy w) in
  length (_particle_indices (hier w')) = 5 /\
  _particle_indices (hier w') !! 4 = Some (total [0; 5; 3; 0]%Z).
Proof.
  intros w w'.
  destruct (particle_offsets_prefix_sums w w'
              (old_format_file (replicate 4 no_children) [1; 1; 1; 1]%Z [0; 5; 3; 0]%Z)
              [0; 5; 3; 0]%Z)
    as (_ & _ & Hlen & _ & _ & _ & Hlast & _).
  - vm_compute; reflexivity.
  - vm_compute; reflexivity.
  - vm_compute; reflexivity.
  - repeat constructor; unfold int32_range; lia.
  - simpl; lia.
  - vm_compute; reflexivity.
  - split; [exact Hlen | exact Hlast].
Defined.

Lemma child_id_out_of_range_fails_witness :
  exists e, snd (FLASHHierarchy_init stable_argsort (bad_child_world (F := Q)))
            = Raise e.
Proof.
  eapply (child_id_out_of_range_fails stable_argsort stable_argsort_perm
            bad_child_world _ _ _ _ 0 (row_with [2; 99]%Z) 99%Z).
  - vm_compute; reflexivity.
  - vm_compute; reflexivity.
  - apply surjective_pairing.
  - vm_compute; lia.
  - reflexivity.
  - vm_compute. do 1 right. left.
  - vm_compute; reflexivity.
Defined.

(** Child id 99 with eight grids: the build stops with [IndexError]. *)
Lemma bad_child_world_build :
  snd (FLASHHierarchy_init stable_argsort (bad_child_world (F := Q)))
    = Raise IndexError.
Proof. vm_compute. reflexivity. Qed.

(** C4, at the failing input: three grids, and the row of grid 1 holds
    the identifier 0 in a child slot.  The value is outside 1..3 and the
    guard [i > -1] does not skip it, yet the relationship pass does not
    fail: the list comprehension yields the last grid, the build
    completes, and the hierarchy it produces has grid 3 as a child of
    grid 1. *)
Theorem zero_child_id_builds :
  let row := row_with [0; -1; -1; -1; -1; -1; -1; -1]%Z in
  let r := FLASHHierarchy_init stable_argsort (zero_slot_world (F := Q)) in
  0%Z ∈ drop 7 row /\ ~ (1 <= 0 <= 3)%Z /\
  filter (fun i => (i > -1)%Z) (drop 7 row) = [0%Z] /\
  snd (child_refs 3 row (zero_slot_world (F := Q))) = Ok [2] /\
  snd r = Ok tt /\
  length (grids (hier (fst r))) = 3 /\
  map Children (grids (hier (fst r))) = [[2]; []; []].
Proof.
  intros row r. split; [left|]. split; [lia|].
  split; [reflexivity|]. split; [reflexivity|].
  vm_compute. repeat split; reflexivity.
Qed.

(** Against C5 as stated: the build of the checkpoint with child id 99
    and the parse of the checkpoint without a "time" scalar both end with
    an exception and leave the File object open. *)
Lemma handle_left_open_counterexample :
  ~ closes_every_handle (FLASHHierarchy_init stable_argsort)
      (bad_child_world (F := Q)) /\
  ~ closes_every_handle _parse_parameter_file (no_time_world (F := Q)).
Proof.
  split; intros Hclose.
  - specialize (Hclose _ _ (surjective_pairing _)).
    vm_compute in Hclose. inversion Hclose as [|b l Hb Hl]. discriminate Hb.
  - specialize (Hclose _ _ (surjective_pairing _)).
    vm_compute in Hclose. inversion Hclose as [|b l Hb Hl]. discriminate Hb.
Qed.

Lemma no_time_world_parse :
  let r := _parse_parameter_file (no_time_world (F := Q)) in
  snd r = Raise (KeyError "/real scalars") /\ files (fst r) = [true].
Proof. vm_compute. split; reflexivity. Qed.

Lemma levels_normalised_witness :
  exists m,
    max_level (hier (fst (FLASHHierarchy_init stable_argsort
                            (linked_world (F := Q))))) = Some m /\
    (forall i G,
       grids (hier (fst (FLASHHierarchy_init stable_argsort
                           (linked_world (F := Q))))) !! i = Some G ->
       (Level G <= m)%Z) /\
    (exists i G,
       grids (hier (fst (FLASHHierarchy_init stable_argsort
                           (linked_world (F := Q))))) !! i = Some G /\
       Level G = m).
Proof.
  refine (proj2 (proj2 (levels_normalised stable_argsort stable_argsort_perm
                   linked_world _
                   (sample_file [row_with [2; 3]%Z; no_children; no_children]
                      [1; 2; 2]%Z [0; 5; 3]%Z)
                   [1; 2; 2]%Z _ _ _))); vm_compute; reflexivity.
Defined.


Lemma units_after_set_units_witness :
  let w' := fst (_set_units sample_mpc_conversion (linked_world (F := Q))) in
  (exists m, units (pf w') !! "unitary" = Some (PyFloat (1 / m)%Q) /\
             m ∈ [2 - 0; 4 - 0; 1 - 0]%Q /\ (4 - 0 <= m)%Q) /\
  units (pf w') !! "1" = Some (PyFloat 1%Q) /\
  time_units (pf w') !! "1" = Some (PyInt 1).
Proof.
  intros w'.
  destruct (units_after_set_units sample_mpc_conversion Qle linked_world w')
    as ((re & le & m & Hre & Hle & Hu & Hext & _ & _) & H1 & Ht & _).
  - intros a b. cbn. unfold Qmax, GenericMinMax.gmax.
    destruct (a ?= b)%Q; auto.
  - intros a b. split; [apply Q.le_max_l | apply Q.le_max_r].
  - intros a b c. apply Qle_trans.
  - vm_compute; reflexivity.
  - vm_compute; reflexivity.
  - vm_compute; reflexivity.
  - assert (Er : re = [2; 4; 1]%Q) by (vm_compute in Hre; now injection Hre).
    assert (El : le = [0; 0; 0]%Q) by (vm_compute in Hle; now injection Hle).
    subst re le. destruct (Hext eq_refl) as [(i & r & l & Hr & Hl & Hm) Hbound].
    split; [|split; [exact H1 | exact Ht]].
    exists m. split; [exact Hu|]. split.
    + destruct i as [|[|[|i]]]; cbn in Hr, Hl; try discriminate Hr;
        injection Hr as <-; injection Hl as <-; rewrite Hm; cbn;
        [left | right; left | right; right; left].
    + exact (Hbound 1 4%Q 0%Q eq_refl eq_refl).
Defined.

(** The sample domain is 2 by 4 by 1: "unitary" is a quarter, and the
    units are the table's entries over the entry of "cm". *)
Lemma linked_world_units :
  let w' := fst (_set_units sample_mpc_conversion (linked_world (F := Q))) in
  units (pf w') !! "unitary" = Some (PyFloat (1 # 4)) /\
  units (pf w') !! "mpc" = Some (PyFloat (6 / 2)%Q) /\
  units (pf w') !! "cm" = Some (PyFloat (2 / 2)%Q) /\
  files w' = [false].
Proof. vm_compute. repeat split; reflexivity. Qed.


(** A file of the older format builds: the grid count and the block
    sizes come from the summary table. *)
Lemma old_format_world_build :
  let r := FLASHHierarchy_init stable_argsort (old_format_world (F := Q)) in
  snd r = Ok tt /\
  num_grids (hier (fst r)) = PyInt 4 /\
  grid_dimensions (hier (fst r)) = replicate 4 [4; 4; 2]%Z /\
  _particle_indices (hier (fst r)) = [0; 0; 5; 8; 8]%Z.
Proof. vm_compute. repeat split; reflexivity. Qed.

(** Against C3 as stated: the row of grid 1 holds a 0 in its first child
    slot and -1 in the others, all of them at most 0; the 0 passes the
    filter [i > -1] and [self.grids[0 - 1]] is the last grid, so the slot
    is not ignored and grid 1 gets grid 3 as a child. *)
Lemma zero_slot_not_ignored :
  let r := FLASHHierarchy_init stable_argsort (zero_slot_world (F := Q)) in
  snd r = Ok tt /\
  (forall v, v ∈ drop 7 (row_with [0; -1; -1; -1; -1; -1; -1; -1]%Z) -> (v <= 0)%Z) /\
  Children <$> grids (hier (fst r)) !! 0 = Some [2] /\
  id <$> grids (hier (fst r)) !! 2 = Some 3%Z.
Proof.
  split; [vm_compute; reflexivity|]. split; [|vm_compute; split; reflexivity].
  intros v Hv. vm_compute in Hv.
  repeat (apply elem_of_cons in Hv as [->|Hv]; [lia|]).
  now apply elem_of_nil in Hv.
Qed.

Lemma negative_slots_ignored_witness :
  match grids (hier (fst (FLASHHierarchy_init stable_argsort
                            (linked_world (F := Q))))) !! 1 with
  | Some G => Children G = []
  | None => False
  end.
Proof.
  destruct (grids (hier (fst (FLASHHierarchy_init stable_argsort
                                (linked_world (F := Q))))) !! 1)
    as [G|] eqn:HG; [|vm_compute in HG; discriminate HG].
  refine (proj1 (proj2 (negative_slots_ignored stable_argsort stable_argsort_perm
                          linked_world _
                          (sample_file [row_with [2; 3]%Z; no_children; no_children]
                             [1; 2; 2]%Z [0; 5; 3]%Z)
                          [row_with [2; 3]%Z; no_children; no_children]
                          1 G no_children _ _ _ HG _) _)).
  - vm_compute; reflexivity.
  - vm_compute; reflexivity.
  - vm_compute; reflexivity.
  - reflexivity.
  - intros v Hv. vm_compute in Hv.
    repeat (apply elem_of_cons in Hv as [->|Hv]; [lia|]).
    now apply elem_of_nil in Hv.
Defined.

(** C10, at the failing input: the identifier 3 is in no child slot of
    the adjacency table, yet grid 3 ends the build with grid 1 as its
    parent. *)
Theorem unnamed_grid_gets_parent :
  let gid := [row_with [0; -1; -1; -1; -1; -1; -1; -1]%Z; no_children; no_children] in
  let r := FLASHHierarchy_init stable_argsort (zero_slot_world (F := Q)) in
  snd r = Ok tt /\
  (forall row v, row ∈ gid -> v ∈ drop 7 row -> v <> 3%Z) /\
  (exists G, grids (hier (fst r)) !! 2 = Some G /\ id G = 3%Z /\ Parent G = Some 0).
Proof.
  split; [vm_compute; reflexivity|]. split.
  - intros row v Hrow Hv.
    repeat (apply elem_of_cons in Hrow as [->|Hrow];
            [vm_compute in Hv;
             repeat (apply elem_of_cons in Hv as [->|Hv]; [lia|]);
             now apply elem_of_nil in Hv|]).
    now apply elem_of_nil in Hrow.
  - vm_compute. eexists. repeat split; reflexivity.
Qed.

(** * The further properties on the sample checkpoints *)

Lemma find_parameter_padded_name_witness :
  _find_parameter "integer" "nyb" true (Some 0) (opened (linked_world (F := Q)))
    = (opened linked_world, Ok (PyInt 8)).
Proof.
  apply (find_parameter_padded_name "integer" true 0 (opened linked_world)
           (sample_file [row_with [2; 3]%Z; no_children; no_children]
              [1; 2; 2]%Z [0; 5; 3]%Z)
           [("globalnumblocks   ", PyInt 3); ("nxb  ", PyInt 8)]
           [("nzb", PyInt 8)] EmptyString "nyb" " " (PyInt 8));
    try reflexivity.
  intros n' v' Hin.
  apply elem_of_cons in Hin as [[= -> _]|Hin]; [vm_compute; discriminate|].
  apply list_elem_of_singleton in Hin. injection Hin as -> _.
  vm_compute. discriminate.
Defined.

(** Asked for under the name as it is stored, padding included, the
    parameter is not found. *)
Lemma find_parameter_untrimmed_request_witness :
  _find_parameter "integer" "nxb  " true (Some 0) (opened (linked_world (F := Q)))
    = (opened linked_world, Raise (KeyError "nxb  ")).
Proof.
  apply (find_parameter_untrimmed_request "integer" "nxb  " true 0
           (opened linked_world)
           (sample_file [row_with [2; 3]%Z; no_children; no_children]
              [1; 2; 2]%Z [0; 5; 3]%Z)
           [("globalnumblocks   ", PyInt 3); ("nxb  ", PyInt 8);
            ("nyb ", PyInt 8); ("nzb", PyInt 8)]);
    try reflexivity.
  vm_compute. discriminate.
Defined.

Lemma find_parameter_no_handle_leaks_witness :
  fst (_find_parameter "real" "xmin" false None (linked_world (F := Q)))
    = with_files (fun fs => fs ++ [true]) linked_world.
Proof.
  exact (find_parameter_no_handle_leaks "real" "xmin" false linked_world eq_refl).
Defined.

Lemma parse_parameter_file_reads_witness :
  let r := _parse_parameter_file (linked_world (F := Q)) in
  snd r = Ok tt /\
  domain_left_edge (pf (fst r)) = Some [0; 0; 0]%Q /\
  domain_right_edge (pf (fst r)) = Some [2; 4; 1]%Q /\
  files (fst r) = [false].
Proof.
  intros r.
  assert (E : r = (with_files (fun fs => fs ++ [false])
                     (with_pf (fun s =>
                        set_current_time (Some 0%Q)
                          (set_domain_right_edge (Some [2; 4; 1]%Q)
                             (set_domain_left_edge (Some [0; 0; 0]%Q)
                                (set_pf_handle (Some 0) s)))) linked_world), Ok tt)).
  { apply (parse_parameter_file_reads linked_world
             (sample_file [row_with [2; 3]%Z; no_children; no_children]
                [1; 2; 2]%Z [0; 5; 3]%Z)
             [("xmin ", PyFloat 0%Q); ("xmax ", PyFloat 2%Q);
              ("ymin ", PyFloat 0%Q); ("ymax ", PyFloat 4%Q);
              ("zmin ", PyFloat 0%Q); ("zmax ", PyFloat 1%Q)]
             [("time  ", PyFloat 0%Q)]
             (PyFloat 0%Q) (PyFloat 0%Q) (PyFloat 0%Q)
             (PyFloat 2%Q) (PyFloat 4%Q) (PyFloat 1%Q) (PyFloat 0%Q));
      reflexivity. }
  rewrite E. repeat split; reflexivity.
Defined.

Lemma parse_parameter_file_requires_witness :
  exists t,
    current_time (pf (fst (_parse_parameter_file (linked_world (F := Q)))))
      = Some (py_float t).
Proof.
  destruct (parse_parameter_file_requires linked_world
              (fst (_parse_parameter_file linked_world)))
    as (f & rp & rs & x0 & y0 & z0 & x1 & y1 & z1 & t & Hall).
  - vm_compute; reflexivity.
  - exists t. apply Hall.
Defined.

Lemma stale_handle_after_parse_witness :
  exists e,
    _find_parameter "real" "xmin" false None
      (fst (_parse_parameter_file (linked_world (F := Q))))
    = (fst (_parse_parameter_file linked_world), Raise e).
Proof.
  apply (stale_handle_after_parse linked_world). vm_compute; reflexivity.
Defined.

Lemma set_units_tables_witness :
  conversion_factors
    (pf (fst (_set_units sample_mpc_conversion (linked_world (F := Q))))) = ∅.
Proof.
  refine (proj1 (proj2 (set_units_tables sample_mpc_conversion linked_world _ _))).
  vm_compute; reflexivity.
Defined.

(** With a parameter stored and no domain, as in [__init__], the call
    ends with [AttributeError]. *)
Lemma set_units_with_parameters_witness :
  snd (_set_units sample_mpc_conversion (param_world (F := Q)))
    = Raise AttributeError.
Proof.
  refine (proj2 (set_units_with_parameters sample_mpc_conversion param_world
                   (inject_Z 2) _ _)).
  - vm_compute. discriminate.
  - vm_compute; reflexivity.
Defined.

Lemma count_grids_only_sets_num_grids_witness :
  match _count_grids (opened (linked_world (F := Q))) with
  | (w', Ok _) => exists n, w' = with_hier (set_num_grids n) (opened linked_world)
  | (w', Raise _) => w' = opened linked_world
  end.
Proof.
  apply (count_grids_only_sets_num_grids (opened linked_world)).
  vm_compute. eauto.
Defined.

Lemma count_grids_no_source_witness :
  _count_grids (opened (no_count_world (F := Q)))
    = (opened no_count_world, Raise (KeyError "/simulation parameters")).
Proof.
  apply (count_grids_no_source (opened no_count_world) 0
           (delete "/integer scalars"
              (sample_file [row_with [2; 3]%Z; no_children; no_children]
                 [1; 2; 2]%Z [0; 5; 3]%Z))); reflexivity.
Defined.

Lemma localnp_shape_witness :
  exists e,
    snd (_parse_hierarchy
           (fst (_initialize_grid_arrays
                   (fst (_count_grids (opened (short_counts_world (F := Q))))))))
      = Raise e.
Proof.
  refine (proj1 (localnp_shape _
                   (sample_file [row_with [2; 3]%Z; no_children; no_children]
                      [1; 2; 2]%Z [0; 5]%Z) [0; 5]%Z _ _) _ _).
  - reflexivity.
  - reflexivity.
  - cbn. lia.
  - vm_compute. lia.
Defined.

(** The boxes of the checkpoint differ from the preallocated unit
    boxes: the parse copies them. *)
Lemma parse_hierarchy_edges_witness :
  let w := fst (_initialize_grid_arrays
                  (fst (_count_grids (opened (boxed_world (F := Q)))))) in
  grid_left_edge (hier w) = replicate 3 [0; 0; 0]%Q /\
  grid_right_edge (hier w) = replicate 3 [1; 1; 1]%Q /\
  grid_left_edge (hier (fst (_parse_hierarchy w)))
    = [[0; 0; 0]; [0; 0; 0]; [1; 2; 0]]%Q /\
  grid_right_edge (hier (fst (_parse_hierarchy w)))
    = [[2; 4; 1]; [1; 2; 1]; [2; 4; 1]]%Q.
Proof.
  intros w. split; [reflexivity|]. split; [reflexivity|].
  destruct (parse_hierarchy_edges w (fst (_parse_hierarchy w))
              (<["/bounding box" :=
                   BoxArray [[(0, 2); (0, 4); (0, 1)]; [(0, 1); (0, 2); (0, 1)];
                             [(1, 2); (2, 4); (0, 1)]]%Q]>
                 (sample_file [row_with [2; 3]%Z; no_children; no_children]
                    [1; 2; 2]%Z [0; 5; 3]%Z))
              [[(0, 2); (0, 4); (0, 1)]; [(0, 1); (0, 2); (0, 1)];
               [(1, 2); (2, 4); (0, 1)]]%Q) as [Hl Hr].
  - reflexivity.
  - reflexivity.
  - repeat constructor.
  - vm_compute; reflexivity.
  - split; [exact (Hl eq_refl) | exact (Hr eq_refl)].
Defined.

Lemma parse_hierarchy_fresh_grids_witness :
  let w := fst (_initialize_grid_arrays
                  (fst (_count_grids (opened (linked_world (F := Q)))))) in
  length (grids (hier (fst (_parse_hierarchy w)))) = 3.
Proof.
  intros w.
  refine (proj1 (parse_hierarchy_fresh_grids w (fst (_parse_hierarchy w)) 3 _ _)).
  - reflexivity.
  - vm_compute; reflexivity.
Defined.

Lemma built_hierarchy_shape_witness :
  1 <= length (grids (hier (fst (FLASHHierarchy_init stable_argsort
                                   (linked_world (F := Q)))))).
Proof.
  refine (proj1 (built_hierarchy_shape stable_argsort stable_argsort_perm
                   linked_world _ _)).
  vm_compute; reflexivity.
Defined.


Lemma listed_child_has_parent_witness :
  exists C q P,
    grids (hier (fst (FLASHHierarchy_init stable_argsort
                        (linked_world (F := Q))))) !! 1 = Some C /\
    Parent C = Some q /\
    grids (hier (fst (FLASHHierarchy_init stable_argsort
                        (linked_world (F := Q))))) !! q = Some P /\
    1 ∈ Children P.
Proof.
  destruct (grids (hier (fst (FLASHHierarchy_init stable_argsort
                                (linked_world (F := Q))))) !! 0)
    as [P|] eqn:HP; [|vm_compute in HP; discriminate HP].
  refine (listed_child_has_parent stable_argsort stable_argsort_perm
            linked_world _ 0 P 1 _ HP _).
  - vm_compute; reflexivity.
  - vm_compute in HP. injection HP as <-. cbn. left.
Defined.

Lemma unique_parent_witness :
  match grids (hier (fst (FLASHHierarchy_init stable_argsort
                            (linked_world (F := Q))))) !! 1 with
  | Some C => Parent C = Some 0
  | None => False
  end.
Proof.
  destruct (grids (hier (fst (FLASHHierarchy_init stable_argsort
                                (linked_world (F := Q))))) !! 1)
    as [C|] eqn:HC; [|vm_compute in HC; discriminate HC].
  destruct (grids (hier (fst (FLASHHierarchy_init stable_argsort
                                (linked_world (F := Q))))) !! 0)
    as [P|] eqn:HP; [|vm_compute in HP; discriminate HP].
  assert (HidC : id C = 2%Z) by (vm_compute in HC; now injection HC as <-).
  refine (unique_parent stable_argsort stable_argsort_perm linked_world _
            (sample_file [row_with [2; 3]%Z; no_children; no_children]
               [1; 2; 2]%Z [0; 5; 3]%Z)
            [row_with [2; 3]%Z; no_children; no_children]
            0 P (row_with [2; 3]%Z) 1 C _ _ _ HC HP _ _ _).
  - reflexivity.
  - reflexivity.
  - vm_compute; reflexivity.
  - reflexivity.
  - rewrite HidC. cbn. left.
  - rewrite HidC. intros [|[|[|q]]] row' v Hrow Hv; cbn in Hrow;
      try discriminate Hrow; injection Hrow as <-; vm_compute in Hv;
      repeat (apply elem_of_cons in Hv as [->|Hv]; [split; [lia | intros; lia || reflexivity]|]);
      now apply elem_of_nil in Hv.
Defined.

Lemma detect_fields_result_witness :
  _detect_fields (opened (linked_world (F := Q)))
    = (with_hier (set_field_list ["dens"; "pres"; "particle_posx"])
         (opened linked_world), Ok tt).
Proof.
  refine (proj1 (detect_fields_result (opened linked_world) 0
                   (sample_file [row_with [2; 3]%Z; no_children; no_children]
                      [1; 2; 2]%Z [0; 5; 3]%Z)
                   [["dens"]; ["pres"]] _ _ _ _) [["posx  "]] _ _).
  - reflexivity.
  - reflexivity.
  - reflexivity.
  - reflexivity.
  - reflexivity.
  - repeat constructor; discriminate.
Defined.

(** No child slot holds the identifier 1 or a 0: the first grid has no
    parent. *)
Lemma orphan_has_no_parent_witness :
  match grids (hier (fst (FLASHHierarchy_init stable_argsort
                            (linked_world (F := Q))))) !! 0 with
  | Some C => Parent C = None
  | None => False
  end.
Proof.
  destruct (grids (hier (fst (FLASHHierarchy_init stable_argsort
                                (linked_world (F := Q))))) !! 0)
    as [C|] eqn:HC; [|vm_compute in HC; discriminate HC].
  assert (HidC : id C = 1%Z) by (vm_compute in HC; now injection HC as <-).
  refine (orphan_has_no_parent stable_argsort stable_argsort_perm linked_world _
            (sample_file [row_with [2; 3]%Z; no_children; no_children]
               [1; 2; 2]%Z [0; 5; 3]%Z)
            [row_with [2; 3]%Z; no_children; no_children] 0 C _ _ _ HC _).
  - reflexivity.
  - reflexivity.
  - vm_compute; reflexivity.
  - rewrite HidC. intros [|[|[|q]]] row' v Hrow Hv; cbn in Hrow;
      try discriminate Hrow; injection Hrow as <-; vm_compute in Hv;
      repeat (apply elem_of_cons in Hv as [->|Hv]; [split; lia|]);
      now apply elem_of_nil in Hv.
Defined.
